(** * CineMatch hybrid recommendation engine

    A shallow embedding of [backend/services/recommendationEngine.js]
    (class [HybridRecommendationEngine]) and the properties its
    specification states about it.

    Conventions of the embedding.
    - A JavaScript number is a real number ([R]): arithmetic is exact, there
      is no NaN, no rounding and no underflow ([Math.exp] is the real
      exponential, which is never 0).  Identifiers and epoch-millisecond
      timestamps are integers ([Z]); lengths and the [count] option are
      natural numbers.
    - A property that may be missing on an object is an [option]; an array
      that the code replaces by [[]] when missing is a plain list.
    - A plain object used as a dictionary is an association list in
      insertion order (the order [Object.keys] and [Object.entries] give for
      string keys).  It holds own properties only: the members a plain object
      inherits are not in it, and a property that depends on a lookup names
      the keys it excludes.
    - The collaborators ([TrackingService], [MatrixFactorization], the
      clock) are variables of a section; a call that throws is [None].
    - [await] and [Promise.all] are sequential composition: the
      collaborators are functions of their arguments.
    - The Redis cache is a state passed through [generateRecommendations];
      its calls succeed.
    - [sort] and the assignment to [recommendation.score] change their
      objects in place; here they return the changed value, the old one
      staying available to state what changed.

    The file [recommendationEngine.js] holds the class twice; the first
    text (with the sequence and rule scorers) is the one embedded. *)

From Stdlib Require Import Reals Lra Lia ZArith List String Bool.
From Stdlib Require Import Permutation Sorted.
Import ListNotations.
Open Scope string_scope.
Open Scope list_scope.
Open Scope R_scope.

(** ** JavaScript helpers *)

(** [x || d] for a number [x]: zero is falsy, so it takes the default. *)
Definition jsOr (x d : R) : R :=
  if Req_dec_T x 0 then d else x.

(** [x || d] when [x] may also be undefined. *)
Definition jsOrOpt (x : option R) (d : R) : R :=
  match x with
  | Some v => jsOr v d
  | None => d
  end.

(** A number is truthy when it is present and not zero. *)
Definition truthy (x : option R) : bool :=
  match x with
  | Some v => if Req_dec_T v 0 then false else true
  | None => false
  end.

Definition Rleb (x y : R) : bool := if Rle_dec x y then true else false.
Definition Rltb (x y : R) : bool := if Rlt_dec x y then true else false.

(** [Math.max(...l)] and [Math.min(...l)]; the code calls them on non-empty
    lists only (the empty case, an infinity, has no real value). *)
Definition jsMax (l : list R) : R :=
  match l with
  | [] => 0
  | x :: xs => fold_left Rmax xs x
  end.

Definition jsMin (l : list R) : R :=
  match l with
  | [] => 0
  | x :: xs => fold_left Rmin xs x
  end.

Definition jsMinZ (l : list Z) : Z :=
  match l with
  | [] => 0%Z
  | x :: xs => fold_left Z.min xs x
  end.

Definition jsMaxZ (l : list Z) : Z :=
  match l with
  | [] => 0%Z
  | x :: xs => fold_left Z.max xs x
  end.

Definition Rsum (l : list R) : R := fold_left Rplus l 0.

(** [Math.floor] and [Math.ceil]. *)
Definition jsFloor (x : R) : R := IZR (up x - 1).
Definition jsCeil (x : R) : R := - jsFloor (- x).

(** [Array.prototype.sort(cmp)] is a stable sort.  [before a b] is the test
    [cmp(a, b) <= 0]: [a] may stay in front of [b].  For a comparator that
    is a total preorder the result is the one stable sorted arrangement,
    which insertion from the right computes. *)
Section StableSort.
Variable A : Type.
Variable before : A -> A -> bool.

Fixpoint insertSorted (x : A) (l : list A) : list A :=
  match l with
  | [] => [x]
  | y :: ys => if before x y then x :: l else y :: insertSorted x ys
  end.

Fixpoint jsSort (l : list A) : list A :=
  match l with
  | [] => []
  | x :: xs => insertSorted x (jsSort xs)
  end.
End StableSort.

Arguments insertSorted {A} before x l.
Arguments jsSort {A} before l.

(** ** Dictionaries in insertion order *)

Definition Dict := list (string * R).

Fixpoint dictGet (d : Dict) (k : string) : option R :=
  match d with
  | [] => None
  | (k', v) :: rest => if String.eqb k' k then Some v else dictGet rest k
  end.

(** [d[k] = v]: overwrite in place, or append a new key. *)
Fixpoint dictSet (d : Dict) (k : string) (v : R) : Dict :=
  match d with
  | [] => [(k, v)]
  | (k', v') :: rest =>
      if String.eqb k' k then (k', v) :: rest else (k', v') :: dictSet rest k v
  end.

(** [d[k] = (d[k] || 0) + w] *)
Definition dictAdd (d : Dict) (k : string) (w : R) : Dict :=
  dictSet d k (jsOrOpt (dictGet d k) 0 + w).

(** ** Data model *)

Record Metadata := {
  md_genres : list string;
  md_directors : list string;
  md_actors : list string;
  md_runtime : option R;
  md_releaseYear : option R
}.

Definition emptyMetadata : Metadata :=
  {| md_genres := []; md_directors := []; md_actors := [];
     md_runtime := None; md_releaseYear := None |}.

Record Action := {
  a_userId : string;
  a_movieId : Z;
  a_actionType : string;
  a_value : option R;
  a_timestamp : Z;
  a_metadata : option Metadata
}.

(** [action.metadata || {}] *)
Definition metadataOf (a : Action) : Metadata :=
  match a_metadata a with
  | Some m => m
  | None => emptyMetadata
  end.

(** [r.value] used as a number; a [rate] action always carries one. *)
Definition valueOf (a : Action) : R :=
  match a_value a with
  | Some v => v
  | None => 0
  end.

Record Movie := {
  m_id : Z;
  m_genres : list string;
  m_directors : list string;
  m_actors : list string;
  m_releaseYear : option R;
  m_runtime : option R;
  m_averageRating : R;
  m_ratingCount : R;
  m_popularity : R
}.

(** [averageRating], [ratingCount] and [popularity] are only ever read as
    [movie.x || 0], so a missing value is the number 0. *)

Record RuntimePreference := {
  rt_min : R;
  rt_max : R;
  rt_ideal : R
}.

Record YearPreference := {
  y_min : R;
  y_max : R
}.

Record Preferences := {
  p_genres : option Dict;
  p_directors : option Dict;
  p_actors : option Dict;
  p_runtimePreference : option RuntimePreference;
  p_yearPreference : option YearPreference;
  p_avgRating : R;
  p_ratingVariance : R;
  p_ratingThreshold : R
}.

(** The profile object.  [getUserProfile] builds it in two shapes: the full
    one, and [{ userId, ratingCount: 0, recentActions: [] }] after a failed
    read, where every other property is missing. *)
Record UserProfile := {
  u_userId : string;
  u_ratingCount : nat;
  u_avgRating : option R;
  u_ratingVariance : option R;
  u_timeActive : option Z;
  u_engagement : option R;
  u_lastActive : option Z;
  u_sessionDepth : option R;
  u_recencyScore : option R;
  u_recentActions : list Action;
  u_preferences : option Preferences
}.

Record ScoreRecord := {
  s_movieId : Z;
  s_movie : option Movie;
  s_score : R;
  s_source : string
}.

Record Prediction := {
  pred_movieId : Z;
  pred_score : R
}.

Record SimilarUser := {
  su_userId : string;
  su_similarity : R
}.

Record Weights := {
  w_content : R;
  w_collaborative : R;
  w_sequence : R;
  w_rule : R
}.

(** An entry of [movieScoreMap] in [combineScores]. *)
Record FusedEntry := {
  f_movieId : Z;
  f_movie : Movie;
  f_contentScore : R;
  f_collaborativeScore : R;
  f_sequenceScore : R;
  f_ruleScore : R;
  f_explanation : option (list string)
}.

Record HybridRecord := {
  h_movieId : Z;
  h_movie : Movie;
  h_contentScore : R;
  h_collaborativeScore : R;
  h_sequenceScore : R;
  h_ruleScore : R;
  h_explanation : option (list string);
  h_score : R;
  h_weights : Weights;
  h_source : string
}.

Record SessionSignals := {
  sig_genres : Dict;
  sig_directors : Dict;
  sig_actors : Dict;
  sig_totalWeight : R
}.

Record RulePreferences := {
  rp_preferredGenres : list string;
  rp_minRating : R;
  rp_yearRange : option YearPreference;
  rp_runtimeRange : option RuntimePreference
}.

Record Options := {
  o_count : option nat;
  o_excludeRated : option bool;
  o_excludeWatchlist : option bool;
  o_minScore : option R;
  o_diversityFactor : option R;
  o_includeExplanations : option bool
}.

Definition DEFAULT_SEQUENCE_WINDOW : nat := 20.
Definition DEFAULT_SESSION_TIMEOUT : Z := (30 * 60 * 1000)%Z.
Definition RECENCY_HALF_LIFE_HOURS : R := 24.

(** ** Shared numerics *)

Definition normalizeScore (score : R) : R :=
  if Rlt_dec score 1 then 0
  else if Rgt_dec score 10 then 1
  else (score - 1) / 9.

Definition normalizeRatingSignal (value : R) : R :=
  let normalized := (value - 5.5) / 4.5 in
  Rmax (-1) (Rmin 1 normalized).

Definition calculatePreferenceScore
    (items : list string) (preferenceMap : option Dict) (useMax : bool) : R :=
  match preferenceMap with
  | None => 0.5
  | Some pm =>
      if ((List.length items =? 0) || (List.length pm =? 0))%nat then 0.5
      else
        let scores :=
          flat_map (fun item => match dictGet pm item with
                                | Some s => [s]
                                | None => []
                                end) items in
        if (List.length scores =? 0)%nat then 0.45
        else
          let adjustedScores := map (fun s => (s + 1) / 2) scores in
          if useMax then jsMax adjustedScores
          else Rsum adjustedScores / INR (List.length adjustedScores)
  end.

Definition calculateRuntimePreference
    (runtimeSignals : list (R * R)) : RuntimePreference :=
  if (List.length runtimeSignals =? 0)%nat then
    {| rt_min := 70; rt_max := 190; rt_ideal := 120 |}
  else
    let weightedSum :=
      fold_left (fun sum item => sum + fst item * snd item) runtimeSignals 0 in
    let totalWeight :=
      jsOr (fold_left (fun sum item => sum + snd item) runtimeSignals 0) 1 in
    let ideal := weightedSum / totalWeight in
    {| rt_min := Rmax 50 (ideal - 40); rt_max := ideal + 50;
       rt_ideal := ideal |}.

Definition calculateRuntimeScore
    (movie : Movie) (runtimePreference : option RuntimePreference) : R :=
  match runtimePreference with
  | None => 0.5
  | Some rp =>
      if negb (truthy (m_runtime movie)) then 0.5
      else
        let runtime := jsOrOpt (m_runtime movie) 0 in
        if Rlt_dec runtime (rt_min rp) then 0.2
        else if Rgt_dec runtime (rt_max rp) then 0.2
        else
          let distance := Rabs (runtime - rt_ideal rp) in
          let maxDistance :=
            Rmax (rt_ideal rp - rt_min rp) (rt_max rp - rt_ideal rp) in
          1 - distance / jsOr maxDistance 1
  end.

Definition calculateYearScore
    (movie : Movie) (yearPreference : option YearPreference) : R :=
  match yearPreference with
  | None => 0.5
  | Some yp =>
      if negb (truthy (m_releaseYear movie)) then 0.5
      else
        let year := jsOrOpt (m_releaseYear movie) 0 in
        if Rlt_dec year (y_min yp) then 0.3
        else if Rgt_dec year (y_max yp) then 0.3
        else 1
  end.

Definition calculatePopularityScore (movie : Movie) : R :=
  let popularityScore := jsOr (m_popularity movie) 0 / 100 in
  let ratingScore := jsOr (m_averageRating movie) 0 / 10 in
  let ratingCountScore := ln (jsOr (m_ratingCount movie) 0 + 1) / ln 10000 in
  popularityScore * 0.4 + ratingScore * 0.4 + ratingCountScore * 0.2.

Definition calculateRatingVariance (ratings : list Action) : R :=
  if (List.length ratings <? 2)%nat then 0
  else
    let n := INR (List.length ratings) in
    let mean := fold_left (fun sum r => sum + valueOf r) ratings 0 / n in
    fold_left (fun sum r => sum + (valueOf r - mean) ^ 2) ratings 0 / n.

Definition actionTypeBoost (actionType : string) (value : option R) : R :=
  if String.eqb actionType "watchTime" then Rmin 1.2 (jsOrOpt value 0 / 60)
  else if String.eqb actionType "rate" then jsOrOpt value 5 / 10
  else if String.eqb actionType "add_watchlist" then 0.7
  else if String.eqb actionType "view" then 0.5
  else 0.4.

(** The initial values of [contentScore], ..., [ruleScore] and the slot
    that [ingestScores] writes, named by [scoreKey]. *)
Inductive ScoreKey := ContentScore | CollaborativeScore | SequenceScore | RuleScore.

Definition setScore (scoreKey : ScoreKey) (v : R) (e : FusedEntry) : FusedEntry :=
  match scoreKey with
  | ContentScore =>
      {| f_movieId := f_movieId e; f_movie := f_movie e;
         f_contentScore := v;
         f_collaborativeScore := f_collaborativeScore e;
         f_sequenceScore := f_sequenceScore e;
         f_ruleScore := f_ruleScore e;
         f_explanation := f_explanation e |}
  | CollaborativeScore =>
      {| f_movieId := f_movieId e; f_movie := f_movie e;
         f_contentScore := f_contentScore e;
         f_collaborativeScore := v;
         f_sequenceScore := f_sequenceScore e;
         f_ruleScore := f_ruleScore e;
         f_explanation := f_explanation e |}
  | SequenceScore =>
      {| f_movieId := f_movieId e; f_movie := f_movie e;
         f_contentScore := f_contentScore e;
         f_collaborativeScore := f_collaborativeScore e;
         f_sequenceScore := v;
         f_ruleScore := f_ruleScore e;
         f_explanation := f_explanation e |}
  | RuleScore =>
      {| f_movieId := f_movieId e; f_movie := f_movie e;
         f_contentScore := f_contentScore e;
         f_collaborativeScore := f_collaborativeScore e;
         f_sequenceScore := f_sequenceScore e;
         f_ruleScore := v;
         f_explanation := f_explanation e |}
  end.

Definition getScore (scoreKey : ScoreKey) (e : FusedEntry) : R :=
  match scoreKey with
  | ContentScore => f_contentScore e
  | CollaborativeScore => f_collaborativeScore e
  | SequenceScore => f_sequenceScore e
  | RuleScore => f_ruleScore e
  end.

(** [movieScoreMap]: a [Map] keyed by [movieId], in insertion order. *)
Definition ScoreMap := list FusedEntry.

Definition mapHas (m : ScoreMap) (id : Z) : bool :=
  existsb (fun e => (f_movieId e =? id)%Z) m.

(** [movieScoreMap.get(id)[scoreKey] = v]: the entry is updated in place. *)
Fixpoint mapWrite (m : ScoreMap) (id : Z) (scoreKey : ScoreKey) (v : R) : ScoreMap :=
  match m with
  | [] => []
  | e :: rest =>
      if (f_movieId e =? id)%Z then setScore scoreKey v e :: rest
      else e :: mapWrite rest id scoreKey v
  end.

Definition ingestOne (includeExplanations : bool) (scoreKey : ScoreKey)
    (m : ScoreMap) (item : ScoreRecord) : ScoreMap :=
  match s_movie item with
  | None => m
  | Some movie =>
      let m' :=
        if mapHas m (s_movieId item) then m
        else m ++ [{| f_movieId := s_movieId item;
                      f_movie := movie;
                      f_contentScore := 0;
                      f_collaborativeScore := 0;
                      f_sequenceScore := 0;
                      f_ruleScore := 0;
                      f_explanation :=
                        if includeExplanations then Some [] else None |}] in
      mapWrite m' (s_movieId item) scoreKey (jsOr (s_score item) 0)
  end.

Definition ingestScores (includeExplanations : bool)
    (scores : list ScoreRecord) (scoreKey : ScoreKey) (m : ScoreMap) : ScoreMap :=
  fold_left (ingestOne includeExplanations scoreKey) scores m.

(** ** Weight policy *)

Definition normalizeWeights (weights : Weights) : Weights :=
  let total :=
    jsOr (fold_left Rplus
            [w_content weights; w_collaborative weights;
             w_sequence weights; w_rule weights] 0) 1 in
  {| w_content := Rmax 0 (w_content weights / total);
     w_collaborative := Rmax 0 (w_collaborative weights / total);
     w_sequence := Rmax 0 (w_sequence weights / total);
     w_rule := Rmax 0 (w_rule weights / total) |}.

Definition calculateWeights (userProfile : UserProfile) : Weights :=
  let ratingCount := u_ratingCount userProfile in
  let sessionDepth := jsOrOpt (u_sessionDepth userProfile) 0 in
  let recencyScore := jsOrOpt (u_recencyScore userProfile) 0 in
  if (ratingCount <? 5)%nat then
    normalizeWeights
      {| w_content := 0.4;
         w_collaborative := 0.1;
         w_sequence := 0.2 + recencyScore * 0.1;
         w_rule := 0.3 |}
  else if (ratingCount <? 25)%nat then
    normalizeWeights
      {| w_content := 0.35;
         w_collaborative := 0.25;
         w_sequence := 0.25 + sessionDepth * 0.05;
         w_rule := 0.15 |}
  else
    normalizeWeights
      {| w_content := 0.25;
         w_collaborative := 0.45;
         w_sequence := 0.2 + recencyScore * 0.1;
         w_rule := 0.1 |}.

(** ** Fusion *)

Definition REASON_CONTENT : string := "Güçlü içerik uyumu".
Definition REASON_COLLABORATIVE : string :=
  "Benzer zevke sahip kullanıcıların tercihi".
Definition REASON_SEQUENCE : string := "Son izleme akışına göre önerildi".
Definition REASON_RULE : string := "Onboarding tercihlerinize uygun".

Definition generateExplanations (item : FusedEntry) (weights : Weights) : list string :=
  (if Rltb 0.7 (f_contentScore item) && Rltb 0.2 (w_content weights)
   then [REASON_CONTENT] else [])
  ++ (if Rltb 0.7 (f_collaborativeScore item) && Rltb 0.2 (w_collaborative weights)
      then [REASON_COLLABORATIVE] else [])
  ++ (if Rltb 0.7 (f_sequenceScore item) && Rltb 0.2 (w_sequence weights)
      then [REASON_SEQUENCE] else [])
  ++ (if Rltb 0.6 (f_ruleScore item) && Rltb 0.1 (w_rule weights)
      then [REASON_RULE] else []).

Definition toHybrid (includeExplanations : bool) (weights : Weights)
    (item : FusedEntry) : HybridRecord :=
  let hybridScore :=
    f_contentScore item * w_content weights
    + f_collaborativeScore item * w_collaborative weights
    + f_sequenceScore item * w_sequence weights
    + f_ruleScore item * w_rule weights in
  {| h_movieId := f_movieId item;
     h_movie := f_movie item;
     h_contentScore := f_contentScore item;
     h_collaborativeScore := f_collaborativeScore item;
     h_sequenceScore := f_sequenceScore item;
     h_ruleScore := f_ruleScore item;
     h_explanation :=
       match f_explanation item with
       | Some e =>
           if includeExplanations then Some (generateExplanations item weights)
           else Some e
       | None => None
       end;
     h_score := hybridScore;
     h_weights := weights;
     h_source := "hybrid" |}.

Definition combineScores
    (contentScores collaborativeScores sequenceScores ruleScores : list ScoreRecord)
    (weights : Weights) (includeExplanations : bool) : list HybridRecord :=
  let movieScoreMap :=
    ingestScores includeExplanations ruleScores RuleScore
      (ingestScores includeExplanations sequenceScores SequenceScore
         (ingestScores includeExplanations collaborativeScores CollaborativeScore
            (ingestScores includeExplanations contentScores ContentScore []))) in
  map (toHybrid includeExplanations weights) movieScoreMap.

(** ** Diversity filter *)

(** The comparator [(a, b) => b.score - a.score]. *)
Definition byScoreDesc (a b : HybridRecord) : bool :=
  Rleb (h_score b - h_score a) 0.

Definition setHybridScore (r : HybridRecord) (v : R) : HybridRecord :=
  {| h_movieId := h_movieId r;
     h_movie := h_movie r;
     h_contentScore := h_contentScore r;
     h_collaborativeScore := h_collaborativeScore r;
     h_sequenceScore := h_sequenceScore r;
     h_ruleScore := h_ruleScore r;
     h_explanation := h_explanation r;
     h_score := v;
     h_weights := h_weights r;
     h_source := h_source r |}.

Definition setHas (s : list string) (x : string) : bool :=
  existsb (String.eqb x) s.

(** The loop of [applyDiversityFilter] over the sorted records, with the
    two sets of genres and directors selected so far. *)
Fixpoint diversityLoop (diversityFactor : R)
    (selectedGenres selectedDirectors : list string)
    (sortedRecommendations : list HybridRecord) : list HybridRecord :=
  match sortedRecommendations with
  | [] => []
  | recommendation :: rest =>
      let genres := m_genres (h_movie recommendation) in
      let directors := m_directors (h_movie recommendation) in
      let genreOverlap := existsb (setHas selectedGenres) genres in
      let directorOverlap := existsb (setHas selectedDirectors) directors in
      let diversityPenalty :=
        0 + (if genreOverlap then 0.3 else 0)
          + (if directorOverlap then 0.2 else 0) in
      setHybridScore recommendation
        (h_score recommendation * (1 - diversityPenalty * diversityFactor))
      :: diversityLoop diversityFactor
           (selectedGenres ++ genres) (selectedDirectors ++ directors) rest
  end.

Definition applyDiversityFilter
    (recommendations : list HybridRecord) (diversityFactor : R) : list HybridRecord :=
  if Rle_dec diversityFactor 0 then recommendations
  else diversityLoop diversityFactor [] [] (jsSort byScoreDesc recommendations).

(** Lines 60-63 of [generateRecommendations]:
    [.filter(item => item.score >= minScore).sort(...).slice(0, count)]. *)
Definition selectTop
    (diversifiedScores : list HybridRecord) (minScore : R) (count : nat)
    : list HybridRecord :=
  firstn count
    (jsSort byScoreDesc
       (filter (fun item => Rleb minScore (h_score item)) diversifiedScores)).

(** ** Sessions *)

Definition byTimestampAsc (a b : Action) : bool :=
  (a_timestamp a - a_timestamp b <=? 0)%Z.

Definition sessionStep (sessionTimeout : Z)
    (st : list (list Action) * list Action) (action : Action)
    : list (list Action) * list Action :=
  let (sessions, currentSession) := st in
  let actionTime := a_timestamp action in
  if (List.length currentSession =? 0)%nat then (sessions, currentSession ++ [action])
  else
    let lastActionTime := a_timestamp (last currentSession action) in
    if (actionTime - lastActionTime <=? sessionTimeout)%Z
    then (sessions, currentSession ++ [action])
    else (sessions ++ [currentSession], [action]).

Definition groupActionsBySessions
    (actions : list Action) (sessionTimeout : Z) : list (list Action) :=
  let sorted := jsSort byTimestampAsc actions in
  let (sessions, currentSession) :=
    fold_left (sessionStep sessionTimeout) sorted ([], []) in
  if (0 <? List.length currentSession)%nat then sessions ++ [currentSession]
  else sessions.

(** ** The cache *)

(** The key [`recommendations:${userId}:${JSON.stringify(options)}`] is
    determined by the pair of the user and the options object as passed;
    a stored value is the JSON text of a recommendation list, which
    [JSON.parse] reads back. *)
Definition CacheKey : Type := string * Options.

Definition CacheKey_eq_dec (a b : CacheKey) : {a = b} + {a <> b}.
Proof.
  repeat decide equality; solve [apply Req_dec_T | apply string_dec].
Defined.

(** Entries carry the time-to-live given to [setex]. *)
Definition Cache := list (CacheKey * (nat * list HybridRecord)).

Fixpoint redisGet (cache : Cache) (key : CacheKey) : option (list HybridRecord) :=
  match cache with
  | [] => None
  | (k, (_, v)) :: rest =>
      if CacheKey_eq_dec k key then Some v else redisGet rest key
  end.

Definition redisSetex
    (cache : Cache) (key : CacheKey) (ttl : nat) (v : list HybridRecord) : Cache :=
  (key, (ttl, v)) :: cache.

Definition cacheTimeout : nat := 300.

(** ** Profile accumulators of [calculateUserPreferences] *)

Record PreferenceAcc := {
  genrePreferences : Dict;
  directorPreferences : Dict;
  actorPreferences : Dict;
  genreCounts : Dict;
  directorCounts : Dict;
  actorCounts : Dict;
  runtimeSignals : list (R * R);
  yearSignals : list (R * R)
}.

Definition emptyPreferenceAcc : PreferenceAcc :=
  {| genrePreferences := []; directorPreferences := []; actorPreferences := [];
     genreCounts := []; directorCounts := []; actorCounts := [];
     runtimeSignals := []; yearSignals := [] |}.

Definition addAll (d : Dict) (keys : list string) (w : R) : Dict :=
  fold_left (fun acc k => dictAdd acc k w) keys d.

Definition preferenceStep (acc : PreferenceAcc) (rating : Action) : PreferenceAcc :=
  let ratingSignal := normalizeRatingSignal (valueOf rating) in
  let metadata := metadataOf rating in
  {| genrePreferences := addAll (genrePreferences acc) (md_genres metadata) ratingSignal;
     directorPreferences :=
       addAll (directorPreferences acc) (md_directors metadata) ratingSignal;
     actorPreferences := addAll (actorPreferences acc) (md_actors metadata) ratingSignal;
     genreCounts := addAll (genreCounts acc) (md_genres metadata) 1;
     directorCounts := addAll (directorCounts acc) (md_directors metadata) 1;
     actorCounts := addAll (actorCounts acc) (md_actors metadata) 1;
     runtimeSignals :=
       if truthy (md_runtime metadata) && Rltb 0 ratingSignal
       then runtimeSignals acc ++ [(jsOrOpt (md_runtime metadata) 0, ratingSignal)]
       else runtimeSignals acc;
     yearSignals :=
       if truthy (md_releaseYear metadata) && Rltb 0 ratingSignal
       then yearSignals acc ++ [(jsOrOpt (md_releaseYear metadata) 0, ratingSignal)]
       else yearSignals acc |}.

Definition normalizePreferenceMap (preferences counts : Dict) : Dict :=
  map (fun kv => (fst kv, snd kv / jsOrOpt (dictGet counts (fst kv)) 1)) preferences.

(** ** Rule scorer *)

Definition extractRulePreferences (userProfile : UserProfile) : option RulePreferences :=
  match u_preferences userProfile with
  | None => None
  | Some preferences =>
      match p_genres preferences with
      | None => None
      | Some genres =>
          let sortedGenres :=
            map fst
              (firstn 3
                 (jsSort (fun a b : string * R => Rleb (snd b - snd a) 0) genres)) in
          Some {| rp_preferredGenres := sortedGenres;
                  rp_minRating := jsOr (p_ratingThreshold preferences) 6.5;
                  rp_yearRange := p_yearPreference preferences;
                  rp_runtimeRange := p_runtimePreference preferences |}
      end
  end.

Definition calculateRuleScore (movie : Movie) (rulePreferences : RulePreferences) : R :=
  let score0 := 0.4 in
  let score1 :=
    if (0 <? List.length (rp_preferredGenres rulePreferences))%nat then
      let genreMatches :=
        filter (fun genre => existsb (String.eqb genre)
                               (rp_preferredGenres rulePreferences))
               (m_genres movie) in
      score0 + Rmin 0.4 (INR (List.length genreMatches) * 0.15)
    else score0 in
  let score2 :=
    match rp_yearRange rulePreferences, m_releaseYear movie with
    | Some yearRange, Some releaseYear =>
        if Rleb (y_min yearRange) releaseYear && Rleb releaseYear (y_max yearRange)
        then score1 + 0.1 else score1
    | _, _ => score1
    end in
  let score3 :=
    match rp_runtimeRange rulePreferences with
    | Some runtimeRange =>
        if truthy (m_runtime movie) then
          let runtime := jsOrOpt (m_runtime movie) 0 in
          if Rleb (rt_min runtimeRange) runtime && Rleb runtime (rt_max runtimeRange)
          then score2 + 0.1 else score2
        else score2
    | None => score2
    end in
  let score4 :=
    if Rleb (rp_minRating rulePreferences) (jsOr (m_averageRating movie) 0)
    then score3 + 0.1 else score3 in
  normalizeScore (score4 * 10).

(** ** Scorers that need no collaborator *)

Definition popularityFallback (movies : list Movie) (source : string) : list ScoreRecord :=
  map (fun movie =>
         {| s_movieId := m_id movie;
            s_movie := Some movie;
            s_score := calculatePopularityScore movie;
            s_source := source |}) movies.

(** [calculateContentSimilarity] for a present [userPreferences]; its only
    caller, [contentBasedRecommendation], has returned before when they are
    missing. *)
Definition calculateContentSimilarity (movie : Movie) (userPreferences : Preferences) : R :=
  let genreScore :=
    calculatePreferenceScore (m_genres movie) (p_genres userPreferences) false in
  let directorScore :=
    calculatePreferenceScore (m_directors movie) (p_directors userPreferences) true in
  let actorScore :=
    calculatePreferenceScore (m_actors movie) (p_actors userPreferences) false in
  let runtimeScore :=
    calculateRuntimeScore movie (p_runtimePreference userPreferences) in
  let yearScore := calculateYearScore movie (p_yearPreference userPreferences) in
  let score :=
    genreScore * 0.4 + directorScore * 0.2 + actorScore * 0.2
    + runtimeScore * 0.1 + yearScore * 0.1 in
  normalizeScore (score * 10).

Definition contentBasedRecommendation
    (availableMovies : list Movie) (userProfile : UserProfile) : list ScoreRecord :=
  match u_preferences userProfile with
  | None => popularityFallback availableMovies "content-cold"
  | Some preferences =>
      if (u_ratingCount userProfile =? 0)%nat
      then popularityFallback availableMovies "content-cold"
      else
        map (fun movie =>
               {| s_movieId := m_id movie;
                  s_movie := Some movie;
                  s_score := calculateContentSimilarity movie preferences;
                  s_source := "content-based" |}) availableMovies
  end.

Definition ruleBasedRecommendation
    (availableMovies : list Movie) (userProfile : UserProfile) : list ScoreRecord :=
  match extractRulePreferences userProfile with
  | None => popularityFallback availableMovies "rule-cold"
  | Some rulePreferences =>
      map (fun movie =>
             {| s_movieId := m_id movie;
                s_movie := Some movie;
                s_score := calculateRuleScore movie rulePreferences;
                s_source := "rule-based" |}) availableMovies
  end.

Definition calculateSessionSimilarity (movie : Movie) (sessionSignals : SessionSignals) : R :=
  if Req_dec_T (sig_totalWeight sessionSignals) 0 then 0.4
  else
    let genreScore :=
      calculatePreferenceScore (m_genres movie) (Some (sig_genres sessionSignals)) false in
    let directorScore :=
      calculatePreferenceScore (m_directors movie)
        (Some (sig_directors sessionSignals)) true in
    let actorScore :=
      calculatePreferenceScore (m_actors movie) (Some (sig_actors sessionSignals)) false in
    let score := genreScore * 0.5 + directorScore * 0.3 + actorScore * 0.2 in
    normalizeScore (score * 10).

(** ** The engine and its collaborators *)

Section Engine.

(** [Date.now()] in epoch milliseconds and [new Date().getFullYear()]. *)
Variable now : Z.
Variable currentYear : R.

(** [trackingService.getUserActions(userId, limit, actionType)] and
    [trackingService.getRecentActions(userId)]; [None] when the read
    throws. *)
Variable getUserActions : string -> nat -> option string -> option (list Action).
Variable getRecentActions : string -> option (list Action).

(** [matrixFactorization.predict(userId, movieIds)]. *)
Variable predict : string -> list Z -> option (list Prediction).

Definition calculateYearPreference (yearSignals : list (R * R)) : YearPreference :=
  if (List.length yearSignals =? 0)%nat then
    {| y_min := 1980; y_max := currentYear |}
  else
    let weightedSum :=
      fold_left (fun sum item => sum + fst item * snd item) yearSignals 0 in
    let totalWeight :=
      jsOr (fold_left (fun sum item => sum + snd item) yearSignals 0) 1 in
    let ideal := weightedSum / totalWeight in
    {| y_min := Rmax 1950 (jsFloor (ideal - 15));
       y_max := Rmin currentYear (jsCeil (ideal + 15)) |}.

Definition calculateUserPreferences (ratings : list Action) : Preferences :=
  let acc := fold_left preferenceStep ratings emptyPreferenceAcc in
  {| p_genres := Some (normalizePreferenceMap (genrePreferences acc) (genreCounts acc));
     p_directors :=
       Some (normalizePreferenceMap (directorPreferences acc) (directorCounts acc));
     p_actors := Some (normalizePreferenceMap (actorPreferences acc) (actorCounts acc));
     p_runtimePreference := Some (calculateRuntimePreference (runtimeSignals acc));
     p_yearPreference := Some (calculateYearPreference (yearSignals acc));
     p_avgRating :=
       fold_left (fun sum r => sum + valueOf r) ratings 0
       / jsOr (INR (List.length ratings)) 1;
     p_ratingVariance := calculateRatingVariance ratings;
     p_ratingThreshold := 6.5 |}.

Definition calculateRecencyScore (actions : list Action) : R :=
  if (List.length actions =? 0)%nat then 0
  else
    let mostRecent := jsMaxZ (map a_timestamp actions) in
    let hoursSince := IZR (now - mostRecent) / (1000 * 60 * 60) in
    let score := exp (- ln 2 * (hoursSince / RECENCY_HALF_LIFE_HOURS)) in
    Rmin 1 (Rmax 0 score).

Definition calculateRecencyWeight (timestamp : Z) (index : nat) : R :=
  let hoursSince := IZR (now - timestamp) / (1000 * 60 * 60) in
  let decay := exp (- ln 2 * (hoursSince / RECENCY_HALF_LIFE_HOURS)) in
  let positionBoost :=
    1 - Rmin 0.3 (INR index / (INR DEFAULT_SEQUENCE_WINDOW * 2)) in
  decay * positionBoost.

Definition signalStep (signals : SessionSignals) (ia : nat * Action) : SessionSignals :=
  let (index, action) := ia in
  let metadata := metadataOf action in
  let recencyWeight := calculateRecencyWeight (a_timestamp action) index in
  let actionWeight :=
    recencyWeight * actionTypeBoost (a_actionType action) (a_value action) in
  {| sig_genres := addAll (sig_genres signals) (md_genres metadata) actionWeight;
     sig_directors := addAll (sig_directors signals) (md_directors metadata) actionWeight;
     sig_actors := addAll (sig_actors signals) (md_actors metadata) actionWeight;
     sig_totalWeight := sig_totalWeight signals + actionWeight |}.

Definition buildSessionSignals (actions : list Action) : SessionSignals :=
  fold_left signalStep (combine (seq 0 (List.length actions)) actions)
    {| sig_genres := []; sig_directors := []; sig_actors := [];
       sig_totalWeight := 0 |}.

Definition sequenceBasedRecommendation
    (availableMovies : list Movie) (userProfile : UserProfile) : list ScoreRecord :=
  let recentActions := u_recentActions userProfile in
  if (List.length recentActions =? 0)%nat
  then popularityFallback availableMovies "sequence-cold"
  else
    let recentSignals := buildSessionSignals recentActions in
    map (fun movie =>
           {| s_movieId := m_id movie;
              s_movie := Some movie;
              s_score := calculateSessionSimilarity movie recentSignals;
              s_source := "sequence" |}) availableMovies.

Definition findSimilarUsers (userId : string) : list SimilarUser :=
  match getUserActions userId 1000%nat (Some "rate") with
  | Some userRatings =>
      if (List.length userRatings =? 0)%nat then [] else []
  | None => []
  end.

(** The loop of [calculateCollaborativeScore]: [None] when a read throws. *)
Fixpoint collaborativeLoop (movieId : Z) (similarUsers : list SimilarUser)
    (totalWeight weightedSum : R) : option (R * R) :=
  match similarUsers with
  | [] => Some (totalWeight, weightedSum)
  | user :: rest =>
      match getUserActions (su_userId user) 1000%nat (Some "rate") with
      | None => None
      | Some userActions =>
          match find (fun a => (a_movieId a =? movieId)%Z) userActions with
          | Some movieRating =>
              collaborativeLoop movieId rest
                (totalWeight + su_similarity user)
                (weightedSum + valueOf movieRating * su_similarity user)
          | None => collaborativeLoop movieId rest totalWeight weightedSum
          end
      end
  end.

Definition calculateCollaborativeScore
    (movieId : Z) (similarUsers : list SimilarUser) : option R :=
  if (List.length similarUsers =? 0)%nat then Some 0
  else
    match collaborativeLoop movieId similarUsers 0 0 with
    | None => None
    | Some (totalWeight, weightedSum) =>
        Some (if Rlt_dec 0 totalWeight
              then normalizeScore (weightedSum / totalWeight) else 0)
    end.

(** [Promise.all] over the movies: the first rejection rejects the whole. *)
Fixpoint collaborativeScoresOf (similarUsers : list SimilarUser)
    (availableMovies : list Movie) : option (list ScoreRecord) :=
  match availableMovies with
  | [] => Some []
  | movie :: rest =>
      match calculateCollaborativeScore (m_id movie) similarUsers,
            collaborativeScoresOf similarUsers rest with
      | Some score, Some records =>
          Some ({| s_movieId := m_id movie;
                   s_movie := Some movie;
                   s_score := score;
                   s_source := "collaborative-user" |} :: records)
      | _, _ => None
      end
  end.

Definition userBasedCollaborativeFiltering
    (userId : string) (availableMovies : list Movie) : list ScoreRecord :=
  let similarUsers := findSimilarUsers userId in
  if (List.length similarUsers =? 0)%nat
  then popularityFallback availableMovies "collaborative-cold"
  else
    match collaborativeScoresOf similarUsers availableMovies with
    | Some collaborativeScores => collaborativeScores
    | None => []
    end.

Definition collaborativeFiltering
    (userId : string) (availableMovies : list Movie) : list ScoreRecord :=
  let movieIds := map m_id availableMovies in
  match predict userId movieIds with
  | None => userBasedCollaborativeFiltering userId availableMovies
  | Some predictions =>
      if (List.length predictions =? 0)%nat
      then userBasedCollaborativeFiltering userId availableMovies
      else
        map (fun pred =>
               {| s_movieId := pred_movieId pred;
                  s_movie :=
                    find (fun m => (m_id m =? pred_movieId pred)%Z) availableMovies;
                  s_score := normalizeScore (pred_score pred);
                  s_source := "collaborative-matrix" |}) predictions
  end.

Definition degenerateProfile (userId : string) : UserProfile :=
  {| u_userId := userId; u_ratingCount := 0;
     u_avgRating := None; u_ratingVariance := None; u_timeActive := None;
     u_engagement := None; u_lastActive := None; u_sessionDepth := None;
     u_recencyScore := None; u_recentActions := []; u_preferences := None |}.

Definition getUserProfile (userId : string) : UserProfile :=
  match getUserActions userId 1000%nat (Some "rate"),
        getRecentActions userId,
        getUserActions userId 1000%nat None with
  | Some ratings, Some recentActions, Some allActions =>
      let ratingCount := List.length ratings in
      let avgRating :=
        if (0 <? List.length ratings)%nat
        then fold_left (fun sum r => sum + valueOf r) ratings 0
             / INR (List.length ratings)
        else 0 in
      let firstRating :=
        if (0 <? List.length ratings)%nat
        then jsMinZ (map a_timestamp ratings) else now in
      let timeActive := ((now - firstRating) / (1000 * 60 * 60 * 24))%Z in
      let sessions := groupActionsBySessions allActions DEFAULT_SESSION_TIMEOUT in
      let engagement :=
        if (0 <? List.length sessions)%nat
        then INR (List.length allActions) / INR (List.length sessions)
        else 0 in
      let sessionDepth :=
        if (0 <? List.length sessions)%nat
        then Rmin 1 (INR (List.length (last sessions [])) / 10)
        else 0 in
      let recencyScore := calculateRecencyScore recentActions in
      let preferences := calculateUserPreferences ratings in
      {| u_userId := userId;
         u_ratingCount := ratingCount;
         u_avgRating := Some avgRating;
         u_ratingVariance := Some (p_ratingVariance preferences);
         u_timeActive := Some timeActive;
         u_engagement := Some engagement;
         u_lastActive :=
           if (0 <? List.length ratings)%nat
           then Some (jsMaxZ (map a_timestamp ratings)) else None;
         u_sessionDepth := Some sessionDepth;
         u_recencyScore := Some recencyScore;
         u_recentActions := firstn DEFAULT_SEQUENCE_WINDOW recentActions;
         u_preferences := Some preferences |}
  | _, _, _ => degenerateProfile userId
  end.

(** [const allMovies = [];] in [getAvailableMovies]. *)
Definition allMovies : list Movie := [].

Definition getAvailableMovies
    (userId : string) (excludeRated excludeWatchlist : bool) : list Movie :=
  if negb excludeRated && negb excludeWatchlist then allMovies
  else
    let rated :=
      if excludeRated
      then option_map (map a_movieId) (getUserActions userId 1000%nat (Some "rate"))
      else Some [] in
    let watchlisted :=
      if excludeWatchlist
      then option_map (map a_movieId)
             (getUserActions userId 1000%nat (Some "add_watchlist"))
      else Some [] in
    match rated, watchlisted with
    | Some r, Some w =>
        let excludedMovieIds := r ++ w in
        filter (fun movie => negb (existsb (Z.eqb (m_id movie)) excludedMovieIds))
               allMovies
    | _, _ => []
    end.

Definition optionOr {A : Type} (x : option A) (d : A) : A :=
  match x with
  | Some v => v
  | None => d
  end.

(** Lines 42-63 of [generateRecommendations]: the four scorers, the fusion,
    the diversity filter and the cut. *)
Definition scoreAndRank (userId : string) (userProfile : UserProfile)
    (weights : Weights) (availableMovies : list Movie)
    (count : nat) (minScore diversityFactor : R) (includeExplanations : bool)
    : list HybridRecord :=
  let contentScores := contentBasedRecommendation availableMovies userProfile in
  let collaborativeScores := collaborativeFiltering userId availableMovies in
  let sequenceScores := sequenceBasedRecommendation availableMovies userProfile in
  let ruleScores := ruleBasedRecommendation availableMovies userProfile in
  let hybridScores :=
    combineScores contentScores collaborativeScores sequenceScores ruleScores
      weights includeExplanations in
  let diversifiedScores := applyDiversityFilter hybridScores diversityFactor in
  selectTop diversifiedScores minScore count.

(** The result and the cache after the call. *)
Definition generateRecommendations
    (userId : string) (options : Options) (redis : Cache)
    : list HybridRecord * Cache :=
  let count := optionOr (o_count options) 25%nat in
  let excludeRated := optionOr (o_excludeRated options) true in
  let excludeWatchlist := optionOr (o_excludeWatchlist options) true in
  let minScore := optionOr (o_minScore options) 0.5 in
  let diversityFactor := optionOr (o_diversityFactor options) 0.25 in
  let includeExplanations := optionOr (o_includeExplanations options) false in
  let cacheKey : CacheKey := (userId, options) in
  match redisGet redis cacheKey with
  | Some cached => (cached, redis)
  | None =>
      let userProfile := getUserProfile userId in
      let weights := calculateWeights userProfile in
      let availableMovies :=
        getAvailableMovies userId excludeRated excludeWatchlist in
      if (List.length availableMovies =? 0)%nat then ([], redis)
      else
        let recommendations :=
          scoreAndRank userId userProfile weights availableMovies
            count minScore diversityFactor includeExplanations in
        (recommendations,
         redisSetex redis cacheKey cacheTimeout recommendations)
  end.

End Engine.

(** * Vocabulary of the specification *)

(** A profile number lies in [[0,1]]; a missing one reads as 0. *)
Definition inUnit (x : option R) : Prop :=
  match x with
  | Some v => 0 <= v <= 1
  | None => True
  end.

Definition weightsSum (w : Weights) : R :=
  w_content w + w_collaborative w + w_sequence w + w_rule w.

Definition weightsNonNegative (w : Weights) : Prop :=
  0 <= w_content w /\ 0 <= w_collaborative w
  /\ 0 <= w_sequence w /\ 0 <= w_rule w.

(** A profile as [calculateWeights] reads it, with the rating count set. *)
Definition withRatingCount (p : UserProfile) (n : nat) : UserProfile :=
  {| u_userId := u_userId p; u_ratingCount := n;
     u_avgRating := u_avgRating p; u_ratingVariance := u_ratingVariance p;
     u_timeActive := u_timeActive p; u_engagement := u_engagement p;
     u_lastActive := u_lastActive p; u_sessionDepth := u_sessionDepth p;
     u_recencyScore := u_recencyScore p; u_recentActions := u_recentActions p;
     u_preferences := u_preferences p |}.


(** * Sample data *)

(** The new-user profile of the test suite:
    [{ ratingCount: 2, sessionDepth: 0.1, recencyScore: 0.2 }]. *)
Definition sampleProfile : UserProfile :=
  {| u_userId := "user123"; u_ratingCount := 2;
     u_avgRating := None; u_ratingVariance := None; u_timeActive := None;
     u_engagement := None; u_lastActive := None;
     u_sessionDepth := Some 0.1; u_recencyScore := Some 0.2;
     u_recentActions := []; u_preferences := None |}.

Definition plainMovie (id : Z) : Movie :=
  {| m_id := id; m_genres := []; m_directors := []; m_actors := [];
     m_releaseYear := None; m_runtime := None;
     m_averageRating := 0; m_ratingCount := 0; m_popularity := 0 |}.

(** A widely rated title: popularity 100, average rating 10 and 10000
    ratings. *)
Definition blockbuster : Movie :=
  {| m_id := 1; m_genres := []; m_directors := []; m_actors := [];
     m_releaseYear := None; m_runtime := None;
     m_averageRating := 10; m_ratingCount := 10000; m_popularity := 100 |}.

Definition noOptions : Options :=
  {| o_count := None; o_excludeRated := None; o_excludeWatchlist := None;
     o_minScore := None; o_diversityFactor := None;
     o_includeExplanations := None |}.

(** A tracking service without any action, and a model without predictions. *)
Definition noActions (userId : string) (limit : nat) (actionType : option string)
  : option (list Action) := Some [].
Definition noRecentActions (userId : string) : option (list Action) := Some [].
Definition noPredictions (userId : string) (movieIds : list Z)
  : option (list Prediction) := Some [].


(** * Vocabulary of the ranking and diversity properties *)

Definition hasScore (v : R) (r : HybridRecord) : bool :=
  if Req_dec_T (h_score r) v then true else false.

Definition sortedByScoreDesc (l : list HybridRecord) : Prop :=
  StronglySorted (fun a b => h_score b <= h_score a) l.

(** Score descending, and among equal scores [movieId] ascending. *)
Definition sortedByScoreThenId (l : list HybridRecord) : Prop :=
  StronglySorted
    (fun a b => h_score b < h_score a
                \/ (h_score b = h_score a /\ (h_movieId a <= h_movieId b)%Z)) l.

(** [r'] is the record [r] with another score. *)
Definition rescored (r r' : HybridRecord) : Prop :=
  r' = setHybridScore r (h_score r').

Definition sampleWeights : Weights :=
  {| w_content := 0.4; w_collaborative := 0.3; w_sequence := 0.2; w_rule := 0.1 |}.

(** A fused record of movie [id] whose four sub-scores and score are [v]. *)
Definition evenRecord (id : Z) (v : R) : HybridRecord :=
  {| h_movieId := id; h_movie := plainMovie id;
     h_contentScore := v; h_collaborativeScore := v;
     h_sequenceScore := v; h_ruleScore := v;
     h_explanation := None; h_score := v;
     h_weights := sampleWeights; h_source := "hybrid" |}.

(** Two records of equal score, movie 2 in front of movie 1. *)
Definition tiedPair : list HybridRecord := [evenRecord 2 0.8; evenRecord 1 0.8].


(** * Vocabulary of the session property *)

(** Any two adjacent actions of [s] are at most [T] apart. *)
Fixpoint adjacentWithin (T : Z) (s : list Action) : Prop :=
  match s with
  | a :: rest =>
      match rest with
      | b :: _ => (a_timestamp b - a_timestamp a <= T)%Z /\ adjacentWithin T rest
      | [] => True
      end
  | [] => True
  end.

(** From the last action of a session to the first of the next there are
    more than [T]. *)
Fixpoint sessionsApart (T : Z) (sessions : list (list Action)) : Prop :=
  match sessions with
  | s1 :: rest =>
      match rest with
      | s2 :: _ =>
          (forall d, (a_timestamp (hd d s2) - a_timestamp (last s1 d) > T)%Z)
          /\ sessionsApart T rest
      | [] => True
      end
  | [] => True
  end.

Definition actionAt (t : Z) : Action :=
  {| a_userId := "user123"; a_movieId := 456; a_actionType := "view";
     a_value := None; a_timestamp := t; a_metadata := None |}.

(** The actions of the test suite, at 10:00, 10:15 and 11:00 of one day, in
    milliseconds from 10:00 and given newest first. *)
Definition sampleActions : list Action :=
  [actionAt 3600000; actionAt 900000; actionAt 0].

(** The invariant of the loop of [groupActionsBySessions]. *)
Definition sessionInvariant (T : Z) (st : list (list Action) * list Action) : Prop :=
  let (sessions, currentSession) := st in
  Forall (fun s => s <> [] /\ adjacentWithin T s) sessions
  /\ adjacentWithin T currentSession
  /\ sessionsApart T sessions
  /\ (sessions <> [] ->
      forall d, (a_timestamp (hd d currentSession)
                 - a_timestamp (last (last sessions []) d) > T)%Z)
  /\ (currentSession = [] -> sessions = []).


(** * Vocabulary of the fusion property *)

(** The sub-score of a strategy for movie [id], in the words of the
    specification: the slot defaults to 0 and is overwritten by the
    strategy's value for that movie, the last one winning; entries without
    a resolved movie are skipped. *)
Definition strategyScore (scores : list ScoreRecord) (id : Z) : R :=
  fold_left
    (fun slot item =>
       match s_movie item with
       | Some _ => if (s_movieId item =? id)%Z then s_score item else slot
       | None => slot
       end) scores 0.

Definition linearFusion (r : HybridRecord) (weights : Weights) : R :=
  h_contentScore r * w_content weights
  + h_collaborativeScore r * w_collaborative weights
  + h_sequenceScore r * w_sequence weights
  + h_ruleScore r * w_rule weights.

(** [movieScoreMap.get(id)] and the value of one of its slots, 0 when the
    movie has no entry. *)
Definition mapGet (m : ScoreMap) (id : Z) : option FusedEntry :=
  find (fun e => (f_movieId e =? id)%Z) m.

Definition slotOf (scoreKey : ScoreKey) (m : ScoreMap) (id : Z) : R :=
  match mapGet m id with
  | Some e => getScore scoreKey e
  | None => 0
  end.

(** The single-item score lists of the fusion test. *)
Definition scored (movie : Movie) (v : R) : list ScoreRecord :=
  [{| s_movieId := 1; s_movie := Some movie; s_score := v; s_source := "" |}].


Definition ScoreKey_eq_dec (a b : ScoreKey) : {a = b} + {a <> b}.
Proof. decide equality. Defined.


(** The profile of a user without any action, read from a working tracking
    service at time 0 of the year 2024. *)
Definition freshProfile : UserProfile :=
  getUserProfile 0%Z 2024 noActions noRecentActions "user123".


(** A fused record of score [v] for a movie of the given genres. *)
Definition genreRecord (id : Z) (v : R) (genres : list string) : HybridRecord :=
  {| h_movieId := id;
     h_movie :=
       {| m_id := id; m_genres := genres; m_directors := []; m_actors := [];
          m_releaseYear := None; m_runtime := None;
          m_averageRating := 0; m_ratingCount := 0; m_popularity := 0 |};
     h_contentScore := v; h_collaborativeScore := v;
     h_sequenceScore := v; h_ruleScore := v;
     h_explanation := None; h_score := v;
     h_weights := sampleWeights; h_source := "hybrid" |}.

(** Two dramas, the weaker one given first. *)
Definition dramaPair : list HybridRecord :=
  [genreRecord 2 0.8 ["Drama"]; genreRecord 1 0.9 ["Drama"]].


(** * Vocabulary of the further properties *)

(** Every value stored in the dictionary lies between [lo] and [hi]. *)
Definition dictWithin (lo hi : R) (d : Dict) : Prop :=
  forall k v, dictGet d k = Some v -> lo <= v <= hi.

Definition optDictWithin (lo hi : R) (d : option Dict) : Prop :=
  match d with
  | Some dict => dictWithin lo hi dict
  | None => True
  end.

Definition sampleGenres : Dict := [("Drama", 0.5); ("Horror", -1)].


(** The invariant of a pair of accumulators of [calculateUserPreferences]:
    every key of the signal sums has a count of at least 1 that bounds its
    sum, and every count is at least 1. *)
Definition countsBound (sums counts : Dict) : Prop :=
  (forall k v, In (k, v) sums ->
               exists c, dictGet counts k = Some c /\ 1 <= c /\ - c <= v <= c)
  /\ (forall k c, In (k, c) counts -> 1 <= c).

Definition accBound (acc : PreferenceAcc) : Prop :=
  countsBound (genrePreferences acc) (genreCounts acc)
  /\ countsBound (directorPreferences acc) (directorCounts acc)
  /\ countsBound (actorPreferences acc) (actorCounts acc).


(** * Vocabulary of the returned list *)


(** * Names that a plain object inherits *)

(** The property names of [Object.prototype].  On a plain object used as a
    dictionary, [d[k]] for one of these names reads the inherited member, not
    a stored number; the dictionaries of this file hold own properties only,
    so a property that reads a dictionary by a key asks the key to be none
    of these names. *)
Definition objectPrototypeNames : list string :=
  ["constructor"; "__proto__"; "hasOwnProperty"; "isPrototypeOf";
   "propertyIsEnumerable"; "toLocaleString"; "toString"; "valueOf";
   "__defineGetter__"; "__defineSetter__"; "__lookupGetter__";
   "__lookupSetter__"].

Definition ownNames (keys : list string) : Prop :=
  forallb (fun k => negb (existsb (String.eqb k) objectPrototypeNames)) keys = true.

Definition plainMetadata (a : Action) : Prop :=
  ownNames (md_genres (metadataOf a))
  /\ ownNames (md_directors (metadataOf a))
  /\ ownNames (md_actors (metadataOf a)).

(** * More sample data *)

Definition sampleMovie : Movie :=
  {| m_id := 7; m_genres := ["Drama"]; m_directors := ["Ceylan"];
     m_actors := []; m_releaseYear := Some 2014; m_runtime := Some 196;
     m_averageRating := 7.5; m_ratingCount := 1200; m_popularity := 80 |}.

(** A rating of 8 for a drama. *)
Definition sampleRating : Action :=
  {| a_userId := "user123"; a_movieId := 7; a_actionType := "rate";
     a_value := Some 8; a_timestamp := 0;
     a_metadata :=
       Some {| md_genres := ["Drama"; "Horror"]; md_directors := ["Ceylan"];
               md_actors := []; md_runtime := Some 196;
               md_releaseYear := Some 2014 |} |}.

(** A profile with four genre preferences. *)
Definition genreProfile : UserProfile :=
  {| u_userId := "user123"; u_ratingCount := 12;
     u_avgRating := None; u_ratingVariance := None; u_timeActive := None;
     u_engagement := None; u_lastActive := None;
     u_sessionDepth := Some 0.5; u_recencyScore := Some 0.5;
     u_recentActions := [];
     u_preferences :=
       Some {| p_genres :=
                 Some [("Drama", 0.9); ("Comedy", 0.2); ("Horror", -0.5);
                       ("Action", 0.6)];
               p_directors := Some []; p_actors := Some [];
               p_runtimePreference := None; p_yearPreference := None;
               p_avgRating := 7; p_ratingVariance := 1;
               p_ratingThreshold := 6.5 |} |}.

Definition genreRulePreferences : RulePreferences :=
  {| rp_preferredGenres := ["Drama"; "Action"; "Comedy"];
     rp_minRating := 6.5; rp_yearRange := None; rp_runtimeRange := None |}.

(** * Properties *)

(** ** Helpers on numbers *)

Lemma jsOr_zero (x : R) : jsOr x 0 = x.
Proof.
  unfold jsOr. destruct (Req_dec_T x 0); congruence.
Qed.

Lemma jsOr_nonzero (x d : R) : x <> 0 -> jsOr x d = x.
Proof.
  intros Hx. unfold jsOr. destruct (Req_dec_T x 0); [contradiction | reflexivity].
Qed.

Lemma jsOr_falsy (d : R) : jsOr 0 d = d.
Proof.
  unfold jsOr. destruct (Req_dec_T 0 0); [reflexivity | congruence].
Qed.

Lemma Rleb_true (x y : R) : Rleb x y = true <-> x <= y.
Proof.
  unfold Rleb. destruct (Rle_dec x y); split; intros; try assumption;
    try reflexivity; try discriminate; contradiction.
Qed.

Lemma Rleb_false (x y : R) : Rleb x y = false <-> y < x.
Proof.
  unfold Rleb. destruct (Rle_dec x y); split; intros; try discriminate;
    try reflexivity; lra.
Qed.

Lemma normalizeScore_bounds (x : R) : 0 <= normalizeScore x <= 1.
Proof.
  unfold normalizeScore.
  destruct (Rlt_dec x 1); [lra |].
  destruct (Rgt_dec x 10); lra.
Qed.

(** ** The stable sort *)

Section StableSortFacts.
Variable A : Type.
Variable before : A -> A -> bool.

Lemma insertSorted_perm (x : A) (l : list A) :
  Permutation (insertSorted before x l) (x :: l).
Proof.
  induction l as [| y ys IH]; simpl.
  - apply Permutation_refl.
  - destruct (before x y).
    + apply Permutation_refl.
    + eapply Permutation_trans; [apply perm_skip, IH | apply perm_swap].
Qed.

Lemma jsSort_perm (l : list A) : Permutation (jsSort before l) l.
Proof.
  induction l as [| x xs IH]; simpl.
  - apply perm_nil.
  - eapply Permutation_trans; [apply insertSorted_perm | apply perm_skip, IH].
Qed.

Lemma jsSort_length (l : list A) : List.length (jsSort before l) = List.length l.
Proof. apply Permutation_length, jsSort_perm. Qed.

(** Stability: elements that the comparator leaves tied among themselves
    keep their relative order. *)
Lemma insertSorted_filter (p : A -> bool) (x : A) (l : list A) :
  (forall a b, p a = true -> p b = true -> before a b = true) ->
  filter p (insertSorted before x l) = filter p (x :: l).
Proof.
  intros Htied. induction l as [| y ys IH]; [reflexivity |].
  simpl. destruct (before x y) eqn:Hxy; [reflexivity |].
  simpl in *. rewrite IH.
  destruct (p x) eqn:Hpx, (p y) eqn:Hpy; try reflexivity.
  rewrite (Htied x y Hpx Hpy) in Hxy. discriminate.
Qed.

Lemma jsSort_stable (p : A -> bool) (l : list A) :
  (forall a b, p a = true -> p b = true -> before a b = true) ->
  filter p (jsSort before l) = filter p l.
Proof.
  intros Htied. induction l as [| x xs IH]; [reflexivity |].
  simpl jsSort. rewrite insertSorted_filter by assumption.
  simpl. rewrite IH. reflexivity.
Qed.

Hypothesis before_total : forall a b, before a b = false -> before b a = true.
Hypothesis before_trans :
  forall a b c, before a b = true -> before b c = true -> before a c = true.

Lemma insertSorted_sorted (x : A) (l : list A) :
  StronglySorted (fun a b => before a b = true) l ->
  StronglySorted (fun a b => before a b = true) (insertSorted before x l).
Proof.
  induction l as [| y ys IH]; intros Hs; simpl.
  - constructor; [constructor | constructor].
  - inversion Hs as [| ? ? Hys Hy]; subst.
    destruct (before x y) eqn:Hxy.
    + constructor; [assumption |].
      constructor; [assumption |].
      eapply Forall_impl; [| exact Hy].
      intros z Hz. eapply before_trans; eassumption.
    + constructor; [apply IH; assumption |].
      eapply Permutation_Forall;
        [apply Permutation_sym, insertSorted_perm |].
      constructor; [apply before_total; assumption | assumption].
Qed.

Lemma jsSort_sorted (l : list A) :
  StronglySorted (fun a b => before a b = true) (jsSort before l).
Proof.
  induction l as [| x xs IH]; simpl.
  - constructor.
  - apply insertSorted_sorted, IH.
Qed.
End StableSortFacts.

Arguments jsSort_perm {A} before l.
Arguments jsSort_length {A} before l.
Arguments jsSort_stable {A} before p l.
Arguments jsSort_sorted {A} before.

Lemma byScoreDesc_spec (a b : HybridRecord) :
  byScoreDesc a b = true <-> h_score b <= h_score a.
Proof.
  unfold byScoreDesc. rewrite Rleb_true. lra.
Qed.

Lemma byScoreDesc_total (a b : HybridRecord) :
  byScoreDesc a b = false -> byScoreDesc b a = true.
Proof.
  unfold byScoreDesc. rewrite Rleb_false, Rleb_true. lra.
Qed.

Lemma byScoreDesc_trans (a b c : HybridRecord) :
  byScoreDesc a b = true -> byScoreDesc b c = true -> byScoreDesc a c = true.
Proof.
  rewrite !byScoreDesc_spec. lra.
Qed.

Lemma byTimestampAsc_spec (a b : Action) :
  byTimestampAsc a b = true <-> (a_timestamp a <= a_timestamp b)%Z.
Proof.
  unfold byTimestampAsc. rewrite Z.leb_le. lia.
Qed.

(** ** Weight policy *)

Lemma jsOrOpt_unit (x : option R) : inUnit x -> 0 <= jsOrOpt x 0 <= 1.
Proof.
  destruct x as [v |]; simpl; intros H.
  - rewrite jsOr_zero. exact H.
  - lra.
Qed.

(** [normalizeWeights]: each weight is divided by the sum of the four, the
    sum counting as 1 when it is 0, and is not let below 0. *)
Lemma normalizeWeights_spec (weights : Weights) :
  let total := if Req_dec_T (weightsSum weights) 0 then 1 else weightsSum weights in
  normalizeWeights weights
  = {| w_content := Rmax 0 (w_content weights / total);
       w_collaborative := Rmax 0 (w_collaborative weights / total);
       w_sequence := Rmax 0 (w_sequence weights / total);
       w_rule := Rmax 0 (w_rule weights / total) |}.
Proof.
  unfold normalizeWeights, jsOr, weightsSum. cbn [fold_left].
  replace (0 + w_content weights + w_collaborative weights
           + w_sequence weights + w_rule weights)
    with (w_content weights + w_collaborative weights
          + w_sequence weights + w_rule weights) by ring.
  reflexivity.
Qed.

(** On positive entries [normalizeWeights] is the division by the sum. *)
Lemma normalizeWeights_positive (a b c d : R) :
  0 <= a -> 0 <= b -> 0 <= c -> 0 <= d -> 0 < a + b + c + d ->
  normalizeWeights
    {| w_content := a; w_collaborative := b; w_sequence := c; w_rule := d |}
  = {| w_content := a / (a + b + c + d);
       w_collaborative := b / (a + b + c + d);
       w_sequence := c / (a + b + c + d);
       w_rule := d / (a + b + c + d) |}.
Proof.
  intros Ha Hb Hc Hd Ht.
  unfold normalizeWeights. cbn [w_content w_collaborative w_sequence w_rule fold_left].
  replace (0 + a + b + c + d) with (a + b + c + d) by ring.
  rewrite jsOr_nonzero by lra.
  assert (Hpos : forall x, 0 <= x -> Rmax 0 (x / (a + b + c + d)) = x / (a + b + c + d)).
  { intros x Hx. apply Rmax_right.
    apply Rmult_le_pos; [assumption |].
    left. apply Rinv_0_lt_compat. assumption. }
  rewrite !Hpos by assumption. reflexivity.
Qed.

Lemma calculateWeights_tier1 (p : UserProfile) :
  (u_ratingCount p < 5)%nat -> inUnit (u_recencyScore p) ->
  let r := jsOrOpt (u_recencyScore p) 0 in
  calculateWeights p
  = {| w_content := 0.4 / (1 + r * 0.1);
       w_collaborative := 0.1 / (1 + r * 0.1);
       w_sequence := (0.2 + r * 0.1) / (1 + r * 0.1);
       w_rule := 0.3 / (1 + r * 0.1) |}.
Proof.
  intros Hn Hr r. apply jsOrOpt_unit in Hr. fold r in Hr.
  unfold calculateWeights. fold r.
  apply Nat.ltb_lt in Hn. rewrite Hn.
  rewrite normalizeWeights_positive by lra.
  replace (0.4 + 0.1 + (0.2 + r * 0.1) + 0.3) with (1 + r * 0.1) by lra.
  reflexivity.
Qed.

Lemma calculateWeights_tier2 (p : UserProfile) :
  (5 <= u_ratingCount p < 25)%nat -> inUnit (u_sessionDepth p) ->
  let d := jsOrOpt (u_sessionDepth p) 0 in
  calculateWeights p
  = {| w_content := 0.35 / (1 + d * 0.05);
       w_collaborative := 0.25 / (1 + d * 0.05);
       w_sequence := (0.25 + d * 0.05) / (1 + d * 0.05);
       w_rule := 0.15 / (1 + d * 0.05) |}.
Proof.
  intros [Hlo Hhi] Hd d. apply jsOrOpt_unit in Hd. fold d in Hd.
  unfold calculateWeights. fold d.
  apply Nat.ltb_ge in Hlo. rewrite Hlo.
  apply Nat.ltb_lt in Hhi. rewrite Hhi.
  rewrite normalizeWeights_positive by lra.
  replace (0.35 + 0.25 + (0.25 + d * 0.05) + 0.15) with (1 + d * 0.05) by lra.
  reflexivity.
Qed.

Lemma calculateWeights_tier3 (p : UserProfile) :
  (25 <= u_ratingCount p)%nat -> inUnit (u_recencyScore p) ->
  let r := jsOrOpt (u_recencyScore p) 0 in
  calculateWeights p
  = {| w_content := 0.25 / (1 + r * 0.1);
       w_collaborative := 0.45 / (1 + r * 0.1);
       w_sequence := (0.2 + r * 0.1) / (1 + r * 0.1);
       w_rule := 0.1 / (1 + r * 0.1) |}.
Proof.
  intros Hlo Hr r. apply jsOrOpt_unit in Hr. fold r in Hr.
  unfold calculateWeights. fold r.
  assert (H5 : (u_ratingCount p <? 5)%nat = false) by (apply Nat.ltb_ge; lia).
  assert (H25 : (u_ratingCount p <? 25)%nat = false) by (apply Nat.ltb_ge; lia).
  rewrite H5, H25.
  rewrite normalizeWeights_positive by lra.
  replace (0.25 + 0.45 + (0.2 + r * 0.1) + 0.1) with (1 + r * 0.1) by lra.
  reflexivity.
Qed.

Lemma div_nonneg (a b : R) : 0 <= a -> 0 < b -> 0 <= a / b.
Proof.
  intros Ha Hb. apply Rmult_le_pos; [assumption |].
  left. apply Rinv_0_lt_compat. assumption.
Qed.

Lemma frac_le (a b c d : R) : 0 < b -> 0 < d -> a * d <= c * b -> a / b <= c / d.
Proof.
  intros Hb Hd H.
  apply (Rmult_le_reg_r (b * d)); [nra |].
  replace (a / b * (b * d)) with (a * d) by (field; lra).
  replace (c / d * (b * d)) with (c * b) by (field; lra).
  exact H.
Qed.

Lemma shares_sum (a b c d t : R) :
  a + b + c + d = t -> 0 < t -> a / t + b / t + c / t + d / t = 1.
Proof.
  intros Ht Hpos. subst t. field. lra.
Qed.

(** C5: for a profile whose sessionDepth and recencyScore lie in [0,1], the
    weights returned by calculateWeights are non-negative and sum to 1. *)
Theorem C5_weight_simplex (p : UserProfile) :
  inUnit (u_sessionDepth p) -> inUnit (u_recencyScore p) ->
  weightsNonNegative (calculateWeights p)
  /\ weightsSum (calculateWeights p) = 1.
Proof.
  intros Hd Hr.
  pose proof (jsOrOpt_unit _ Hd) as Hd'.
  pose proof (jsOrOpt_unit _ Hr) as Hr'.
  destruct (Nat.lt_ge_cases (u_ratingCount p) 5) as [H5 | H5].
  - rewrite calculateWeights_tier1 by assumption.
    unfold weightsNonNegative, weightsSum. cbn [w_content w_collaborative w_sequence w_rule].
    split; [repeat split; apply div_nonneg; lra | apply shares_sum; lra].
  - destruct (Nat.lt_ge_cases (u_ratingCount p) 25) as [H25 | H25].
    + rewrite calculateWeights_tier2 by (try split; assumption).
      unfold weightsNonNegative, weightsSum. cbn [w_content w_collaborative w_sequence w_rule].
      split; [repeat split; apply div_nonneg; lra | apply shares_sum; lra].
    + rewrite calculateWeights_tier3 by assumption.
      unfold weightsNonNegative, weightsSum. cbn [w_content w_collaborative w_sequence w_rule].
      split; [repeat split; apply div_nonneg; lra | apply shares_sum; lra].
Qed.

Lemma C5_weight_simplex_witness :
  weightsNonNegative (calculateWeights sampleProfile)
  /\ weightsSum (calculateWeights sampleProfile) = 1.
Proof.
  apply (C5_weight_simplex sampleProfile); simpl; lra.
Defined.

(** C6: with sessionDepth and recencyScore fixed in [0,1], raising the
    rating count never lowers the collaborative weight and never raises the
    rule weight. *)
Theorem C6_weight_maturity (p : UserProfile) (n1 n2 : nat) :
  inUnit (u_sessionDepth p) -> inUnit (u_recencyScore p) -> (n1 <= n2)%nat ->
  w_collaborative (calculateWeights (withRatingCount p n1))
    <= w_collaborative (calculateWeights (withRatingCount p n2))
  /\ w_rule (calculateWeights (withRatingCount p n2))
       <= w_rule (calculateWeights (withRatingCount p n1)).
Proof.
  intros Hd Hr Hle.
  pose proof (jsOrOpt_unit _ Hd) as Hd'.
  pose proof (jsOrOpt_unit _ Hr) as Hr'.
  assert (T1 : forall n, (n < 5)%nat ->
             calculateWeights (withRatingCount p n)
             = {| w_content := 0.4 / (1 + jsOrOpt (u_recencyScore p) 0 * 0.1);
                  w_collaborative := 0.1 / (1 + jsOrOpt (u_recencyScore p) 0 * 0.1);
                  w_sequence := (0.2 + jsOrOpt (u_recencyScore p) 0 * 0.1)
                                / (1 + jsOrOpt (u_recencyScore p) 0 * 0.1);
                  w_rule := 0.3 / (1 + jsOrOpt (u_recencyScore p) 0 * 0.1) |}).
  { intros n Hn. apply (calculateWeights_tier1 (withRatingCount p n)); assumption. }
  assert (T2 : forall n, (5 <= n < 25)%nat ->
             calculateWeights (withRatingCount p n)
             = {| w_content := 0.35 / (1 + jsOrOpt (u_sessionDepth p) 0 * 0.05);
                  w_collaborative := 0.25 / (1 + jsOrOpt (u_sessionDepth p) 0 * 0.05);
                  w_sequence := (0.25 + jsOrOpt (u_sessionDepth p) 0 * 0.05)
                                / (1 + jsOrOpt (u_sessionDepth p) 0 * 0.05);
                  w_rule := 0.15 / (1 + jsOrOpt (u_sessionDepth p) 0 * 0.05) |}).
  { intros n Hn. apply (calculateWeights_tier2 (withRatingCount p n)); assumption. }
  assert (T3 : forall n, (25 <= n)%nat ->
             calculateWeights (withRatingCount p n)
             = {| w_content := 0.25 / (1 + jsOrOpt (u_recencyScore p) 0 * 0.1);
                  w_collaborative := 0.45 / (1 + jsOrOpt (u_recencyScore p) 0 * 0.1);
                  w_sequence := (0.2 + jsOrOpt (u_recencyScore p) 0 * 0.1)
                                / (1 + jsOrOpt (u_recencyScore p) 0 * 0.1);
                  w_rule := 0.1 / (1 + jsOrOpt (u_recencyScore p) 0 * 0.1) |}).
  { intros n Hn. apply (calculateWeights_tier3 (withRatingCount p n)); assumption. }
  set (r := jsOrOpt (u_recencyScore p) 0) in *.
  set (d := jsOrOpt (u_sessionDepth p) 0) in *.
  destruct (Nat.lt_ge_cases n1 5) as [A5 | A5];
    [| destruct (Nat.lt_ge_cases n1 25) as [A25 | A25]];
    (destruct (Nat.lt_ge_cases n2 5) as [B5 | B5];
     [| destruct (Nat.lt_ge_cases n2 25) as [B25 | B25]]);
    try lia;
    repeat match goal with
           | H : (?n < 5)%nat |- _ => rewrite (T1 n H); clear H
           | H : (5 <= ?n)%nat, H' : (?n < 25)%nat |- _ =>
               rewrite (T2 n (conj H H')); clear H H'
           | H : (25 <= ?n)%nat |- _ => rewrite (T3 n H); clear H
           end;
    cbn [w_collaborative w_rule];
    split; apply frac_le; lra.
Qed.

Lemma C6_weight_maturity_witness :
  w_collaborative (calculateWeights (withRatingCount sampleProfile 4))
    <= w_collaborative (calculateWeights (withRatingCount sampleProfile 30))
  /\ w_rule (calculateWeights (withRatingCount sampleProfile 30))
       <= w_rule (calculateWeights (withRatingCount sampleProfile 4)).
Proof.
  apply (C6_weight_maturity sampleProfile 4 30); simpl; try lra; lia.
Defined.

(** ** Action boosts *)

(** The boost table away from the falsy value: a watch time, a rating that
    is not 0, and the three constant rows. *)
Lemma actionTypeBoost_table (value : R) :
  actionTypeBoost "watchTime" (Some value) = Rmin 1.2 (value / 60)
  /\ (value <> 0 -> actionTypeBoost "rate" (Some value) = value / 10)
  /\ actionTypeBoost "add_watchlist" (Some value) = 0.7
  /\ actionTypeBoost "view" (Some value) = 0.5
  /\ actionTypeBoost "click" (Some value) = 0.4.
Proof.
  unfold actionTypeBoost; cbn [String.eqb Ascii.eqb Bool.eqb jsOrOpt].
  rewrite jsOr_zero.
  repeat split. intros Hv. rewrite jsOr_nonzero by assumption. reflexivity.
Qed.

Lemma actionTypeBoost_missing_rate : actionTypeBoost "rate" None = 5 / 10.
Proof. reflexivity. Qed.

(** C10, at the rating value 0: the boost of a [rate] action is 0.5, the one
    of a missing value, and not 0/10. *)
Theorem C10_rate_zero_boost :
  actionTypeBoost "rate" (Some 0) = 0.5
  /\ actionTypeBoost "rate" (Some 0) <> 0 / 10.
Proof.
  assert (H : actionTypeBoost "rate" (Some 0) = 0.5).
  { unfold actionTypeBoost; cbn [String.eqb Ascii.eqb Bool.eqb jsOrOpt].
    rewrite jsOr_falsy. lra. }
  split; [exact H | rewrite H; lra].
Qed.

(** The sibling reading of the same value: in the profile builder a rating of
    0 is the strongest negative signal. *)
Lemma normalizeRatingSignal_zero : normalizeRatingSignal 0 = -1.
Proof.
  unfold normalizeRatingSignal.
  rewrite Rmin_right by lra. rewrite Rmax_left by lra. reflexivity.
Qed.

(** ** Score bounds *)

Lemma ln_10000_pos : 0 < ln 10000.
Proof.
  rewrite <- ln_1. apply ln_increasing; lra.
Qed.

(** Up to 9999 ratings the popularity score stays in [0,1]. *)
Lemma calculatePopularityScore_bounds (movie : Movie) :
  0 <= m_popularity movie <= 100 ->
  0 <= m_averageRating movie <= 10 ->
  0 <= m_ratingCount movie <= 9999 ->
  0 <= calculatePopularityScore movie <= 1.
Proof.
  intros Hp Ha Hc. unfold calculatePopularityScore. rewrite !jsOr_zero.
  pose proof ln_10000_pos as Hpos.
  assert (Hlo : 0 <= ln (m_ratingCount movie + 1)).
  { rewrite <- ln_1. destruct (Req_dec_T (m_ratingCount movie) 0) as [-> | Hne].
    - replace (0 + 1) with 1 by ring. lra.
    - left. apply ln_increasing; lra. }
  assert (Hhi : ln (m_ratingCount movie + 1) <= ln 10000).
  { destruct (Req_dec_T (m_ratingCount movie) 9999) as [-> | Hne].
    - replace (9999 + 1) with 10000 by lra. lra.
    - left. apply ln_increasing; lra. }
  assert (Hq : 0 <= ln (m_ratingCount movie + 1) / ln 10000 <= 1).
  { split.
    - apply div_nonneg; assumption.
    - apply (Rmult_le_reg_r (ln 10000)); [assumption |].
      unfold Rdiv. rewrite Rmult_assoc, Rinv_l by lra. lra. }
  lra.
Qed.

(** The scorers that go through [normalizeScore] stay in [0,1]. *)
Lemma calculateContentSimilarity_bounds (movie : Movie) (preferences : Preferences) :
  0 <= calculateContentSimilarity movie preferences <= 1.
Proof. unfold calculateContentSimilarity. apply normalizeScore_bounds. Qed.

Lemma calculateSessionSimilarity_bounds (movie : Movie) (signals : SessionSignals) :
  0 <= calculateSessionSimilarity movie signals <= 1.
Proof.
  unfold calculateSessionSimilarity.
  destruct (Req_dec_T (sig_totalWeight signals) 0); [lra |].
  apply normalizeScore_bounds.
Qed.

Lemma calculateRuleScore_bounds (movie : Movie) (rulePreferences : RulePreferences) :
  0 <= calculateRuleScore movie rulePreferences <= 1.
Proof. unfold calculateRuleScore. apply normalizeScore_bounds. Qed.

Lemma calculateCollaborativeScore_bounds
    (getUserActions : string -> nat -> option string -> option (list Action))
    (movieId : Z) (similarUsers : list SimilarUser) (score : R) :
  calculateCollaborativeScore getUserActions movieId similarUsers = Some score ->
  0 <= score <= 1.
Proof.
  unfold calculateCollaborativeScore.
  destruct (List.length similarUsers =? 0)%nat.
  - intros [= <-]. lra.
  - destruct (collaborativeLoop getUserActions movieId similarUsers 0 0)
      as [[totalWeight weightedSum] |]; [| discriminate].
    intros [= <-]. destruct (Rlt_dec 0 totalWeight); [| lra].
    apply normalizeScore_bounds.
Qed.

(** On the simplex of weights, sub-scores in [0,1] fuse to a score in [0,1]. *)
Lemma linearFusion_bounds (r : HybridRecord) (weights : Weights) :
  weightsNonNegative weights -> weightsSum weights = 1 ->
  0 <= h_contentScore r <= 1 -> 0 <= h_collaborativeScore r <= 1 ->
  0 <= h_sequenceScore r <= 1 -> 0 <= h_ruleScore r <= 1 ->
  0 <= linearFusion r weights <= 1.
Proof.
  unfold weightsNonNegative, weightsSum, linearFusion.
  intros (Hc & Hco & Hs & Hr) Hsum H1 H2 H3 H4. nra.
Qed.

Lemma blockbuster_popularity : 1 < calculatePopularityScore blockbuster.
Proof.
  unfold calculatePopularityScore.
  cbn [blockbuster m_popularity m_averageRating m_ratingCount].
  rewrite !jsOr_zero.
  pose proof ln_10000_pos as Hpos.
  assert (Hlt : ln 10000 < ln (10000 + 1)) by (apply ln_increasing; lra).
  assert (Hq : 1 < ln (10000 + 1) / ln 10000).
  { apply (Rmult_lt_reg_r (ln 10000)); [assumption |].
    unfold Rdiv. rewrite Rmult_assoc, Rinv_l by lra. lra. }
  lra.
Qed.

(** C2, at a title with 10000 ratings (popularity 100, average rating 10):
    its popularity score, which is the score of every cold-path record for
    it, exceeds 1; and so does the score of the record that combineScores
    builds from the four cold paths under the weights of the profile left by
    a failed read. *)
Theorem C2_popularity_exceeds_one :
  0 <= m_popularity blockbuster <= 100
  /\ 0 <= m_averageRating blockbuster <= 10
  /\ 0 <= m_ratingCount blockbuster
  /\ 1 < calculatePopularityScore blockbuster
  /\ map s_score (popularityFallback [blockbuster] "content-cold")
     = [calculatePopularityScore blockbuster]
  /\ exists r,
       combineScores (popularityFallback [blockbuster] "content-cold")
         (popularityFallback [blockbuster] "collaborative-cold")
         (popularityFallback [blockbuster] "sequence-cold")
         (popularityFallback [blockbuster] "rule-cold")
         (calculateWeights (degenerateProfile "user123")) false = [r]
       /\ 1 < h_score r.
Proof.
  pose proof blockbuster_popularity as Hpop.
  cbn [blockbuster m_popularity m_averageRating m_ratingCount].
  split; [lra |]. split; [lra |]. split; [lra |]. split; [exact Hpop |].
  split; [reflexivity |].
  eexists. split.
  - unfold combineScores, popularityFallback, ingestScores.
    cbn [map fold_left ingestOne s_movie s_movieId s_score mapHas existsb app
           mapWrite f_movieId Z.eqb Pos.eqb setScore f_movie f_contentScore
           f_collaborativeScore f_sequenceScore f_ruleScore f_explanation
           orb blockbuster m_id].
    rewrite !jsOr_zero. reflexivity.
  - rewrite calculateWeights_tier1 by (simpl; try lia; exact I).
    cbn [toHybrid h_score f_contentScore f_collaborativeScore f_sequenceScore
           f_ruleScore w_content w_collaborative w_sequence w_rule
           degenerateProfile u_recencyScore jsOrOpt].
    fold blockbuster.
    replace (1 + 0 * 0.1) with 1 by lra. lra.
Qed.

(** ** The orchestrator on a cache miss *)

Section Orchestrator.
Variable now : Z.
Variable currentYear : R.
Variable getUserActions : string -> nat -> option string -> option (list Action).
Variable getRecentActions : string -> option (list Action).
Variable predict : string -> list Z -> option (list Prediction).

Lemma getAvailableMovies_empty (userId : string) (excludeRated excludeWatchlist : bool) :
  getAvailableMovies getUserActions userId excludeRated excludeWatchlist = [].
Proof.
  unfold getAvailableMovies, allMovies.
  destruct (negb excludeRated && negb excludeWatchlist); [reflexivity |].
  destruct (if excludeRated then _ else _); [| reflexivity].
  destruct (if excludeWatchlist then _ else _); reflexivity.
Qed.

(** C1: on a cache miss generateRecommendations returns the empty list and
    leaves the cache as it was, the candidate list being empty whatever the
    user and the exclusion flags. *)
Theorem C1_miss_returns_empty (userId : string) (options : Options) (redis : Cache) :
  redisGet redis (userId, options) = None ->
  (forall excludeRated excludeWatchlist,
      getAvailableMovies getUserActions userId excludeRated excludeWatchlist = [])
  /\ generateRecommendations now currentYear getUserActions getRecentActions
       predict userId options redis = ([], redis).
Proof.
  intros Hmiss. split; [intros; apply getAvailableMovies_empty |].
  unfold generateRecommendations. rewrite Hmiss.
  rewrite getAvailableMovies_empty. reflexivity.
Qed.
End Orchestrator.

Lemma C1_miss_returns_empty_witness :
  generateRecommendations 0%Z 2024 noActions noRecentActions noPredictions
    "user123" noOptions [] = ([], []).
Proof.
  apply (C1_miss_returns_empty 0%Z 2024 noActions noRecentActions noPredictions
           "user123" noOptions []).
  reflexivity.
Defined.

(** ** Cutoff and ranking *)

Lemma hasScore_tied (v : R) (a b : HybridRecord) :
  hasScore v a = true -> hasScore v b = true -> byScoreDesc a b = true.
Proof.
  unfold hasScore. intros Ha Hb.
  destruct (Req_dec_T (h_score a) v); [| discriminate].
  destruct (Req_dec_T (h_score b) v); [| discriminate].
  apply byScoreDesc_spec. lra.
Qed.

Lemma firstn_filter_prefix {A : Type} (p : A -> bool) (n : nat) (l : list A) :
  exists rest, filter p l = filter p (firstn n l) ++ rest.
Proof.
  exists (filter p (skipn n l)).
  rewrite <- filter_app, firstn_skipn. reflexivity.
Qed.

Lemma filter_filter_imp {A : Type} (p q : A -> bool) (l : list A) :
  (forall x, p x = true -> q x = true) ->
  filter p (filter q l) = filter p l.
Proof.
  intros Himp. induction l as [| x xs IH]; [reflexivity |].
  simpl. destruct (q x) eqn:Hq; simpl; rewrite IH; [reflexivity |].
  destruct (p x) eqn:Hp; [| reflexivity].
  rewrite (Himp x Hp) in Hq. discriminate.
Qed.

Lemma filter_none {A : Type} (p : A -> bool) (l : list A) :
  (forall x, In x l -> p x = false) -> filter p l = [].
Proof.
  intros Hnone. induction l as [| x xs IH]; [reflexivity |].
  simpl. rewrite (Hnone x) by (left; reflexivity).
  apply IH. intros y Hy. apply Hnone. right. assumption.
Qed.

Lemma firstn_incl {A : Type} (n : nat) (l : list A) (x : A) :
  In x (firstn n l) -> In x l.
Proof.
  intros Hin. rewrite <- (firstn_skipn n l). apply in_or_app. left. assumption.
Qed.

Lemma sortedByScoreDesc_firstn (n : nat) (l : list HybridRecord) :
  sortedByScoreDesc l -> sortedByScoreDesc (firstn n l).
Proof.
  unfold sortedByScoreDesc. revert n.
  induction l as [| x xs IH]; intros n Hs; destruct n; simpl; try constructor.
  - inversion Hs; subst. apply IH. assumption.
  - inversion Hs as [| ? ? _ Hall]; subst.
    rewrite Forall_forall in *. intros y Hy. apply Hall.
    eapply firstn_incl; eassumption.
Qed.

Lemma StronglySorted_weaken {A : Type} (P Q : A -> A -> Prop) (l : list A) :
  (forall a b, P a b -> Q a b) -> StronglySorted P l -> StronglySorted Q l.
Proof.
  intros Himp Hs. induction Hs as [| a l _ IH Hall]; constructor.
  - assumption.
  - eapply Forall_impl; [| exact Hall]. intros b. apply Himp.
Qed.

Lemma jsSort_byScoreDesc_sorted (l : list HybridRecord) :
  sortedByScoreDesc (jsSort byScoreDesc l).
Proof.
  unfold sortedByScoreDesc.
  apply StronglySorted_weaken with (P := fun a b => byScoreDesc a b = true).
  - intros a b. apply byScoreDesc_spec.
  - apply jsSort_sorted.
    + apply byScoreDesc_total.
    + apply byScoreDesc_trans.
Qed.

(** On a cache miss the list returned by [generateRecommendations] is the
    cut of some list of diversified records, under the [minScore] and
    [count] of the options or their defaults 0.5 and 25. *)
Lemma generateRecommendations_miss_cut
    (now : Z) (currentYear : R)
    (getUserActions : string -> nat -> option string -> option (list Action))
    (getRecentActions : string -> option (list Action))
    (predict : string -> list Z -> option (list Prediction))
    (userId : string) (options : Options) (redis : Cache) :
  redisGet redis (userId, options) = None ->
  exists diversifiedScores,
    fst (generateRecommendations now currentYear getUserActions getRecentActions
           predict userId options redis)
    = selectTop diversifiedScores
        (optionOr (o_minScore options) 0.5) (optionOr (o_count options) 25%nat).
Proof.
  intros Hmiss. unfold generateRecommendations. rewrite Hmiss.
  destruct (List.length _ =? 0)%nat.
  - exists []. unfold selectTop. simpl. rewrite firstn_nil. reflexivity.
  - eexists. unfold scoreAndRank. reflexivity.
Qed.

(** The cut of lines 60-63, on any list of diversified records: it keeps only
    records with score >= minScore, is sorted by score descending, has at
    most count records, and leaves records of equal score in the order in
    which they arrived (the sort is stable and compares scores only). *)
Theorem selectTop_sorted_stable
    (diversifiedScores : list HybridRecord) (minScore : R) (count : nat) :
  let recommendations := selectTop diversifiedScores minScore count in
  Forall (fun r => minScore <= h_score r) recommendations
  /\ sortedByScoreDesc recommendations
  /\ (List.length recommendations <= count)%nat
  /\ (forall v, exists rest,
         filter (hasScore v) diversifiedScores
         = filter (hasScore v) recommendations ++ rest).
Proof.
  intros recommendations. subst recommendations. unfold selectTop.
  set (kept := filter (fun item => Rleb minScore (h_score item)) diversifiedScores).
  assert (Hkept : forall r, In r (firstn count (jsSort byScoreDesc kept)) ->
                            minScore <= h_score r).
  { intros r Hin. apply firstn_incl in Hin.
    apply (Permutation_in _ (jsSort_perm byScoreDesc kept)) in Hin.
    apply filter_In in Hin. apply Rleb_true. apply Hin. }
  split; [| split; [| split]].
  - apply Forall_forall. exact Hkept.
  - apply sortedByScoreDesc_firstn, jsSort_byScoreDesc_sorted.
  - apply firstn_le_length.
  - intros v. destruct (Rle_dec minScore v) as [Hv | Hv].
    + destruct (firstn_filter_prefix (hasScore v) count (jsSort byScoreDesc kept))
        as [rest Hrest].
      exists rest. rewrite <- Hrest.
      rewrite jsSort_stable by (apply hasScore_tied).
      unfold kept. rewrite filter_filter_imp; [reflexivity |].
      intros x Hx. unfold hasScore in Hx.
      destruct (Req_dec_T (h_score x) v); [| discriminate].
      apply Rleb_true. lra.
    + exists (filter (hasScore v) diversifiedScores).
      rewrite (filter_none (hasScore v) (firstn count (jsSort byScoreDesc kept)));
        [reflexivity |].
      intros x Hx. apply Hkept in Hx. unfold hasScore.
      destruct (Req_dec_T (h_score x) v); [lra | reflexivity].
Qed.

Lemma selectTop_tiedPair : selectTop tiedPair 0.5 25 = tiedPair.
Proof.
  assert (Hkeep : forall id, Rleb 0.5 (h_score (evenRecord id 0.8)) = true)
    by (intros id; apply Rleb_true; simpl; lra).
  assert (Htie : byScoreDesc (evenRecord 2 0.8) (evenRecord 1 0.8) = true)
    by (apply byScoreDesc_spec; simpl; lra).
  unfold selectTop, tiedPair. cbn [filter]. rewrite !Hkeep.
  cbn [jsSort insertSorted]. rewrite Htie. reflexivity.
Qed.

Lemma existsb_setHas_nil (l : list string) : existsb (setHas []) l = false.
Proof. induction l as [| x xs IH]; [reflexivity | exact IH]. Qed.

Lemma calculateWeights_nonneg (p : UserProfile) :
  weightsNonNegative (calculateWeights p).
Proof.
  unfold calculateWeights.
  destruct (u_ratingCount p <? 5)%nat; [| destruct (u_ratingCount p <? 25)%nat];
    unfold weightsNonNegative, normalizeWeights;
    cbn [w_content w_collaborative w_sequence w_rule];
    repeat split; apply Rmax_l.
Qed.

Lemma calculatePopularityScore_plain (id : Z) :
  calculatePopularityScore (plainMovie id) = 0.
Proof.
  unfold calculatePopularityScore.
  cbn [plainMovie m_popularity m_averageRating m_ratingCount].
  rewrite !jsOr_zero. replace (0 + 1) with 1 by lra. rewrite ln_1. lra.
Qed.

(** Two records of equal score, the first without genres and directors, go
    through the diversity filter and the cut in the order of their arrival. *)
Lemma tied_pair_keeps_order (a b : HybridRecord) (f minScore : R) (count : nat) :
  h_score a = h_score b ->
  m_genres (h_movie a) = [] -> m_directors (h_movie a) = [] ->
  0 < f -> minScore <= h_score a -> (2 <= count)%nat ->
  exists a' b',
    selectTop (applyDiversityFilter [a; b] f) minScore count = [a'; b']
    /\ h_movieId a' = h_movieId a /\ h_movieId b' = h_movieId b
    /\ h_score a' = h_score b'.
Proof.
  intros Htie Hg Hd Hf Hmin Hcount.
  unfold applyDiversityFilter.
  destruct (Rle_dec f 0) as [Hle | _]; [lra |].
  cbn [jsSort insertSorted].
  assert (Hab : byScoreDesc a b = true) by (apply byScoreDesc_spec; lra).
  rewrite Hab. cbn [diversityLoop]. rewrite Hg, Hd.
  cbn [existsb app]. rewrite !existsb_setHas_nil.
  set (a' := setHybridScore a _). set (b' := setHybridScore b _).
  assert (Ha' : h_score a' = h_score a) by (unfold a'; simpl; lra).
  assert (Hb' : h_score b' = h_score a) by (unfold b'; simpl; lra).
  exists a', b'. unfold selectTop. cbn [filter].
  assert (Hka : Rleb minScore (h_score a') = true) by (apply Rleb_true; lra).
  assert (Hkb : Rleb minScore (h_score b') = true) by (apply Rleb_true; lra).
  rewrite Hka, Hkb. cbn [jsSort insertSorted].
  assert (Hab' : byScoreDesc a' b' = true) by (apply byScoreDesc_spec; lra).
  rewrite Hab'.
  rewrite firstn_all2 by (simpl; lia).
  split; [reflexivity |]. split; [reflexivity |]. split; [reflexivity |].
  rewrite Ha', Hb'. reflexivity.
Qed.

Lemma scoreAndRank_fresh_pair :
  exists a' b',
    scoreAndRank 0%Z noActions noPredictions "user123" freshProfile
      (calculateWeights freshProfile) [plainMovie 2; plainMovie 1] 25 0 0.25 false
    = [a'; b']
    /\ h_movieId a' = 2%Z /\ h_movieId b' = 1%Z /\ h_score a' = h_score b'.
Proof.
  unfold scoreAndRank.
  assert (Hc : contentBasedRecommendation [plainMovie 2; plainMovie 1] freshProfile
               = popularityFallback [plainMovie 2; plainMovie 1] "content-cold")
    by reflexivity.
  assert (Hco : collaborativeFiltering noActions noPredictions "user123"
                  [plainMovie 2; plainMovie 1]
                = popularityFallback [plainMovie 2; plainMovie 1] "collaborative-cold")
    by reflexivity.
  assert (Hs : sequenceBasedRecommendation 0%Z [plainMovie 2; plainMovie 1] freshProfile
               = popularityFallback [plainMovie 2; plainMovie 1] "sequence-cold")
    by reflexivity.
  rewrite Hc, Hco, Hs.
  assert (Hr : exists rp, extractRulePreferences freshProfile = Some rp)
    by (eexists; reflexivity).
  destruct Hr as [rp Hr]. unfold ruleBasedRecommendation. rewrite Hr.
  assert (HR : forall id, calculateRuleScore (plainMovie id) rp
                          = calculateRuleScore (plainMovie 0) rp) by reflexivity.
  pose proof (calculateRuleScore_bounds (plainMovie 0) rp) as Hrule.
  pose proof (calculateWeights_nonneg freshProfile) as (_ & _ & _ & Hw).
  set (w := calculateWeights freshProfile) in *.
  unfold combineScores, popularityFallback, ingestScores.
  cbn [map fold_left ingestOne s_movie s_movieId s_score mapHas existsb app
         mapWrite f_movieId Z.eqb Pos.eqb setScore f_movie f_contentScore
         f_collaborativeScore f_sequenceScore f_ruleScore f_explanation
         orb plainMovie m_id].
  rewrite !jsOr_zero.
  match goal with
  | |- context [applyDiversityFilter (?a :: ?b :: nil) _] =>
      destruct (tied_pair_keeps_order a b 0.25 0 25) as (a' & b' & Hcut & Ha & Hb & Hab)
  end.
  - cbn [toHybrid h_score f_contentScore f_collaborativeScore f_sequenceScore
           f_ruleScore].
    fold (plainMovie 2). fold (plainMovie 1). rewrite !HR. reflexivity.
  - reflexivity.
  - reflexivity.
  - lra.
  - cbn [toHybrid h_score f_contentScore f_collaborativeScore f_sequenceScore
           f_ruleScore].
    fold (plainMovie 2). rewrite HR, calculatePopularityScore_plain. nra.
  - lia.
  - exists a', b'. rewrite Hcut. repeat split; assumption.
Qed.

(** The cut alone does not order equal scores by id.  Two records of score
    0.8 reaching it as movie 2, movie 1 leave it in that order; and fed the
    candidates movie 2, movie 1 of equal statistics for a user without any
    action, the scorers, the fusion, the diversity filter and the cut give
    movie 2, movie 1 with equal scores.  ([generateRecommendations] never
    feeds them: its candidate list is empty.) *)
Lemma selectTop_ties_keep_order :
  (map h_movieId (selectTop tiedPair 0.5 25) = [2%Z; 1%Z]
   /\ ~ sortedByScoreThenId (selectTop tiedPair 0.5 25))
  /\ (map h_movieId
        (scoreAndRank 0%Z noActions noPredictions "user123" freshProfile
           (calculateWeights freshProfile) [plainMovie 2; plainMovie 1]
           25 0 0.25 false) = [2%Z; 1%Z]
      /\ ~ sortedByScoreThenId
             (scoreAndRank 0%Z noActions noPredictions "user123" freshProfile
                (calculateWeights freshProfile) [plainMovie 2; plainMovie 1]
                25 0 0.25 false)).
Proof.
  split.
  - rewrite selectTop_tiedPair. split; [reflexivity |].
    unfold sortedByScoreThenId, tiedPair. intros Hs.
    inversion Hs as [| ? ? _ Hall]; subst.
    inversion Hall as [| ? ? Hhead _]; subst.
    simpl in Hhead. destruct Hhead as [Hlt | [_ Hid]]; [lra | lia].
  - destruct scoreAndRank_fresh_pair as (a' & b' & -> & Ha & Hb & Hab).
    split; [simpl; rewrite Ha, Hb; reflexivity |].
    unfold sortedByScoreThenId. intros Hs.
    inversion Hs as [| ? ? _ Hall]; subst.
    inversion Hall as [| ? ? Hhead _]; subst.
    destruct Hhead as [Hlt | [_ Hid]]; [lra | lia].
Qed.



(** ** Diversity filter *)

Lemma rescored_refl (r : HybridRecord) : rescored r r.
Proof. destruct r. reflexivity. Qed.

Lemma diversityLoop_rescores (f : R) (recs : list HybridRecord) :
  0 < f ->
  Forall (fun r => 0 <= h_score r) recs ->
  forall selectedGenres selectedDirectors,
    Forall2 (fun r r' => rescored r r' /\ h_score r' <= h_score r)
      recs (diversityLoop f selectedGenres selectedDirectors recs).
Proof.
  intros Hf Hpos. induction Hpos as [| r rest Hr _ IH]; intros sg sd; simpl.
  - constructor.
  - constructor; [| apply IH].
    split; [reflexivity |].
    cbn [h_score setHybridScore].
    destruct (existsb (setHas sg) (m_genres (h_movie r)));
      destruct (existsb (setHas sd) (m_directors (h_movie r))); nra.
Qed.

(** C8: the diversity filter returns the records it was given, each with a
    score no larger than before, provided the scores are non-negative; with
    diversityFactor <= 0 it returns its input unchanged. *)
Theorem C8_diversity_rescoring
    (recommendations : list HybridRecord) (diversityFactor : R) :
  Forall (fun r => 0 <= h_score r) recommendations ->
  (exists before,
      Permutation before recommendations
      /\ Forall2 (fun r r' => rescored r r' /\ h_score r' <= h_score r)
           before (applyDiversityFilter recommendations diversityFactor))
  /\ (diversityFactor <= 0 ->
      applyDiversityFilter recommendations diversityFactor = recommendations).
Proof.
  intros Hpos. unfold applyDiversityFilter.
  destruct (Rle_dec diversityFactor 0) as [Hskip | Hon].
  - split; [| reflexivity].
    exists recommendations. split; [apply Permutation_refl |].
    clear Hpos. induction recommendations as [| r rest IH]; constructor.
    + split; [apply rescored_refl | lra].
    + exact IH.
  - split; [| intros Hle; contradiction].
    exists (jsSort byScoreDesc recommendations).
    split; [apply jsSort_perm |].
    apply diversityLoop_rescores; [lra |].
    eapply Permutation_Forall; [apply Permutation_sym, jsSort_perm | exact Hpos].
Qed.

(** The filter on two dramas: the stronger one goes first and keeps its
    score, the other one pays the genre penalty 0.3 * 0.25. *)
Example applyDiversityFilter_dramaPair :
  map (fun r => (h_movieId r, h_score r)) (applyDiversityFilter dramaPair 0.25)
  = [(1%Z, 0.9 * (1 - (0 + 0 + 0) * 0.25)); (2%Z, 0.8 * (1 - (0 + 0.3 + 0) * 0.25))].
Proof.
  unfold applyDiversityFilter, dramaPair.
  destruct (Rle_dec 0.25 0) as [Hle | _]; [lra |].
  cbn [jsSort insertSorted].
  assert (Hord : byScoreDesc (genreRecord 2 0.8 ["Drama"])
                   (genreRecord 1 0.9 ["Drama"]) = false)
    by (apply Rleb_false; simpl; lra).
  rewrite Hord. reflexivity.
Qed.

Lemma C8_diversity_rescoring_witness :
  (exists before,
      Permutation before dramaPair
      /\ Forall2 (fun r r' => rescored r r' /\ h_score r' <= h_score r)
           before (applyDiversityFilter dramaPair 0.25))
  /\ (0.25 <= 0 -> applyDiversityFilter dramaPair 0.25 = dramaPair).
Proof.
  apply (C8_diversity_rescoring dramaPair 0.25).
  repeat constructor; simpl; lra.
Defined.

(** ** Sessions *)

Lemma adjacentWithin_snoc (T : Z) (s : list Action) (a : Action) :
  adjacentWithin T s ->
  (s <> [] -> (a_timestamp a - a_timestamp (last s a) <= T)%Z) ->
  adjacentWithin T (s ++ [a]).
Proof.
  induction s as [| x xs IH]; intros Hs Hgap; [exact I |].
  destruct xs as [| y ys].
  - simpl. split; [| exact I]. apply Hgap. discriminate.
  - destruct Hs as [Hxy Hrest].
    change (adjacentWithin T (x :: (y :: ys) ++ [a])).
    cbn [adjacentWithin app]. split; [exact Hxy |].
    apply IH; [assumption |].
    intros _. apply Hgap. discriminate.
Qed.

Lemma sessionsApart_snoc (T : Z) (sessions : list (list Action)) (c : list Action) :
  sessionsApart T sessions ->
  (sessions <> [] ->
   forall d, (a_timestamp (hd d c) - a_timestamp (last (last sessions []) d) > T)%Z) ->
  sessionsApart T (sessions ++ [c]).
Proof.
  induction sessions as [| s1 rest IH]; intros Hs Hgap; [exact I |].
  destruct rest as [| s2 rest'].
  - simpl. split; [| exact I]. apply Hgap. discriminate.
  - destruct Hs as [H12 Hrest].
    cbn [sessionsApart app]. split; [exact H12 |].
    apply IH; [assumption |].
    intros _. apply Hgap. discriminate.
Qed.

Lemma last_snoc {A : Type} (l : list A) (x d : A) : last (l ++ [x]) d = x.
Proof. apply last_last. Qed.

Lemma hd_app_nonempty {A : Type} (l l' : list A) (d : A) :
  l <> [] -> hd d (l ++ l') = hd d l.
Proof. destruct l; [contradiction | reflexivity]. Qed.

Lemma last_default_irrelevant {A : Type} (l : list A) (d d' : A) :
  l <> [] -> last l d = last l d'.
Proof.
  induction l as [| x xs IH]; [contradiction |].
  intros _. destruct xs as [| y ys]; [reflexivity |].
  cbn [last]. apply IH. discriminate.
Qed.

Lemma sessionStep_invariant (T : Z) (st : list (list Action) * list Action) (a : Action) :
  sessionInvariant T st -> sessionInvariant T (sessionStep T st a).
Proof.
  destruct st as [sessions cur]. unfold sessionInvariant, sessionStep.
  intros (Hall & Hcur & Hapart & Hgap & Hempty).
  destruct cur as [| c cs].
  - rewrite (Hempty eq_refl). simpl.
    repeat split; try constructor; try contradiction; discriminate.
  - cbn [List.length Nat.eqb].
    destruct (a_timestamp a - a_timestamp (last (c :: cs) a) <=? T)%Z eqn:Hle.
    + apply Z.leb_le in Hle.
      split; [exact Hall |]. split.
      { apply adjacentWithin_snoc; [assumption | intros _; exact Hle]. }
      split; [exact Hapart |]. split.
      { intros Hne d. rewrite hd_app_nonempty by discriminate. apply Hgap, Hne. }
      intros Hnil. destruct (app_eq_nil _ _ Hnil) as [Hc _]. discriminate.
    + apply Z.leb_gt in Hle.
      split.
      { apply Forall_app. split; [exact Hall |].
        constructor; [| constructor]. split; [discriminate | exact Hcur]. }
      split; [exact I |]. split.
      { apply sessionsApart_snoc; assumption. }
      split; [| discriminate].
      intros _ d. rewrite last_snoc. cbn [hd].
      rewrite (last_default_irrelevant (c :: cs) d a) by discriminate. lia.
Qed.

Lemma sessionStep_concat (T : Z) (st : list (list Action) * list Action) (a : Action) :
  List.concat (fst (sessionStep T st a)) ++ snd (sessionStep T st a)
  = (List.concat (fst st) ++ snd st) ++ [a].
Proof.
  destruct st as [sessions cur]. unfold sessionStep.
  destruct (List.length cur =? 0)%nat; [simpl; apply app_assoc |].
  destruct (a_timestamp a - a_timestamp (last cur a) <=? T)%Z; simpl.
  - apply app_assoc.
  - rewrite concat_app. simpl. rewrite app_nil_r. reflexivity.
Qed.

Lemma sessionLoop_invariant (T : Z) (l : list Action) :
  forall st, sessionInvariant T st ->
             sessionInvariant T (fold_left (sessionStep T) l st).
Proof.
  induction l as [| a l IH]; intros st Hst; [exact Hst |].
  simpl. apply IH, sessionStep_invariant, Hst.
Qed.

Lemma sessionLoop_concat (T : Z) (l : list Action) :
  forall st,
    List.concat (fst (fold_left (sessionStep T) l st))
      ++ snd (fold_left (sessionStep T) l st)
    = (List.concat (fst st) ++ snd st) ++ l.
Proof.
  induction l as [| a l IH]; intros st; [symmetry; apply app_nil_r |].
  simpl. rewrite IH, sessionStep_concat, <- app_assoc. reflexivity.
Qed.

Lemma groupActionsBySessions_spec (T : Z) (actions : list Action) :
  let sessions := groupActionsBySessions actions T in
  Forall (fun s => s <> [] /\ adjacentWithin T s) sessions
  /\ sessionsApart T sessions
  /\ List.concat sessions = jsSort byTimestampAsc actions.
Proof.
  unfold groupActionsBySessions.
  pose proof (sessionLoop_invariant T (jsSort byTimestampAsc actions) ([], [])) as Hinv.
  pose proof (sessionLoop_concat T (jsSort byTimestampAsc actions) ([], [])) as Hcat.
  destruct (fold_left (sessionStep T) (jsSort byTimestampAsc actions) ([], []))
    as [sessions cur].
  assert (Hinit : sessionInvariant T ([], [])).
  { simpl. repeat split; try constructor; try contradiction. }
  specialize (Hinv Hinit). simpl in Hcat.
  destruct Hinv as (Hall & Hcur & Hapart & Hgap & Hempty).
  destruct cur as [| c cs].
  - rewrite (Hempty eq_refl) in *. simpl. simpl in Hcat.
    repeat split; try constructor. exact Hcat.
  - cbn [List.length Nat.ltb Nat.leb]. cbv zeta.
    split; [| split].
    + apply Forall_app. split; [exact Hall |].
      constructor; [| constructor]. split; [discriminate | exact Hcur].
    + apply sessionsApart_snoc; assumption.
    + rewrite concat_app. simpl. rewrite app_nil_r. exact Hcat.
Qed.

(** C9: with the 30-minute timeout, groupActionsBySessions cuts the actions,
    sorted by ascending timestamp, into non-empty sessions whose adjacent
    actions are at most 30 minutes apart, and more than 30 minutes lie
    between the last action of a session and the first of the next. *)
Theorem C9_session_grouping (actions : list Action) :
  let sessions := groupActionsBySessions actions DEFAULT_SESSION_TIMEOUT in
  DEFAULT_SESSION_TIMEOUT = 1800000%Z
  /\ Forall (fun s => s <> [] /\ adjacentWithin DEFAULT_SESSION_TIMEOUT s) sessions
  /\ sessionsApart DEFAULT_SESSION_TIMEOUT sessions
  /\ List.concat sessions = jsSort byTimestampAsc actions
  /\ Permutation (List.concat sessions) actions
  /\ StronglySorted (fun a b => (a_timestamp a <= a_timestamp b)%Z)
       (List.concat sessions).
Proof.
  intros sessions.
  destruct (groupActionsBySessions_spec DEFAULT_SESSION_TIMEOUT actions)
    as (Hall & Hapart & Hcat).
  fold sessions in Hall, Hapart, Hcat.
  split; [reflexivity |]. split; [exact Hall |]. split; [exact Hapart |].
  split; [exact Hcat |]. rewrite Hcat. split.
  - apply jsSort_perm.
  - apply StronglySorted_weaken with (P := fun a b => byTimestampAsc a b = true).
    + intros a b. apply byTimestampAsc_spec.
    + apply jsSort_sorted.
      * intros a b. unfold byTimestampAsc. rewrite Z.leb_gt, Z.leb_le. lia.
      * intros a b c. rewrite !byTimestampAsc_spec. lia.
Qed.

(** The grouping test of the suite: two sessions, of two actions and one. *)
Example groupActionsBySessions_sample :
  map (map a_timestamp) (groupActionsBySessions sampleActions DEFAULT_SESSION_TIMEOUT)
  = [[0%Z; 900000%Z]; [3600000%Z]].
Proof. reflexivity. Qed.

(** ** Fusion *)

Lemma setScore_id (k : ScoreKey) (v : R) (e : FusedEntry) :
  f_movieId (setScore k v e) = f_movieId e.
Proof. destruct k; reflexivity. Qed.

Lemma getScore_setScore (k k' : ScoreKey) (v : R) (e : FusedEntry) :
  getScore k' (setScore k v e) = if ScoreKey_eq_dec k k' then v else getScore k' e.
Proof.
  destruct k, k'; reflexivity.
Qed.

Lemma mapGet_mapWrite (m : ScoreMap) (id' id : Z) (k : ScoreKey) (v : R) :
  mapGet (mapWrite m id' k v) id
  = if (id' =? id)%Z then option_map (setScore k v) (mapGet m id)
    else mapGet m id.
Proof.
  unfold mapGet. induction m as [| e rest IH]; simpl.
  - destruct (id' =? id)%Z; reflexivity.
  - destruct (f_movieId e =? id')%Z eqn:He'.
    + apply Z.eqb_eq in He'. simpl. rewrite setScore_id, He'.
      destruct (id' =? id)%Z; reflexivity.
    + simpl. destruct (f_movieId e =? id)%Z eqn:He.
      * apply Z.eqb_eq in He. rewrite He in He'.
        rewrite Z.eqb_sym in He'. rewrite He'. reflexivity.
      * exact IH.
Qed.

Lemma mapHas_mapGet (m : ScoreMap) (id : Z) :
  mapHas m id = match mapGet m id with Some _ => true | None => false end.
Proof.
  unfold mapHas, mapGet. induction m as [| e rest IH]; simpl; [reflexivity |].
  destruct (f_movieId e =? id)%Z; [reflexivity | exact IH].
Qed.

Lemma mapGet_snoc (m : ScoreMap) (e : FusedEntry) (id : Z) :
  mapGet (m ++ [e]) id
  = match mapGet m id with
    | Some x => Some x
    | None => if (f_movieId e =? id)%Z then Some e else None
    end.
Proof.
  unfold mapGet. induction m as [| x rest IH]; simpl.
  - destruct (f_movieId e =? id)%Z; reflexivity.
  - destruct (f_movieId x =? id)%Z; [reflexivity | exact IH].
Qed.

Lemma mapGet_id (m : ScoreMap) (id : Z) (e : FusedEntry) :
  mapGet m id = Some e -> f_movieId e = id.
Proof.
  unfold mapGet. intros H. apply find_some in H. apply Z.eqb_eq, H.
Qed.

(** One write of [ingestScores], seen from any movie and any slot. *)
Lemma ingestOne_slot (incl : bool) (k k' : ScoreKey) (m : ScoreMap)
    (item : ScoreRecord) (id : Z) :
  slotOf k' (ingestOne incl k m item) id
  = match s_movie item with
    | Some _ =>
        if (s_movieId item =? id)%Z
        then (if ScoreKey_eq_dec k k' then s_score item else slotOf k' m id)
        else slotOf k' m id
    | None => slotOf k' m id
    end.
Proof.
  unfold ingestOne, slotOf. destruct (s_movie item) as [movie |]; [| reflexivity].
  rewrite mapGet_mapWrite, jsOr_zero.
  destruct (s_movieId item =? id)%Z eqn:Hid.
  - apply Z.eqb_eq in Hid. rewrite mapHas_mapGet, Hid.
    destruct (mapGet m id) as [e |] eqn:Hget.
    + rewrite Hget. simpl. apply getScore_setScore.
    + rewrite mapGet_snoc, Hget. cbn [f_movieId]. rewrite Z.eqb_refl.
      simpl. rewrite getScore_setScore.
      destruct (ScoreKey_eq_dec k k'); [reflexivity |]. destruct k'; reflexivity.
  - destruct (mapHas m (s_movieId item)); [reflexivity |].
    rewrite mapGet_snoc. cbn [f_movieId]. rewrite Hid.
    destruct (mapGet m id); reflexivity.
Qed.

Lemma ingestScores_same_slot (incl : bool) (k : ScoreKey)
    (scores : list ScoreRecord) (id : Z) :
  forall m,
    slotOf k (ingestScores incl scores k m) id
    = fold_left
        (fun slot item =>
           match s_movie item with
           | Some _ => if (s_movieId item =? id)%Z then s_score item else slot
           | None => slot
           end) scores (slotOf k m id).
Proof.
  unfold ingestScores. induction scores as [| item rest IH]; intros m; [reflexivity |].
  simpl. rewrite IH, ingestOne_slot.
  destruct (ScoreKey_eq_dec k k); [reflexivity | contradiction].
Qed.

Lemma ingestScores_other_slot (incl : bool) (k k' : ScoreKey)
    (scores : list ScoreRecord) (id : Z) :
  k <> k' ->
  forall m, slotOf k' (ingestScores incl scores k m) id = slotOf k' m id.
Proof.
  intros Hk. unfold ingestScores.
  induction scores as [| item rest IH]; intros m; [reflexivity |].
  simpl. rewrite IH, ingestOne_slot.
  destruct (ScoreKey_eq_dec k k'); [contradiction |].
  destruct (s_movie item); [| reflexivity].
  destruct (s_movieId item =? id)%Z; reflexivity.
Qed.

(** The map never holds two entries of one movie. *)
Lemma mapWrite_ids (m : ScoreMap) (id : Z) (k : ScoreKey) (v : R) :
  map f_movieId (mapWrite m id k v) = map f_movieId m.
Proof.
  induction m as [| e rest IH]; [reflexivity |].
  simpl. destruct (f_movieId e =? id)%Z; simpl.
  - rewrite setScore_id. reflexivity.
  - rewrite IH. reflexivity.
Qed.

Lemma mapHas_false_notin (m : ScoreMap) (id : Z) :
  mapHas m id = false -> ~ In id (map f_movieId m).
Proof.
  unfold mapHas. intros Hhas Hin. apply in_map_iff in Hin.
  destruct Hin as (e & He & Hin).
  assert (Htrue : existsb (fun e => (f_movieId e =? id)%Z) m = true).
  { apply existsb_exists. exists e. split; [assumption | apply Z.eqb_eq, He]. }
  congruence.
Qed.

Lemma ingestOne_nodup (incl : bool) (k : ScoreKey) (m : ScoreMap) (item : ScoreRecord) :
  NoDup (map f_movieId m) -> NoDup (map f_movieId (ingestOne incl k m item)).
Proof.
  intros Hnd. unfold ingestOne. destruct (s_movie item) as [movie |]; [| exact Hnd].
  rewrite mapWrite_ids.
  destruct (mapHas m (s_movieId item)) eqn:Hhas; [exact Hnd |].
  rewrite map_app. simpl.
  apply NoDup_app; [exact Hnd | constructor; [intros [] | constructor] |].
  intros x Hx [Heq | []]. subst x.
  apply (mapHas_false_notin m _ Hhas). exact Hx.
Qed.

Lemma ingestScores_nodup (incl : bool) (k : ScoreKey) (scores : list ScoreRecord) :
  forall m, NoDup (map f_movieId m) ->
            NoDup (map f_movieId (ingestScores incl scores k m)).
Proof.
  unfold ingestScores. induction scores as [| item rest IH]; intros m Hnd; [exact Hnd |].
  simpl. apply IH, ingestOne_nodup, Hnd.
Qed.

Lemma nodup_mapGet (m : ScoreMap) (e : FusedEntry) :
  NoDup (map f_movieId m) -> In e m -> mapGet m (f_movieId e) = Some e.
Proof.
  unfold mapGet. induction m as [| x rest IH]; intros Hnd Hin; [contradiction |].
  simpl in *. inversion Hnd as [| ? ? Hnotin Hrest]; subst.
  destruct Hin as [-> | Hin].
  - rewrite Z.eqb_refl. reflexivity.
  - destruct (f_movieId x =? f_movieId e)%Z eqn:Hx.
    + exfalso. apply Hnotin. apply Z.eqb_eq in Hx. rewrite Hx.
      apply in_map. exact Hin.
    + apply IH; assumption.
Qed.

Lemma combineScores_slots
    (cs co se ru : list ScoreRecord) (incl : bool) (e : FusedEntry) :
  In e (ingestScores incl ru RuleScore
          (ingestScores incl se SequenceScore
             (ingestScores incl co CollaborativeScore
                (ingestScores incl cs ContentScore [])))) ->
  f_contentScore e = strategyScore cs (f_movieId e)
  /\ f_collaborativeScore e = strategyScore co (f_movieId e)
  /\ f_sequenceScore e = strategyScore se (f_movieId e)
  /\ f_ruleScore e = strategyScore ru (f_movieId e).
Proof.
  intros Hin.
  set (m1 := ingestScores incl cs ContentScore []) in *.
  set (m2 := ingestScores incl co CollaborativeScore m1) in *.
  set (m3 := ingestScores incl se SequenceScore m2) in *.
  set (m4 := ingestScores incl ru RuleScore m3) in *.
  assert (Hnd : NoDup (map f_movieId m4)).
  { repeat apply ingestScores_nodup. constructor. }
  assert (Hslot : forall k, getScore k e = slotOf k m4 (f_movieId e)).
  { intros k. unfold slotOf. rewrite (nodup_mapGet m4 e Hnd Hin). reflexivity. }
  unfold strategyScore. repeat split.
  - change (f_contentScore e) with (getScore ContentScore e). rewrite Hslot.
    unfold m4, m3, m2.
    rewrite !ingestScores_other_slot by discriminate.
    unfold m1. rewrite ingestScores_same_slot. reflexivity.
  - change (f_collaborativeScore e) with (getScore CollaborativeScore e). rewrite Hslot.
    unfold m4, m3.
    rewrite !ingestScores_other_slot by discriminate.
    unfold m2. rewrite ingestScores_same_slot.
    unfold m1. rewrite ingestScores_other_slot by discriminate. reflexivity.
  - change (f_sequenceScore e) with (getScore SequenceScore e). rewrite Hslot.
    unfold m4. rewrite ingestScores_other_slot by discriminate.
    unfold m3. rewrite ingestScores_same_slot.
    unfold m2, m1. rewrite !ingestScores_other_slot by discriminate. reflexivity.
  - change (f_ruleScore e) with (getScore RuleScore e). rewrite Hslot.
    unfold m4. rewrite ingestScores_same_slot.
    unfold m3, m2, m1. rewrite !ingestScores_other_slot by discriminate. reflexivity.
Qed.

(** C3: every record of combineScores has as score the weighted sum of its
    four sub-scores, each sub-score being the strategy's score for that movie
    and 0 when the strategy gave none; for the sub-scores 0.8, 0.6, 0.7, 0.5
    of a single movie and the weights 0.4, 0.3, 0.2, 0.1 the score is 0.69. *)
Theorem C3_fusion_linear :
  (forall contentScores collaborativeScores sequenceScores ruleScores
          weights includeExplanations,
      Forall (fun r =>
                h_score r = linearFusion r weights
                /\ h_contentScore r = strategyScore contentScores (h_movieId r)
                /\ h_collaborativeScore r
                   = strategyScore collaborativeScores (h_movieId r)
                /\ h_sequenceScore r = strategyScore sequenceScores (h_movieId r)
                /\ h_ruleScore r = strategyScore ruleScores (h_movieId r))
        (combineScores contentScores collaborativeScores sequenceScores
           ruleScores weights includeExplanations))
  /\ (forall movie, exists r,
         combineScores (scored movie 0.8) (scored movie 0.6) (scored movie 0.7)
           (scored movie 0.5) sampleWeights false = [r]
         /\ h_score r = 0.69
         /\ Rabs (h_score r - 0.69) <= 1 / 10 ^ 9).
Proof.
  split.
  - intros cs co se ru w incl. apply Forall_forall. intros r Hr.
    unfold combineScores in Hr. apply in_map_iff in Hr.
    destruct Hr as (e & <- & He).
    split; [reflexivity |].
    cbn [toHybrid h_contentScore h_collaborativeScore h_sequenceScore
           h_ruleScore h_movieId].
    apply combineScores_slots with (incl := incl). exact He.
  - intros movie. eexists. split; [| split].
    + unfold combineScores, scored, ingestScores.
      cbn [fold_left ingestOne s_movie s_movieId s_score mapHas existsb app
             mapWrite f_movieId Z.eqb Pos.eqb setScore f_movie f_contentScore
             f_collaborativeScore f_sequenceScore f_ruleScore f_explanation
             orb map].
      rewrite !jsOr_zero. reflexivity.
    + cbn [toHybrid h_score f_contentScore f_collaborativeScore f_sequenceScore
             f_ruleScore sampleWeights w_content w_collaborative w_sequence w_rule].
      lra.
    + cbn [toHybrid h_score f_contentScore f_collaborativeScore f_sequenceScore
             f_ruleScore sampleWeights w_content w_collaborative w_sequence w_rule].
      replace (0.8 * 0.4 + 0.6 * 0.3 + 0.7 * 0.2 + 0.5 * 0.1 - 0.69) with 0 by lra.
      rewrite Rabs_R0. apply div_nonneg; [lra |]. apply pow_lt. lra.
Qed.

Lemma strategyScore_absent (scores : list ScoreRecord) (id : Z) :
  (forall item, In item scores -> s_movieId item <> id \/ s_movie item = None) ->
  strategyScore scores id = 0.
Proof.
  unfold strategyScore. generalize 0.
  induction scores as [| item rest IH]; intros slot Habs; [reflexivity |].
  simpl. assert (Hitem := Habs item (or_introl eq_refl)).
  assert (Hrest : forall x, In x rest -> s_movieId x <> id \/ s_movie x = None)
    by (intros x Hx; apply Habs; right; exact Hx).
  destruct Hitem as [Hid | Hmovie].
  - apply Z.eqb_neq in Hid. rewrite Hid.
    destruct (s_movie item); apply IH; exact Hrest.
  - rewrite Hmovie. apply IH. exact Hrest.
Qed.

(** ** Cold start *)

Section ColdStart.
Variable now : Z.
Variable currentYear : R.
Variable getUserActions : string -> nat -> option string -> option (list Action).
Variable getRecentActions : string -> option (list Action).
Variable predict : string -> list Z -> option (list Prediction).

Lemma findSimilarUsers_empty (userId : string) :
  findSimilarUsers getUserActions userId = [].
Proof.
  unfold findSimilarUsers.
  destruct (getUserActions userId 1000%nat (Some "rate")) as [ratings |];
    [| reflexivity].
  destruct (List.length ratings =? 0)%nat; reflexivity.
Qed.

Lemma userBasedCollaborativeFiltering_cold (userId : string) (movies : list Movie) :
  userBasedCollaborativeFiltering getUserActions userId movies
  = popularityFallback movies "collaborative-cold".
Proof.
  unfold userBasedCollaborativeFiltering. rewrite findSimilarUsers_empty. reflexivity.
Qed.

(** With working reads the profile always carries preferences, and these a
    genre dictionary, empty for a user without ratings. *)
Lemma getUserProfile_preferences (userId : string) (ratings recent all : list Action) :
  getUserActions userId 1000%nat (Some "rate") = Some ratings ->
  getRecentActions userId = Some recent ->
  getUserActions userId 1000%nat None = Some all ->
  let profile := getUserProfile now currentYear getUserActions getRecentActions userId in
  u_ratingCount profile = List.length ratings
  /\ u_recentActions profile = firstn DEFAULT_SEQUENCE_WINDOW recent
  /\ exists preferences genres,
       u_preferences profile = Some preferences
       /\ p_genres preferences = Some genres.
Proof.
  intros Hr Hrec Hall. unfold getUserProfile. rewrite Hr, Hrec, Hall.
  cbn [u_ratingCount u_recentActions u_preferences].
  split; [reflexivity |]. split; [reflexivity |].
  eexists. eexists. split; reflexivity.
Qed.

Lemma ruleBasedRecommendation_sources (movies : list Movie) (profile : UserProfile) :
  (u_preferences profile = None ->
   ruleBasedRecommendation movies profile = popularityFallback movies "rule-cold")
  /\ (forall preferences genres,
         u_preferences profile = Some preferences ->
         p_genres preferences = Some genres ->
         Forall (fun r => s_source r = "rule-based")
           (ruleBasedRecommendation movies profile)).
Proof.
  unfold ruleBasedRecommendation, extractRulePreferences. split.
  - intros Hnone. rewrite Hnone. reflexivity.
  - intros preferences genres Hp Hg. rewrite Hp, Hg.
    apply Forall_forall. intros r Hr. apply in_map_iff in Hr.
    destruct Hr as (movie & <- & _). reflexivity.
Qed.

(** C4, as the code has it: for a user with ratingCount = 0, no recent
    action and no prediction from the matrix model, the content,
    collaborative and sequence scorers return the popularity fallback under
    their cold tags; the rule scorer returns it, tagged rule-cold, when the
    profile carries no preferences, and tags its records rule-based when the
    profile carries preferences with a genre dictionary, as every profile
    built from working reads does. *)
Theorem C4_cold_start_paths
    (userId : string) (movies : list Movie) (profile : UserProfile) :
  u_ratingCount profile = 0%nat ->
  u_recentActions profile = [] ->
  predict userId (map m_id movies) = Some [] ->
  contentBasedRecommendation movies profile
  = popularityFallback movies "content-cold"
  /\ collaborativeFiltering getUserActions predict userId movies
     = popularityFallback movies "collaborative-cold"
  /\ sequenceBasedRecommendation now movies profile
     = popularityFallback movies "sequence-cold"
  /\ (u_preferences profile = None ->
      ruleBasedRecommendation movies profile
      = popularityFallback movies "rule-cold")
  /\ (forall preferences genres,
         u_preferences profile = Some preferences ->
         p_genres preferences = Some genres ->
         Forall (fun r => s_source r = "rule-based")
           (ruleBasedRecommendation movies profile)).
Proof.
  intros Hcount Hrecent Hpred.
  split; [| split; [| split]].
  - unfold contentBasedRecommendation. rewrite Hcount.
    destruct (u_preferences profile); reflexivity.
  - unfold collaborativeFiltering. rewrite Hpred. simpl.
    apply userBasedCollaborativeFiltering_cold.
  - unfold sequenceBasedRecommendation. rewrite Hrecent. reflexivity.
  - apply ruleBasedRecommendation_sources.
Qed.
End ColdStart.

Lemma C4_cold_start_paths_witness :
  let profile := getUserProfile 0%Z 2024 noActions noRecentActions "user123" in
  contentBasedRecommendation [blockbuster] profile
  = popularityFallback [blockbuster] "content-cold"
  /\ collaborativeFiltering noActions noPredictions "user123" [blockbuster]
     = popularityFallback [blockbuster] "collaborative-cold"
  /\ sequenceBasedRecommendation 0%Z [blockbuster] profile
     = popularityFallback [blockbuster] "sequence-cold"
  /\ (u_preferences profile = None ->
      ruleBasedRecommendation [blockbuster] profile
      = popularityFallback [blockbuster] "rule-cold")
  /\ (forall preferences genres,
         u_preferences profile = Some preferences ->
         p_genres preferences = Some genres ->
         Forall (fun r => s_source r = "rule-based")
           (ruleBasedRecommendation [blockbuster] profile)).
Proof.
  intros profile.
  apply (C4_cold_start_paths 0%Z noActions noPredictions "user123"
           [blockbuster] profile); reflexivity.
Defined.

(** C4 as stated fails for the rule scorer: for a user without any action,
    with working reads and no prediction, the profile has ratingCount = 0 and
    no recent action, yet the rule scorer's record is tagged rule-based. *)
Lemma C4_rule_scorer_not_cold :
  let profile := getUserProfile 0%Z 2024 noActions noRecentActions "user123" in
  u_ratingCount profile = 0%nat
  /\ u_recentActions profile = []
  /\ noPredictions "user123" (map m_id [blockbuster]) = Some []
  /\ map s_source (ruleBasedRecommendation [blockbuster] profile) = ["rule-based"]
  /\ ruleBasedRecommendation [blockbuster] profile
     <> popularityFallback [blockbuster] "rule-cold".
Proof.
  intros profile.
  assert (Hsrc : map s_source (ruleBasedRecommendation [blockbuster] profile)
                 = ["rule-based"]) by reflexivity.
  repeat split; try reflexivity.
  intros Heq. rewrite Heq in Hsrc. discriminate Hsrc.
Qed.

(** * Further properties of the engine *)

(** ** Shared numerics *)

(** [normalizeScore] maps into [0,1], never decreases, is 0 up to 1 and 1
    from 10 on, and is the affine map (x - 1) / 9 in between. *)
Theorem normalizeScore_monotone_clamp (x y : R) :
  x <= y ->
  0 <= normalizeScore x <= normalizeScore y
  /\ normalizeScore y <= 1
  /\ (x <= 1 -> normalizeScore x = 0)
  /\ (10 <= y -> normalizeScore y = 1)
  /\ (1 <= x <= 10 -> normalizeScore x = (x - 1) / 9).
Proof.
  intros Hxy. unfold normalizeScore.
  destruct (Rlt_dec x 1), (Rgt_dec x 10), (Rlt_dec y 1), (Rgt_dec y 10);
    repeat split; intros; lra.
Qed.

Lemma normalizeScore_monotone_clamp_witness :
  0 <= normalizeScore 5.5 <= normalizeScore 11
  /\ normalizeScore 11 <= 1
  /\ (5.5 <= 1 -> normalizeScore 5.5 = 0)
  /\ (10 <= 11 -> normalizeScore 11 = 1)
  /\ (1 <= 5.5 <= 10 -> normalizeScore 5.5 = (5.5 - 1) / 9).
Proof.
  apply (normalizeScore_monotone_clamp 5.5 11). lra.
Defined.

Lemma normalizeRatingSignal_cases (v : R) :
  (v <= 1 -> normalizeRatingSignal v = -1)
  /\ (10 <= v -> normalizeRatingSignal v = 1)
  /\ (1 <= v <= 10 -> normalizeRatingSignal v = (v - 5.5) / 4.5).
Proof.
  unfold normalizeRatingSignal. repeat split; intros Hv.
  - rewrite Rmin_right by lra. apply Rmax_left. lra.
  - rewrite Rmin_left by lra. apply Rmax_right. lra.
  - rewrite Rmin_right by lra. apply Rmax_right. lra.
Qed.

(** [normalizeRatingSignal] maps into [-1,1] and never decreases; ratings up
    to 1 give -1, ratings from 10 on give 1, and 5.5 is neutral. *)
Theorem normalizeRatingSignal_monotone_clamp (x y : R) :
  x <= y ->
  -1 <= normalizeRatingSignal x <= normalizeRatingSignal y
  /\ normalizeRatingSignal y <= 1
  /\ (x <= 1 -> normalizeRatingSignal x = -1)
  /\ (10 <= y -> normalizeRatingSignal y = 1)
  /\ normalizeRatingSignal 5.5 = 0.
Proof.
  intros Hxy.
  destruct (normalizeRatingSignal_cases x) as (Xlo & Xhi & Xmid).
  destruct (normalizeRatingSignal_cases y) as (Ylo & Yhi & Ymid).
  destruct (normalizeRatingSignal_cases 5.5) as (_ & _ & Mid).
  rewrite Mid by lra.
  assert (Hx : -1 <= normalizeRatingSignal x <= 1).
  { destruct (Rle_dec x 1); [rewrite Xlo by lra; lra |].
    destruct (Rle_dec 10 x); [rewrite Xhi by lra; lra |].
    rewrite Xmid by lra. lra. }
  assert (Hy : -1 <= normalizeRatingSignal y <= 1).
  { destruct (Rle_dec y 1); [rewrite Ylo by lra; lra |].
    destruct (Rle_dec 10 y); [rewrite Yhi by lra; lra |].
    rewrite Ymid by lra. lra. }
  assert (Hmono : normalizeRatingSignal x <= normalizeRatingSignal y).
  { destruct (Rle_dec x 1); [rewrite Xlo by lra; lra |].
    destruct (Rle_dec 10 y); [rewrite Yhi by lra; lra |].
    rewrite Xmid, Ymid by lra. lra. }
  repeat split; try lra; assumption.
Qed.

Lemma normalizeRatingSignal_monotone_clamp_witness :
  -1 <= normalizeRatingSignal 0 <= normalizeRatingSignal 8
  /\ normalizeRatingSignal 8 <= 1
  /\ (0 <= 1 -> normalizeRatingSignal 0 = -1)
  /\ (10 <= 8 -> normalizeRatingSignal 8 = 1)
  /\ normalizeRatingSignal 5.5 = 0.
Proof.
  apply (normalizeRatingSignal_monotone_clamp 0 8). lra.
Defined.

Lemma fold_sum_ge {A : Type} (f : A -> R) (l : list A) :
  (forall x, In x l -> 0 <= f x) ->
  forall a, a <= fold_left (fun sum x => sum + f x) l a.
Proof.
  induction l as [| x xs IH]; intros Hf a; simpl; [lra |].
  eapply Rle_trans; [| apply IH; intros y Hy; apply Hf; right; exact Hy].
  assert (0 <= f x) by (apply Hf; left; reflexivity). lra.
Qed.

(** [calculateRatingVariance] is never negative and is 0 for fewer than two
    ratings. *)
Theorem calculateRatingVariance_nonneg (ratings : list Action) :
  0 <= calculateRatingVariance ratings
  /\ ((List.length ratings < 2)%nat -> calculateRatingVariance ratings = 0).
Proof.
  unfold calculateRatingVariance.
  destruct (List.length ratings <? 2)%nat eqn:Hlen.
  - split; intros; lra.
  - apply Nat.ltb_ge in Hlen.
    assert (Hn : 0 < INR (List.length ratings)) by (apply lt_0_INR; lia).
    split.
    + apply div_nonneg; [| exact Hn].
      apply (fold_sum_ge (fun r => (valueOf r - _) ^ 2)).
      intros r _. apply pow2_ge_0.
    + intros Hlt. lia.
Qed.

(** [calculateRuntimeScore] lies in [0,1] for every movie and preference, is
    0.5 without a preference or a runtime, and 0.2 outside the range. *)
Theorem calculateRuntimeScore_range (movie : Movie) (rp : option RuntimePreference) :
  0 <= calculateRuntimeScore movie rp <= 1
  /\ (rp = None \/ truthy (m_runtime movie) = false ->
      calculateRuntimeScore movie rp = 0.5)
  /\ (forall p runtime,
         rp = Some p -> m_runtime movie = Some runtime -> runtime <> 0 ->
         runtime < rt_min p \/ rt_max p < runtime ->
         calculateRuntimeScore movie rp = 0.2).
Proof.
  unfold calculateRuntimeScore. split; [| split].
  - destruct rp as [p |]; [| lra].
    destruct (truthy (m_runtime movie)); simpl; [| lra].
    set (runtime := jsOrOpt (m_runtime movie) 0).
    destruct (Rlt_dec runtime (rt_min p)); [lra |].
    destruct (Rgt_dec runtime (rt_max p)); [lra |].
    set (maxDistance := Rmax (rt_ideal p - rt_min p) (rt_max p - rt_ideal p)).
    assert (Hl : rt_ideal p - rt_min p <= maxDistance) by apply Rmax_l.
    assert (Hr : rt_max p - rt_ideal p <= maxDistance) by apply Rmax_r.
    assert (Hd : 0 <= Rabs (runtime - rt_ideal p) <= maxDistance).
    { split; [apply Rabs_pos |]. apply Rabs_le. lra. }
    unfold jsOr. destruct (Req_dec_T maxDistance 0) as [Hz | Hnz].
    + unfold Rdiv. rewrite Rinv_1. lra.
    + assert (Hpos : 0 < maxDistance) by lra.
      assert (Hq : 0 <= Rabs (runtime - rt_ideal p) / maxDistance <= 1).
      { split; [apply div_nonneg; lra |].
        apply (Rmult_le_reg_r maxDistance); [exact Hpos |].
        unfold Rdiv. rewrite Rmult_assoc, Rinv_l by lra. lra. }
      lra.
  - intros [-> | Hrun]; [reflexivity |].
    destruct rp; [rewrite Hrun |]; reflexivity.
  - intros p runtime -> Hrun Hnz Hout. rewrite Hrun. simpl.
    destruct (Req_dec_T runtime 0); [contradiction |]. simpl.
    rewrite jsOr_zero.
    destruct (Rlt_dec runtime (rt_min p)); [reflexivity |].
    destruct (Rgt_dec runtime (rt_max p)); [reflexivity | lra].
Qed.

(** The rule score never falls below 1/3: the base 0.4 is only ever raised
    before the normalization. *)
Theorem calculateRuleScore_floor (movie : Movie) (rulePreferences : RulePreferences) :
  1 / 3 <= calculateRuleScore movie rulePreferences <= 1.
Proof.
  unfold calculateRuleScore.
  set (s1 := if (0 <? _)%nat then _ else _).
  assert (H1 : 0.4 <= s1).
  { unfold s1. destruct (0 <? _)%nat; [| lra].
    assert (0 <= Rmin 0.4 (INR (List.length
              (filter (fun genre => existsb (String.eqb genre)
                                      (rp_preferredGenres rulePreferences))
                      (m_genres movie))) * 0.15)).
    { apply Rmin_glb; [lra |]. apply Rmult_le_pos; [apply pos_INR | lra]. }
    lra. }
  set (s2 := match rp_yearRange rulePreferences, m_releaseYear movie with
             | Some _, Some _ => _ | _, _ => _ end).
  assert (H2 : 0.4 <= s2).
  { unfold s2. destruct (rp_yearRange rulePreferences), (m_releaseYear movie);
      try lra. destruct (_ && _); lra. }
  set (s3 := match rp_runtimeRange rulePreferences with Some _ => _ | None => _ end).
  assert (H3 : 0.4 <= s3).
  { unfold s3. destruct (rp_runtimeRange rulePreferences); [| lra].
    destruct (truthy _); [| lra]. destruct (_ && _); lra. }
  set (s4 := if Rleb _ _ then _ else _).
  assert (H4 : 0.4 <= s4) by (unfold s4; destruct (Rleb _ _); lra).
  pose proof (normalizeScore_bounds (s4 * 10)) as Hb.
  split; [| lra].
  unfold normalizeScore.
  destruct (Rlt_dec (s4 * 10) 1); [lra |].
  destruct (Rgt_dec (s4 * 10) 10); lra.
Qed.

Lemma ln_2_pos : 0 < ln 2.
Proof. rewrite <- ln_1. apply ln_increasing; lra. Qed.

Lemma exp_le_1 (x : R) : x <= 0 -> 0 < exp x <= 1.
Proof.
  intros Hx. split; [apply exp_pos |].
  destruct Hx as [Hlt | ->]; [| rewrite exp_0; lra].
  left. rewrite <- exp_0. apply exp_increasing. exact Hlt.
Qed.

Lemma exp_half_life (x : R) : exp (- ln 2 * (x + 1)) = exp (- ln 2 * x) / 2.
Proof.
  replace (- ln 2 * (x + 1)) with (- ln 2 * x + - ln 2) by ring.
  rewrite exp_plus, exp_Ropp, exp_ln by lra. reflexivity.
Qed.

Lemma jsMaxZ_bound (l : list Z) (b : Z) :
  l <> [] -> (forall x, In x l -> (x <= b)%Z) -> (jsMaxZ l <= b)%Z.
Proof.
  destruct l as [| x xs]; [contradiction |]. intros _ Hb. simpl.
  assert (Hx : (x <= b)%Z) by (apply Hb; left; reflexivity).
  assert (Hxs : forall y, In y xs -> (y <= b)%Z) by (intros y Hy; apply Hb; right; exact Hy).
  clear Hb. revert x Hx. induction xs as [| y ys IH]; intros x Hx; simpl; [exact Hx |].
  apply IH.
  - intros z Hz. apply Hxs. right. exact Hz.
  - apply Z.max_lub; [exact Hx | apply Hxs; left; reflexivity].
Qed.

(** [calculateRecencyScore] is 0 without actions; for actions not in the
    future it lies in [0,1] and halves with every further 24 hours. *)
Theorem calculateRecencyScore_half_life (now : Z) (actions : list Action) :
  actions <> [] ->
  (forall a, In a actions -> (a_timestamp a <= now)%Z) ->
  calculateRecencyScore now [] = 0
  /\ 0 <= calculateRecencyScore now actions <= 1
  /\ calculateRecencyScore (now + 24 * 60 * 60 * 1000) actions
     = calculateRecencyScore now actions / 2.
Proof.
  intros Hne Hpast. split; [reflexivity |].
  assert (Hmax : (jsMaxZ (map a_timestamp actions) <= now)%Z).
  { apply jsMaxZ_bound.
    - destruct actions; [contradiction | discriminate].
    - intros t Ht. apply in_map_iff in Ht. destruct Ht as (a & <- & Ha).
      apply Hpast, Ha. }
  unfold calculateRecencyScore, RECENCY_HALF_LIFE_HOURS.
  destruct actions as [| a rest]; [contradiction |].
  cbn [List.length Nat.eqb].
  set (mostRecent := jsMaxZ (map a_timestamp (a :: rest))) in *.
  replace (IZR (now + 24 * 60 * 60 * 1000 - mostRecent) / (1000 * 60 * 60) / 24)
    with (IZR (now - mostRecent) / (1000 * 60 * 60) / 24 + 1).
  2:{ replace (now + 24 * 60 * 60 * 1000 - mostRecent)%Z
        with (now - mostRecent + 86400000)%Z by lia.
      rewrite plus_IZR. lra. }
  rewrite exp_half_life.
  set (h := IZR (now - mostRecent) / (1000 * 60 * 60) / 24).
  assert (Hh : 0 <= h).
  { unfold h. assert (0 <= IZR (now - mostRecent)) by (apply IZR_le; lia). lra. }
  pose proof ln_2_pos as Hln.
  destruct (exp_le_1 (- ln 2 * h)) as [Hpos Hle]; [nra |].
  rewrite !Rmax_right by lra. rewrite !Rmin_right by lra.
  split; [lra | reflexivity].
Qed.

Lemma calculateRecencyScore_half_life_witness :
  calculateRecencyScore 3600000 [] = 0
  /\ 0 <= calculateRecencyScore 3600000 sampleActions <= 1
  /\ calculateRecencyScore (3600000 + 24 * 60 * 60 * 1000) sampleActions
     = calculateRecencyScore 3600000 sampleActions / 2.
Proof.
  apply (calculateRecencyScore_half_life 3600000 sampleActions).
  - discriminate.
  - intros a Ha. simpl in Ha.
    destruct Ha as [<- | [<- | [<- | []]]]; simpl; lia.
Defined.

(** The weight of a recent action not in the future lies in [0,1] and does
    not grow with the position in the list. *)
Theorem calculateRecencyWeight_range (now timestamp : Z) (i j : nat) :
  (timestamp <= now)%Z -> (i <= j)%nat ->
  0 <= calculateRecencyWeight now timestamp j
    <= calculateRecencyWeight now timestamp i
  /\ calculateRecencyWeight now timestamp i <= 1.
Proof.
  intros Hpast Hij. unfold calculateRecencyWeight, RECENCY_HALF_LIFE_HOURS.
  set (h := IZR (now - timestamp) / (1000 * 60 * 60) / 24).
  assert (Hh : 0 <= h).
  { unfold h. assert (0 <= IZR (now - timestamp)) by (apply IZR_le; lia). lra. }
  pose proof ln_2_pos as Hln.
  destruct (exp_le_1 (- ln 2 * h)) as [Hpos Hle]; [nra |].
  set (decay := exp (- ln 2 * h)) in *.
  replace (INR DEFAULT_SEQUENCE_WINDOW * 2) with 40
    by (unfold DEFAULT_SEQUENCE_WINDOW; simpl; lra).
  assert (Hi : 0 <= INR i / 40) by (apply div_nonneg; [apply pos_INR | lra]).
  assert (Hinr : INR i / 40 <= INR j / 40).
  { apply le_INR in Hij. lra. }
  assert (Bi : 0 <= Rmin 0.3 (INR i / 40) <= 0.3).
  { split; [apply Rmin_glb; lra | apply Rmin_l]. }
  assert (Bj : Rmin 0.3 (INR i / 40) <= Rmin 0.3 (INR j / 40) <= 0.3).
  { split; [| apply Rmin_l].
    apply Rmin_glb; [apply Rmin_l |].
    eapply Rle_trans; [apply Rmin_r | exact Hinr]. }
  repeat split; nra.
Qed.

Lemma calculateRecencyWeight_range_witness :
  0 <= calculateRecencyWeight 3600000 0 5
    <= calculateRecencyWeight 3600000 0 1
  /\ calculateRecencyWeight 3600000 0 1 <= 1.
Proof.
  apply (calculateRecencyWeight_range 3600000 0 1 5); lia.
Defined.

(** ** Preference scores *)

Lemma jsMax_bounds (lo hi : R) (l : list R) :
  l <> [] -> Forall (fun x => lo <= x <= hi) l -> lo <= jsMax l <= hi.
Proof.
  destruct l as [| x xs]; [contradiction |]. intros _ Hall.
  inversion Hall as [| ? ? Hx Hxs]; subst. simpl. clear Hall.
  revert x Hx. induction Hxs as [| y ys Hy _ IH]; intros x Hx; simpl; [exact Hx |].
  apply IH. unfold Rmax. destruct (Rle_dec x y); assumption.
Qed.

Lemma Rsum_bounds (lo hi : R) (l : list R) :
  Forall (fun x => lo <= x <= hi) l ->
  forall a,
    a + INR (List.length l) * lo <= fold_left Rplus l a
    <= a + INR (List.length l) * hi.
Proof.
  induction 1 as [| x xs Hx _ IH]; intros a.
  - simpl. lra.
  - cbn [fold_left List.length]. rewrite S_INR.
    specialize (IH (a + x)). lra.
Qed.

(** Against preferences in [-1,1], and for items none of which is a name
    that a plain object inherits (the lookup [preferenceMap[item]] would
    read the inherited member), [calculatePreferenceScore] lies in [0,1],
    by the mean as by the maximum; it is 0.5 when there is nothing to
    compare. *)
Theorem calculatePreferenceScore_unit
    (items : list string) (preferenceMap : option Dict) (useMax : bool) :
  ownNames items ->
  optDictWithin (-1) 1 preferenceMap ->
  0 <= calculatePreferenceScore items preferenceMap useMax <= 1
  /\ (items = [] \/ preferenceMap = None \/ preferenceMap = Some [] ->
      calculatePreferenceScore items preferenceMap useMax = 0.5).
Proof.
  intros _ Hwithin. unfold calculatePreferenceScore. split.
  - destruct preferenceMap as [pm |]; [| lra].
    destruct ((List.length items =? 0) || (List.length pm =? 0))%nat; [lra |].
    set (scores := flat_map _ items).
    assert (Hscores : Forall (fun s => -1 <= s <= 1) scores).
    { apply Forall_forall. intros s Hs. unfold scores in Hs.
      apply in_flat_map in Hs. destruct Hs as (item & _ & Hin).
      destruct (dictGet pm item) as [v |] eqn:Hget; [| contradiction].
      destruct Hin as [<- | []]. apply (Hwithin item v Hget). }
    destruct (List.length scores =? 0)%nat eqn:Hlen; [lra |].
    apply Nat.eqb_neq in Hlen.
    set (adjusted := map (fun s => (s + 1) / 2) scores).
    assert (Hadj : Forall (fun x => 0 <= x <= 1) adjusted).
    { apply Forall_forall. intros x Hx. unfold adjusted in Hx.
      apply in_map_iff in Hx. destruct Hx as (s & <- & Hs).
      rewrite Forall_forall in Hscores. specialize (Hscores s Hs). lra. }
    assert (Hne : adjusted <> []).
    { unfold adjusted. destruct scores; [contradiction | discriminate]. }
    destruct useMax.
    + apply jsMax_bounds; assumption.
    + pose proof (Rsum_bounds 0 1 adjusted Hadj 0) as Hsum. fold (Rsum adjusted) in Hsum.
      assert (Hn : 0 < INR (List.length adjusted)).
      { apply lt_0_INR. destruct adjusted; [contradiction | simpl; lia]. }
      split; [apply div_nonneg; lra |].
      apply (Rmult_le_reg_r (INR (List.length adjusted))); [exact Hn |].
      unfold Rdiv. rewrite Rmult_assoc, Rinv_l by lra. lra.
  - intros [-> | [-> | ->]]; try reflexivity.
    + destruct preferenceMap; reflexivity.
    + rewrite Bool.orb_true_r. reflexivity.
Qed.

Lemma calculatePreferenceScore_unit_witness :
  0 <= calculatePreferenceScore ["Drama"; "Western"] (Some sampleGenres) false <= 1
  /\ (["Drama"; "Western"] = [] \/ Some sampleGenres = None
      \/ Some sampleGenres = Some [] ->
      calculatePreferenceScore ["Drama"; "Western"] (Some sampleGenres) false = 0.5).
Proof.
  apply (calculatePreferenceScore_unit ["Drama"; "Western"] (Some sampleGenres) false);
    [reflexivity |].
  intros k v. unfold sampleGenres. cbn [dictGet].
  destruct (String.eqb "Drama" k); [intros H; injection H as <-; lra |].
  destruct (String.eqb "Horror" k); [intros H; injection H as <-; lra | discriminate].
Defined.

(** ** The preference dictionaries of the profile *)

Lemma dictGet_In (d : Dict) (k : string) (v : R) :
  dictGet d k = Some v -> In (k, v) d.
Proof.
  induction d as [| [k' v'] rest IH]; simpl; [discriminate |].
  destruct (String.eqb k' k) eqn:Hk.
  - apply String.eqb_eq in Hk. intros [= <-]. left. congruence.
  - intros H. right. apply IH, H.
Qed.

Lemma dictGet_dictSet_same (d : Dict) (k : string) (v : R) :
  dictGet (dictSet d k v) k = Some v.
Proof.
  induction d as [| [k' v'] rest IH]; simpl.
  - rewrite String.eqb_refl. reflexivity.
  - destruct (String.eqb k' k) eqn:Hk; simpl; rewrite Hk; [reflexivity | exact IH].
Qed.

Lemma dictGet_dictSet_other (d : Dict) (k k' : string) (v : R) :
  k <> k' -> dictGet (dictSet d k v) k' = dictGet d k'.
Proof.
  intros Hne. induction d as [| [k0 v0] rest IH]; simpl.
  - apply String.eqb_neq in Hne. rewrite Hne. reflexivity.
  - destruct (String.eqb k0 k) eqn:Hk; simpl.
    + apply String.eqb_eq in Hk. subst k0.
      apply String.eqb_neq in Hne. rewrite Hne. reflexivity.
    + destruct (String.eqb k0 k'); [reflexivity | exact IH].
Qed.

Lemma dictSet_In (d : Dict) (k : string) (v : R) (x : string * R) :
  In x (dictSet d k v) -> x = (k, v) \/ In x d.
Proof.
  induction d as [| [k' v'] rest IH]; simpl.
  - intros [<- | []]. left. reflexivity.
  - destruct (String.eqb k' k) eqn:Hk; simpl.
    + apply String.eqb_eq in Hk. subst k'.
      intros [<- | Hin]; [left; reflexivity | right; right; exact Hin].
    + intros [<- | Hin]; [right; left; reflexivity |].
      destruct (IH Hin) as [-> | Hin']; [left; reflexivity | right; right; exact Hin'].
Qed.

Lemma countsBound_step (sums counts : Dict) (k : string) (s : R) :
  -1 <= s <= 1 -> countsBound sums counts ->
  countsBound (dictAdd sums k s) (dictAdd counts k 1).
Proof.
  intros Hs [Hsum Hcount]. unfold dictAdd.
  assert (Hc' : 1 <= jsOrOpt (dictGet counts k) 0 + 1).
  { destruct (dictGet counts k) as [c0 |] eqn:Hget; simpl; [| lra].
    apply dictGet_In, Hcount in Hget. rewrite jsOr_zero. lra. }
  split.
  - intros k1 v1 Hin. apply dictSet_In in Hin. destruct Hin as [Heq | Hin].
    + injection Heq as -> ->. eexists. split; [apply dictGet_dictSet_same |].
      split; [exact Hc' |].
      destruct (dictGet sums k) as [v0 |] eqn:Hget; simpl.
      * apply dictGet_In, Hsum in Hget. destruct Hget as (c0 & -> & Hc0 & Hv0).
        simpl. rewrite !jsOr_zero. lra.
      * lra.
    + destruct (Hsum k1 v1 Hin) as (c1 & Hget1 & Hc1 & Hv1).
      destruct (string_dec k k1) as [<- | Hne].
      * eexists. split; [apply dictGet_dictSet_same |]. split; [exact Hc' |].
        rewrite Hget1. simpl. rewrite jsOr_zero. lra.
      * exists c1. rewrite dictGet_dictSet_other by exact Hne. auto.
  - intros k1 c1 Hin. apply dictSet_In in Hin. destruct Hin as [Heq | Hin].
    + injection Heq as -> ->. exact Hc'.
    + apply (Hcount k1 c1 Hin).
Qed.

Lemma countsBound_addAll (keys : list string) (s : R) :
  -1 <= s <= 1 ->
  forall sums counts,
    countsBound sums counts ->
    countsBound (addAll sums keys s) (addAll counts keys 1).
Proof.
  intros Hs. unfold addAll.
  induction keys as [| k ks IH]; intros sums counts Hb; [exact Hb |].
  simpl. apply IH, countsBound_step; assumption.
Qed.

Lemma normalizeRatingSignal_unit (v : R) : -1 <= normalizeRatingSignal v <= 1.
Proof.
  unfold normalizeRatingSignal. split.
  - apply Rmax_l.
  - apply Rmax_lub; [lra | apply Rmin_l].
Qed.

Lemma preferenceStep_bound (acc : PreferenceAcc) (rating : Action) :
  accBound acc -> accBound (preferenceStep acc rating).
Proof.
  intros (Hg & Hd & Ha). unfold accBound, preferenceStep.
  cbn [genrePreferences genreCounts directorPreferences directorCounts
         actorPreferences actorCounts].
  pose proof (normalizeRatingSignal_unit (valueOf rating)) as Hs.
  split; [| split]; apply countsBound_addAll; assumption.
Qed.

Lemma normalizePreferenceMap_within (sums counts : Dict) :
  countsBound sums counts ->
  dictWithin (-1) 1 (normalizePreferenceMap sums counts).
Proof.
  intros [Hsum _] k v Hget. apply dictGet_In in Hget.
  unfold normalizePreferenceMap in Hget. apply in_map_iff in Hget.
  destruct Hget as ([k0 v0] & Heq & Hin). simpl in Heq.
  injection Heq as -> <-.
  destruct (Hsum k v0 Hin) as (c & -> & Hc & Hv). simpl.
  rewrite jsOr_nonzero by lra.
  assert (Hpos : 0 < c) by lra.
  split.
  - apply (Rmult_le_reg_r c); [exact Hpos |].
    unfold Rdiv. rewrite Rmult_assoc, Rinv_l by lra. lra.
  - apply (Rmult_le_reg_r c); [exact Hpos |].
    unfold Rdiv. rewrite Rmult_assoc, Rinv_l by lra. lra.
Qed.

(** For ratings whose metadata name no genre, director or actor by a name
    that a plain object inherits (for such a key [d[k] || 0] reads the
    inherited member), the genre, director and actor preferences that
    [calculateUserPreferences] returns are present and all their values lie
    in [-1,1]; the rating threshold is 6.5. *)
Theorem calculateUserPreferences_within (currentYear : R) (ratings : list Action) :
  Forall plainMetadata ratings ->
  let preferences := calculateUserPreferences currentYear ratings in
  (exists genres directors actors,
      p_genres preferences = Some genres
      /\ p_directors preferences = Some directors
      /\ p_actors preferences = Some actors
      /\ dictWithin (-1) 1 genres
      /\ dictWithin (-1) 1 directors
      /\ dictWithin (-1) 1 actors)
  /\ p_ratingThreshold preferences = 6.5.
Proof.
  intros _ preferences. subst preferences. unfold calculateUserPreferences.
  cbn [p_genres p_directors p_actors p_ratingThreshold].
  assert (Hacc : accBound (fold_left preferenceStep ratings emptyPreferenceAcc)).
  { assert (Hinit : accBound emptyPreferenceAcc).
    { unfold accBound, countsBound. simpl. repeat split; intros; contradiction. }
    revert Hinit. generalize emptyPreferenceAcc.
    induction ratings as [| r rs IH]; intros acc Hb; [exact Hb |].
    simpl. apply IH, preferenceStep_bound, Hb. }
  destruct Hacc as (Hg & Hd & Ha).
  split; [| reflexivity].
  do 3 eexists.
  split; [reflexivity |]. split; [reflexivity |]. split; [reflexivity |].
  split; [| split]; apply normalizePreferenceMap_within; assumption.
Qed.

Lemma calculateUserPreferences_within_witness :
  let preferences := calculateUserPreferences 2024 [sampleRating; sampleRating] in
  (exists genres directors actors,
      p_genres preferences = Some genres
      /\ p_directors preferences = Some directors
      /\ p_actors preferences = Some actors
      /\ dictWithin (-1) 1 genres
      /\ dictWithin (-1) 1 directors
      /\ dictWithin (-1) 1 actors)
  /\ p_ratingThreshold preferences = 6.5.
Proof.
  apply (calculateUserPreferences_within 2024 [sampleRating; sampleRating]).
  repeat constructor.
Defined.

(** ** Weights *)

(** [normalizeWeights] never returns a negative weight; on non-negative
    weights with a positive sum its result sums to 1, and on four zeros it
    returns four zeros. *)
Theorem normalizeWeights_simplex (weights : Weights) :
  weightsNonNegative (normalizeWeights weights)
  /\ (weightsNonNegative weights -> 0 < weightsSum weights ->
      weightsSum (normalizeWeights weights) = 1)
  /\ (weightsNonNegative weights -> weightsSum weights = 0 ->
      weightsSum (normalizeWeights weights) = 0).
Proof.
  split; [| split].
  - unfold weightsNonNegative, normalizeWeights.
    cbn [w_content w_collaborative w_sequence w_rule].
    repeat split; apply Rmax_l.
  - intros (Hc & Hco & Hs & Hr) Hsum. destruct weights as [a b c d].
    unfold weightsSum in *. cbn [w_content w_collaborative w_sequence w_rule] in *.
    rewrite normalizeWeights_positive by assumption.
    cbn [w_content w_collaborative w_sequence w_rule].
    apply shares_sum; [reflexivity | exact Hsum].
  - intros (Hc & Hco & Hs & Hr) Hsum. destruct weights as [a b c d].
    unfold weightsSum in *. cbn [w_content w_collaborative w_sequence w_rule] in *.
    assert (a = 0 /\ b = 0 /\ c = 0 /\ d = 0) as (-> & -> & -> & ->) by lra.
    unfold normalizeWeights. cbn [w_content w_collaborative w_sequence w_rule fold_left].
    replace (0 + 0 + 0 + 0 + 0) with 0 by ring. rewrite jsOr_falsy.
    unfold Rdiv. rewrite Rmult_0_l. rewrite Rmax_left by lra. ring.
Qed.

(** The blend follows the maturity of the profile, as the test suite samples
    it: below 5 ratings content and rules outweigh the collaborative score,
    from 5 to 24 the sequence weight is between 0.25 and 0.3 with a positive
    rule weight, and from 25 on the collaborative score outweighs content. *)
Theorem calculateWeights_dominance (p : UserProfile) :
  inUnit (u_sessionDepth p) -> inUnit (u_recencyScore p) ->
  let w := calculateWeights p in
  ((u_ratingCount p < 5)%nat ->
   w_collaborative w < w_rule w < w_content w)
  /\ ((5 <= u_ratingCount p < 25)%nat ->
      0.25 <= w_sequence w < 0.3 /\ 0 < w_rule w)
  /\ ((25 <= u_ratingCount p)%nat ->
      w_content w < w_collaborative w).
Proof.
  intros Hd Hr w. subst w.
  pose proof (jsOrOpt_unit _ Hd) as Hd'.
  pose proof (jsOrOpt_unit _ Hr) as Hr'.
  assert (Hlt : forall a b t, 0 < t -> a < b -> a / t < b / t).
  { intros a b t Ht Hab. unfold Rdiv. apply Rmult_lt_compat_r;
      [apply Rinv_0_lt_compat; exact Ht | exact Hab]. }
  split; [| split]; intros Hn.
  - rewrite calculateWeights_tier1 by assumption.
    cbn [w_content w_collaborative w_rule]. split; apply Hlt; lra.
  - rewrite calculateWeights_tier2 by assumption.
    cbn [w_sequence w_rule].
    set (d := jsOrOpt (u_sessionDepth p) 0) in *.
    assert (Ht : 0 < 1 + d * 0.05) by lra.
    repeat split.
    + apply (Rmult_le_reg_r (1 + d * 0.05)); [exact Ht |].
      unfold Rdiv. rewrite Rmult_assoc, Rinv_l by lra. lra.
    + apply (Rmult_lt_reg_r (1 + d * 0.05)); [exact Ht |].
      unfold Rdiv. rewrite Rmult_assoc, Rinv_l by lra. lra.
    + apply Rmult_lt_0_compat; [lra | apply Rinv_0_lt_compat; exact Ht].
  - rewrite calculateWeights_tier3 by assumption.
    cbn [w_content w_collaborative]. apply Hlt; lra.
Qed.

Lemma calculateWeights_dominance_witness :
  let w := calculateWeights sampleProfile in
  ((u_ratingCount sampleProfile < 5)%nat ->
   w_collaborative w < w_rule w < w_content w)
  /\ ((5 <= u_ratingCount sampleProfile < 25)%nat ->
      0.25 <= w_sequence w < 0.3 /\ 0 < w_rule w)
  /\ ((25 <= u_ratingCount sampleProfile)%nat ->
      w_content w < w_collaborative w).
Proof.
  apply (calculateWeights_dominance sampleProfile); simpl; lra.
Defined.

(** ** Action boosts and popularity *)

(** For a value that is missing or not negative, and a rating of at most 10,
    the boost of an action lies in [0, 1.2]; that of a [rate] action is
    positive. *)
Theorem actionTypeBoost_range (actionType : string) (value : option R) :
  (forall v, value = Some v -> 0 <= v) ->
  (actionType = "rate" -> forall v, value = Some v -> v <= 10) ->
  0 <= actionTypeBoost actionType value <= 1.2
  /\ (actionType = "rate" -> 0 < actionTypeBoost actionType value).
Proof.
  intros Hpos Hrate. unfold actionTypeBoost.
  destruct (String.eqb actionType "watchTime") eqn:Hw.
  - apply String.eqb_eq in Hw. subst actionType. split; [| discriminate].
    assert (0 <= jsOrOpt value 0 / 60).
    { destruct value as [v |]; simpl; [| lra].
      rewrite jsOr_zero. specialize (Hpos v eq_refl). lra. }
    split; [apply Rmin_glb; lra | apply Rmin_l].
  - destruct (String.eqb actionType "rate") eqn:Hr.
    + apply String.eqb_eq in Hr. subst actionType.
      assert (0 < jsOrOpt value 5 <= 10).
      { destruct value as [v |]; simpl; [| lra].
        specialize (Hpos v eq_refl). specialize (Hrate eq_refl v eq_refl).
        unfold jsOr. destruct (Req_dec_T v 0); lra. }
      split; [| intros _]; lra.
    + apply String.eqb_neq in Hr.
      split; [| intros ->; contradiction].
      destruct (String.eqb actionType "add_watchlist"); [lra |].
      destruct (String.eqb actionType "view"); lra.
Qed.

Lemma actionTypeBoost_range_witness :
  0 <= actionTypeBoost "watchTime" (Some 95) <= 1.2
  /\ ("watchTime" = "rate" -> 0 < actionTypeBoost "watchTime" (Some 95)).
Proof.
  apply (actionTypeBoost_range "watchTime" (Some 95)).
  - intros v [= <-]. lra.
  - discriminate.
Defined.

(** The popularity score never decreases when the popularity, the average
    rating or the number of ratings of a title grows, and it is not
    negative. *)
Theorem calculatePopularityScore_monotone (m1 m2 : Movie) :
  0 <= m_popularity m1 <= m_popularity m2 ->
  0 <= m_averageRating m1 <= m_averageRating m2 ->
  0 <= m_ratingCount m1 <= m_ratingCount m2 ->
  0 <= calculatePopularityScore m1 <= calculatePopularityScore m2.
Proof.
  intros Hp Ha Hc. unfold calculatePopularityScore. rewrite !jsOr_zero.
  pose proof ln_10000_pos as Hpos.
  assert (H1 : 0 <= ln (m_ratingCount m1 + 1)).
  { rewrite <- ln_1. destruct (Req_dec_T (m_ratingCount m1) 0) as [-> | Hne].
    - replace (0 + 1) with 1 by ring. lra.
    - left. apply ln_increasing; lra. }
  assert (H2 : ln (m_ratingCount m1 + 1) <= ln (m_ratingCount m2 + 1)).
  { destruct (Req_dec_T (m_ratingCount m1) (m_ratingCount m2)) as [-> | Hne];
      [lra |]. left. apply ln_increasing; lra. }
  assert (Hinv : 0 < / ln 10000) by (apply Rinv_0_lt_compat; exact Hpos).
  unfold Rdiv. nra.
Qed.

Lemma calculatePopularityScore_monotone_witness :
  0 <= calculatePopularityScore (plainMovie 1) <= calculatePopularityScore blockbuster.
Proof.
  apply (calculatePopularityScore_monotone (plainMovie 1) blockbuster); simpl; lra.
Defined.

Lemma calculatePopularityScore_bounds_witness :
  0 <= calculatePopularityScore sampleMovie <= 1.
Proof.
  apply (calculatePopularityScore_bounds sampleMovie); simpl; lra.
Defined.

(** ** More on the fusion *)

Lemma mapHas_true_in (m : ScoreMap) (id : Z) :
  mapHas m id = true -> In id (map f_movieId m).
Proof.
  unfold mapHas. intros H. apply existsb_exists in H.
  destruct H as (e & He & Hid). apply Z.eqb_eq in Hid. subst id.
  apply in_map. exact He.
Qed.

Lemma ingestOne_ids (incl : bool) (k : ScoreKey) (m : ScoreMap)
    (item : ScoreRecord) (id : Z) :
  In id (map f_movieId (ingestOne incl k m item))
  <-> In id (map f_movieId m) \/ (s_movieId item = id /\ s_movie item <> None).
Proof.
  unfold ingestOne. destruct (s_movie item) as [movie |].
  - rewrite mapWrite_ids.
    destruct (mapHas m (s_movieId item)) eqn:Hhas.
    + split; [intros H; left; exact H |].
      intros [H | [<- _]]; [exact H | apply mapHas_true_in, Hhas].
    + rewrite map_app, in_app_iff. simpl. split.
      * intros [H | [<- | []]]; [left; exact H | right].
        split; [reflexivity | discriminate].
      * intros [H | [<- _]]; [left; exact H | right; left; reflexivity].
  - split; [intros H; left; exact H |].
    intros [H | [_ Hne]]; [exact H | contradiction].
Qed.

Lemma ingestScores_ids (incl : bool) (k : ScoreKey) (scores : list ScoreRecord) (id : Z) :
  forall m,
    In id (map f_movieId (ingestScores incl scores k m))
    <-> In id (map f_movieId m)
        \/ exists item, In item scores /\ s_movieId item = id /\ s_movie item <> None.
Proof.
  unfold ingestScores. induction scores as [| x xs IH]; intros m.
  - simpl. split; [intros H; left; exact H |].
    intros [H | (item & [] & _)]. exact H.
  - simpl. rewrite IH, ingestOne_ids. split.
    + intros [[H | H] | (item & Hin & H)].
      * left. exact H.
      * right. exists x. split; [left; reflexivity | exact H].
      * right. exists item. split; [right; exact Hin | exact H].
    + intros [H | (item & [<- | Hin] & H)].
      * left. left. exact H.
      * left. right. exact H.
      * right. exists item. split; assumption.
Qed.

(** [combineScores] returns one record per movie: no two records share a
    [movieId], a movie has a record exactly when one of the four lists holds
    an entry for it that carries the movie, and every record is tagged
    'hybrid' and carries the weights. *)
Theorem combineScores_one_record_per_movie
    (contentScores collaborativeScores sequenceScores ruleScores : list ScoreRecord)
    (weights : Weights) (includeExplanations : bool) :
  let hybridScores :=
    combineScores contentScores collaborativeScores sequenceScores ruleScores
      weights includeExplanations in
  NoDup (map h_movieId hybridScores)
  /\ (forall id,
         In id (map h_movieId hybridScores)
         <-> exists item,
               In item (contentScores ++ collaborativeScores
                        ++ sequenceScores ++ ruleScores)
               /\ s_movieId item = id /\ s_movie item <> None)
  /\ Forall (fun r => h_source r = "hybrid" /\ h_weights r = weights) hybridScores.
Proof.
  intros hybridScores. subst hybridScores. unfold combineScores.
  rewrite map_map. cbn [toHybrid h_movieId].
  split; [| split].
  - repeat apply ingestScores_nodup. constructor.
  - intros id. rewrite !ingestScores_ids. simpl. split.
    + intros [[[[[] | H] | H] | H] | H]; destruct H as (item & Hin & H);
        exists item; (split; [| exact H]); rewrite !in_app_iff; tauto.
    + intros (item & Hin & H). rewrite !in_app_iff in Hin.
      destruct Hin as [Hin | [Hin | [Hin | Hin]]].
      * left. left. left. right. exists item. split; assumption.
      * left. left. right. exists item. split; assumption.
      * left. right. exists item. split; assumption.
      * right. exists item. split; assumption.
  - apply Forall_forall. intros r Hr. apply in_map_iff in Hr.
    destruct Hr as (e & <- & _). split; reflexivity.
Qed.

Lemma reasons_distinct :
  REASON_COLLABORATIVE <> REASON_CONTENT
  /\ REASON_COLLABORATIVE <> REASON_SEQUENCE
  /\ REASON_COLLABORATIVE <> REASON_RULE
  /\ REASON_RULE <> REASON_CONTENT
  /\ REASON_RULE <> REASON_SEQUENCE.
Proof.
  repeat split; intros H; apply String.eqb_eq in H; vm_compute in H; discriminate.
Qed.

(** The explanations follow the weights: a profile with fewer than 5 ratings
    is never told of similar users, whatever the scores of the item, its
    collaborative weight staying at 0.1 or below. *)
Theorem generateExplanations_by_maturity (p : UserProfile) (item : FusedEntry) :
  inUnit (u_recencyScore p) ->
  (u_ratingCount p < 5)%nat ->
  ~ In REASON_COLLABORATIVE (generateExplanations item (calculateWeights p)).
Proof.
  intros Hr Hn Hin.
  pose proof (jsOrOpt_unit _ Hr) as Hr'.
  destruct reasons_distinct as (D1 & D2 & D3 & _ & _).
  assert (Hsmall : forall a t, 0 <= a -> 1 <= t -> a / t <= a).
  { intros a t Ha Ht. apply (Rmult_le_reg_r t); [lra |].
    unfold Rdiv. rewrite Rmult_assoc, Rinv_l by lra. nra. }
  rewrite calculateWeights_tier1 in Hin by assumption.
  unfold generateExplanations in Hin.
  cbn [w_content w_collaborative w_sequence w_rule] in Hin.
  assert (Hw : Rltb 0.2 (0.1 / (1 + jsOrOpt (u_recencyScore p) 0 * 0.1)) = false).
  { unfold Rltb. destruct (Rlt_dec _ _) as [Hlt |]; [| reflexivity].
    pose proof (Hsmall 0.1 (1 + jsOrOpt (u_recencyScore p) 0 * 0.1)). lra. }
  rewrite Hw, Bool.andb_false_r in Hin.
  repeat (apply in_app_or in Hin; destruct Hin as [Hin | Hin]);
    repeat match type of Hin with
           | In _ (if ?c then _ else _) => destruct c
           end;
    simpl in Hin; try contradiction;
    destruct Hin as [Heq | []]; symmetry in Heq; contradiction.
Qed.

Lemma generateExplanations_by_maturity_witness :
  ~ In REASON_COLLABORATIVE
      (generateExplanations
         {| f_movieId := 1; f_movie := blockbuster; f_contentScore := 0.9;
            f_collaborativeScore := 0.9; f_sequenceScore := 0.9;
            f_ruleScore := 0.9; f_explanation := Some [] |}
         (calculateWeights sampleProfile)).
Proof.
  apply (generateExplanations_by_maturity sampleProfile); simpl; try lra; lia.
Defined.

(** ** More on the diversity filter and the cut *)

Lemma diversityLoop_floor (f : R) (recs : list HybridRecord) :
  0 < f ->
  Forall (fun r => 0 <= h_score r) recs ->
  forall selectedGenres selectedDirectors,
    Forall2
      (fun r r' =>
         h_score r * (1 - 0.5 * f) <= h_score r'
         /\ (m_genres (h_movie r) = [] -> m_directors (h_movie r) = [] ->
             h_score r' = h_score r))
      recs (diversityLoop f selectedGenres selectedDirectors recs).
Proof.
  intros Hf Hpos. induction Hpos as [| r rest Hr _ IH]; intros sg sd; simpl.
  - constructor.
  - constructor; [| apply IH]. cbn [h_score setHybridScore]. split.
    + destruct (existsb (setHas sg) (m_genres (h_movie r)));
        destruct (existsb (setHas sd) (m_directors (h_movie r))); nra.
    + intros -> ->. simpl. lra.
Qed.

(** With a positive factor the filter takes at most the share 0.5 * factor
    from a non-negative score, leaves the score of a title without genres
    and directors as it is, and never penalizes the best-scored record. *)
Theorem applyDiversityFilter_penalty_floor
    (recommendations : list HybridRecord) (diversityFactor : R) :
  0 < diversityFactor ->
  Forall (fun r => 0 <= h_score r) recommendations ->
  Forall2
    (fun r r' =>
       h_score r * (1 - 0.5 * diversityFactor) <= h_score r'
       /\ (m_genres (h_movie r) = [] -> m_directors (h_movie r) = [] ->
           h_score r' = h_score r))
    (jsSort byScoreDesc recommendations)
    (applyDiversityFilter recommendations diversityFactor)
  /\ (forall best rest,
         jsSort byScoreDesc recommendations = best :: rest ->
         exists best' rest',
           applyDiversityFilter recommendations diversityFactor = best' :: rest'
           /\ h_movieId best' = h_movieId best
           /\ h_score best' = h_score best).
Proof.
  intros Hf Hpos. unfold applyDiversityFilter.
  destruct (Rle_dec diversityFactor 0) as [Hle | _]; [lra |].
  split.
  - apply diversityLoop_floor; [exact Hf |].
    eapply Permutation_Forall; [apply Permutation_sym, jsSort_perm | exact Hpos].
  - intros best rest ->. cbn [diversityLoop].
    rewrite !existsb_setHas_nil.
    do 2 eexists. split; [reflexivity |]. split; [reflexivity |].
    cbn [h_score setHybridScore]. lra.
Qed.

Lemma applyDiversityFilter_penalty_floor_witness :
  Forall2
    (fun r r' =>
       h_score r * (1 - 0.5 * 0.25) <= h_score r'
       /\ (m_genres (h_movie r) = [] -> m_directors (h_movie r) = [] ->
           h_score r' = h_score r))
    (jsSort byScoreDesc dramaPair)
    (applyDiversityFilter dramaPair 0.25)
  /\ (forall best rest,
         jsSort byScoreDesc dramaPair = best :: rest ->
         exists best' rest',
           applyDiversityFilter dramaPair 0.25 = best' :: rest'
           /\ h_movieId best' = h_movieId best
           /\ h_score best' = h_score best).
Proof.
  apply (applyDiversityFilter_penalty_floor dramaPair 0.25); [lra |].
  repeat constructor; simpl; lra.
Defined.

Lemma jsSort_sorted_fixed {A : Type} (before : A -> A -> bool) (l : list A) :
  StronglySorted (fun a b => before a b = true) l -> jsSort before l = l.
Proof.
  induction 1 as [| x l _ IH Hall]; [reflexivity |].
  simpl. rewrite IH. destruct l as [| y ys]; [reflexivity |].
  simpl. inversion Hall as [| ? ? Hxy _]; subst. rewrite Hxy. reflexivity.
Qed.

Lemma StronglySorted_firstn {A : Type} (P : A -> A -> Prop) (n : nat) (l : list A) :
  StronglySorted P l -> StronglySorted P (firstn n l).
Proof.
  revert n. induction l as [| x xs IH]; intros n Hs; destruct n; simpl;
    try constructor.
  - inversion Hs; subst. apply IH. assumption.
  - inversion Hs as [| ? ? _ Hall]; subst.
    rewrite Forall_forall in *. intros y Hy. apply Hall.
    eapply firstn_incl; eassumption.
Qed.

Lemma filter_all {A : Type} (p : A -> bool) (l : list A) :
  (forall x, In x l -> p x = true) -> filter p l = l.
Proof.
  intros Hall. induction l as [| x xs IH]; [reflexivity |].
  simpl. rewrite (Hall x) by (left; reflexivity).
  f_equal. apply IH. intros y Hy. apply Hall. right. exact Hy.
Qed.

(** The cut is idempotent: a list it returned, cut again under the same
    [minScore] and [count], comes back unchanged; and everything it returns
    was in its input. *)
Theorem selectTop_idempotent
    (diversifiedScores : list HybridRecord) (minScore : R) (count : nat) :
  selectTop (selectTop diversifiedScores minScore count) minScore count
  = selectTop diversifiedScores minScore count
  /\ incl (selectTop diversifiedScores minScore count) diversifiedScores.
Proof.
  assert (Hincl : incl (selectTop diversifiedScores minScore count)
                    (filter (fun item => Rleb minScore (h_score item))
                            diversifiedScores)).
  { intros r Hr. unfold selectTop in Hr. apply firstn_incl in Hr.
    apply (Permutation_in _ (jsSort_perm byScoreDesc _)) in Hr. exact Hr. }
  split.
  - set (out := selectTop diversifiedScores minScore count).
    unfold selectTop at 1.
    rewrite filter_all.
    + rewrite jsSort_sorted_fixed.
      * apply firstn_all2. unfold out, selectTop. apply firstn_le_length.
      * unfold out, selectTop. apply StronglySorted_firstn, jsSort_sorted.
        -- apply byScoreDesc_total.
        -- apply byScoreDesc_trans.
    + intros r Hr. apply Hincl in Hr. apply filter_In in Hr. apply Hr.
  - intros r Hr. apply Hincl in Hr. apply filter_In in Hr. apply Hr.
Qed.

(** ** The scorers and the candidates *)

Lemma popularityFallback_candidates (movies : list Movie) (source : string) :
  Forall (fun r => s_source r = source
                   /\ exists movie, In movie movies /\ s_movie r = Some movie
                                    /\ s_movieId r = m_id movie)
    (popularityFallback movies source).
Proof.
  apply Forall_forall. intros r Hr. unfold popularityFallback in Hr.
  apply in_map_iff in Hr. destruct Hr as (movie & <- & Hin).
  split; [reflexivity |]. exists movie. repeat split. exact Hin.
Qed.

(** The collaborative scorer never takes the user-based path: whatever the
    services answer, its records are the popularity fallback tagged
    'collaborative-cold' (when the model throws or predicts nothing) or the
    model's predictions tagged 'collaborative-matrix' with scores in [0,1],
    one per prediction, a prediction for a title outside the candidates
    carrying no movie. *)
Theorem collaborativeFiltering_paths
    (getUserActions : string -> nat -> option string -> option (list Action))
    (predict : string -> list Z -> option (list Prediction))
    (userId : string) (availableMovies : list Movie) :
  let records := collaborativeFiltering getUserActions predict userId availableMovies in
  Forall (fun r => s_source r <> "collaborative-user") records
  /\ ((predict userId (map m_id availableMovies) = None
       \/ predict userId (map m_id availableMovies) = Some []) ->
      records = popularityFallback availableMovies "collaborative-cold")
  /\ (forall predictions,
         predict userId (map m_id availableMovies) = Some predictions ->
         predictions <> [] ->
         map s_movieId records = map pred_movieId predictions
         /\ Forall (fun r =>
                      s_source r = "collaborative-matrix"
                      /\ 0 <= s_score r <= 1
                      /\ (s_movie r = None
                          <-> ~ In (s_movieId r) (map m_id availableMovies)))
              records).
Proof.
  intros records. subst records. unfold collaborativeFiltering.
  destruct (predict userId (map m_id availableMovies)) as [predictions |] eqn:Hp.
  - destruct predictions as [| pr prs].
    + cbn [List.length Nat.eqb]. rewrite userBasedCollaborativeFiltering_cold.
      split; [| split].
      * eapply Forall_impl; [| apply popularityFallback_candidates].
        intros r [-> _]. discriminate.
      * reflexivity.
      * intros predictions [= <-] Hne. contradiction.
    + cbn [List.length Nat.eqb]. split; [| split].
      * apply Forall_forall. intros r Hr. apply in_map_iff in Hr.
        destruct Hr as (pred & <- & _). discriminate.
      * intros [H | H]; discriminate.
      * intros predictions [= <-] _. split.
        -- rewrite map_map. reflexivity.
        -- apply Forall_forall. intros r Hr. apply in_map_iff in Hr.
           destruct Hr as (pred & <- & _).
           cbn [s_source s_score s_movie s_movieId].
           split; [reflexivity |]. split; [apply normalizeScore_bounds |].
           destruct (find (fun m => (m_id m =? pred_movieId pred)%Z) availableMovies)
             as [m |] eqn:Hfind.
           ++ apply find_some in Hfind. destruct Hfind as [Hin Hid].
              apply Z.eqb_eq in Hid. split; [discriminate |].
              intros Hnot. exfalso. apply Hnot. rewrite <- Hid.
              apply in_map. exact Hin.
           ++ split; [| reflexivity]. intros _ Hin.
              apply in_map_iff in Hin. destruct Hin as (m & Hid & Hm).
              apply (find_none _ _ Hfind) in Hm.
              apply Z.eqb_neq in Hm. contradiction.
  - rewrite userBasedCollaborativeFiltering_cold. split; [| split].
    + eapply Forall_impl; [| apply popularityFallback_candidates].
      intros r [-> _]. discriminate.
    + reflexivity.
    + intros predictions Hsome. discriminate.
Qed.

Lemma StronglySorted_app_cross {A : Type} (P : A -> A -> Prop) (l1 l2 : list A) :
  StronglySorted P (l1 ++ l2) ->
  forall a b, In a l1 -> In b l2 -> P a b.
Proof.
  induction l1 as [| x xs IH]; intros Hs a b Ha Hb; [contradiction |].
  simpl in Hs. inversion Hs as [| ? ? Hrest Hall]; subst.
  destruct Ha as [<- | Ha].
  - rewrite Forall_forall in Hall. apply Hall, in_or_app. right. exact Hb.
  - apply IH; assumption.
Qed.

(** The preferred genres of the rule scorer are at most three keys of the
    genre preferences, and they are the best ones: no genre left out has a
    larger value than a genre taken. *)
Theorem extractRulePreferences_top_genres
    (userProfile : UserProfile) (rulePreferences : RulePreferences) :
  extractRulePreferences userProfile = Some rulePreferences ->
  exists preferences genres taken left,
    u_preferences userProfile = Some preferences
    /\ p_genres preferences = Some genres
    /\ rp_preferredGenres rulePreferences = map fst taken
    /\ (List.length taken <= 3)%nat
    /\ Permutation (taken ++ left) genres
    /\ (forall a b, In a taken -> In b left -> snd b <= snd a)
    /\ (List.length genres <= 3 -> left = [])%nat.
Proof.
  unfold extractRulePreferences.
  destruct (u_preferences userProfile) as [preferences |] eqn:Hp; [| discriminate].
  destruct (p_genres preferences) as [genres |] eqn:Hg; [| discriminate].
  intros [= <-]. cbn [rp_preferredGenres].
  set (before := fun a b : string * R => Rleb (snd b - snd a) 0).
  exists preferences, genres, (firstn 3 (jsSort before genres)),
    (skipn 3 (jsSort before genres)).
  split; [reflexivity |]. split; [exact Hg |]. split; [reflexivity |].
  split; [apply firstn_le_length |].
  split; [rewrite firstn_skipn; apply jsSort_perm |].
  split.
  - intros a b Ha Hb.
    assert (Hsorted : StronglySorted (fun a b => before a b = true)
                        (firstn 3 (jsSort before genres)
                         ++ skipn 3 (jsSort before genres))).
    { rewrite firstn_skipn. apply jsSort_sorted.
      - intros x y. unfold before. rewrite Rleb_false, Rleb_true. lra.
      - intros x y z. unfold before. rewrite !Rleb_true. lra. }
    pose proof (StronglySorted_app_cross _ _ _ Hsorted a b Ha Hb) as Hab.
    unfold before in Hab. apply Rleb_true in Hab. lra.
  - intros Hlen. apply skipn_all2. rewrite jsSort_length. exact Hlen.
Qed.

Lemma extractRulePreferences_genreProfile :
  extractRulePreferences genreProfile = Some genreRulePreferences.
Proof.
  unfold extractRulePreferences, genreProfile, genreRulePreferences.
  cbn [u_preferences p_genres p_ratingThreshold p_yearPreference
         p_runtimePreference jsSort insertSorted snd].
  repeat match goal with
         | |- context [Rleb ?a ?b] =>
             first [ rewrite (proj2 (Rleb_true a b)) by lra
                   | rewrite (proj2 (Rleb_false a b)) by lra ];
             cbn [insertSorted snd]
         end.
  cbn [firstn map fst]. rewrite jsOr_nonzero by lra. reflexivity.
Qed.

Lemma extractRulePreferences_top_genres_witness :
  exists preferences genres taken left,
    u_preferences genreProfile = Some preferences
    /\ p_genres preferences = Some genres
    /\ rp_preferredGenres genreRulePreferences = map fst taken
    /\ (List.length taken <= 3)%nat
    /\ Permutation (taken ++ left) genres
    /\ (forall a b, In a taken -> In b left -> snd b <= snd a)
    /\ (List.length genres <= 3 -> left = [])%nat.
Proof.
  apply (extractRulePreferences_top_genres genreProfile genreRulePreferences).
  exact extractRulePreferences_genreProfile.
Defined.

Lemma diversityLoop_ids (f : R) (recs : list HybridRecord) :
  forall sg sd, map h_movieId (diversityLoop f sg sd recs) = map h_movieId recs.
Proof.
  induction recs as [| r rest IH]; intros sg sd; [reflexivity |].
  simpl. rewrite IH. reflexivity.
Qed.

Lemma applyDiversityFilter_ids (recs : list HybridRecord) (f : R) :
  Permutation (map h_movieId (applyDiversityFilter recs f)) (map h_movieId recs).
Proof.
  unfold applyDiversityFilter. destruct (Rle_dec f 0); [apply Permutation_refl |].
  rewrite diversityLoop_ids. apply Permutation_map, jsSort_perm.
Qed.

Lemma NoDup_map_filter {A B : Type} (g : A -> B) (p : A -> bool) (l : list A) :
  NoDup (map g l) -> NoDup (map g (filter p l)).
Proof.
  induction l as [| x xs IH]; intros Hnd; [constructor |].
  simpl in *. inversion Hnd as [| ? ? Hnotin Hrest]; subst.
  destruct (p x); [| apply IH; exact Hrest].
  simpl. constructor; [| apply IH; exact Hrest].
  intros Hin. apply Hnotin. apply in_map_iff in Hin.
  destruct Hin as (y & Hy & Hin). apply filter_In in Hin.
  rewrite <- Hy. apply in_map. apply Hin.
Qed.

Lemma NoDup_firstn {A : Type} (n : nat) (l : list A) :
  NoDup l -> NoDup (firstn n l).
Proof.
  intros Hnd. rewrite <- (firstn_skipn n l) in Hnd.
  apply NoDup_app_remove_r in Hnd. exact Hnd.
Qed.

Lemma selectTop_ids (ds : list HybridRecord) (minScore : R) (count : nat) :
  NoDup (map h_movieId ds) ->
  NoDup (map h_movieId (selectTop ds minScore count))
  /\ incl (map h_movieId (selectTop ds minScore count)) (map h_movieId ds).
Proof.
  intros Hnd. unfold selectTop. split.
  - rewrite <- firstn_map. apply NoDup_firstn.
    eapply Permutation_NoDup;
      [apply Permutation_sym, Permutation_map, jsSort_perm |].
    apply NoDup_map_filter. exact Hnd.
  - intros id Hin. apply in_map_iff in Hin. destruct Hin as (r & <- & Hr).
    apply firstn_incl in Hr.
    apply (Permutation_in _ (jsSort_perm byScoreDesc _)) in Hr.
    apply filter_In in Hr. apply in_map. apply Hr.
Qed.

Lemma combineScores_one_record_ids
    (cs co se ru : list ScoreRecord) (weights : Weights) (incl : bool) :
  NoDup (map h_movieId (combineScores cs co se ru weights incl))
  /\ (forall id,
         In id (map h_movieId (combineScores cs co se ru weights incl)) ->
         exists item,
           In item (cs ++ co ++ se ++ ru)
           /\ s_movieId item = id /\ s_movie item <> None).
Proof.
  unfold combineScores. rewrite map_map. cbn [toHybrid h_movieId]. split.
  - repeat apply ingestScores_nodup. constructor.
  - intros id. rewrite !ingestScores_ids. simpl.
    intros [[[[[] | H] | H] | H] | H]; destruct H as (item & Hin & H);
      exists item; (split; [| exact H]); rewrite !in_app_iff; tauto.
Qed.

(** From the scorers to the cut, the pipeline recommends candidates only,
    and each at most once: every returned [movieId] is the id of a movie of
    [availableMovies], whatever the model predicts, and no id comes twice. *)
Theorem scoreAndRank_only_candidates
    (now : Z)
    (getUserActions : string -> nat -> option string -> option (list Action))
    (predict : string -> list Z -> option (list Prediction))
    (userId : string) (userProfile : UserProfile) (weights : Weights)
    (availableMovies : list Movie) (count : nat) (minScore diversityFactor : R)
    (includeExplanations : bool) :
  let recommendations :=
    scoreAndRank now getUserActions predict userId userProfile weights
      availableMovies count minScore diversityFactor includeExplanations in
  NoDup (map h_movieId recommendations)
  /\ incl (map h_movieId recommendations) (map m_id availableMovies)
  /\ (List.length recommendations <= count)%nat.
Proof.
  intros recommendations. subst recommendations. unfold scoreAndRank.
  set (hybrid := combineScores _ _ _ _ weights includeExplanations).
  destruct (combineScores_one_record_ids
              (contentBasedRecommendation availableMovies userProfile)
              (collaborativeFiltering getUserActions predict userId availableMovies)
              (sequenceBasedRecommendation now availableMovies userProfile)
              (ruleBasedRecommendation availableMovies userProfile)
              weights includeExplanations) as [Hnd Hcov].
  fold hybrid in Hnd, Hcov.
  assert (Hnd' : NoDup (map h_movieId (applyDiversityFilter hybrid diversityFactor))).
  { eapply Permutation_NoDup;
      [apply Permutation_sym, applyDiversityFilter_ids | exact Hnd]. }
  destruct (selectTop_ids _ minScore count Hnd') as [Hout Hincl].
  split; [exact Hout |]. split; [| apply firstn_le_length].
  intros id Hid. apply Hincl in Hid.
  apply (Permutation_in _ (applyDiversityFilter_ids hybrid diversityFactor)) in Hid.
  apply Hcov in Hid. destruct Hid as (item & Hin & <- & Hmovie).
  assert (Hmap : forall (it : ScoreRecord) (f : Movie -> R) (source : string),
             In it (map (fun movie =>
                           {| s_movieId := m_id movie; s_movie := Some movie;
                              s_score := f movie; s_source := source |})
                        availableMovies) ->
             In (s_movieId it) (map m_id availableMovies)).
  { intros it f source H. apply in_map_iff in H. destruct H as (movie & <- & Hm).
    cbn [s_movieId]. apply in_map. exact Hm. }
  rewrite !in_app_iff in Hin. destruct Hin as [Hin | [Hin | [Hin | Hin]]].
  - unfold contentBasedRecommendation, popularityFallback in Hin.
    destruct (u_preferences userProfile);
      [destruct (u_ratingCount userProfile =? 0)%nat |]; eapply Hmap; exact Hin.
  - unfold collaborativeFiltering in Hin.
    destruct (predict userId (map m_id availableMovies)) as [predictions |].
    + destruct (List.length predictions =? 0)%nat.
      * rewrite userBasedCollaborativeFiltering_cold in Hin.
        eapply Hmap; exact Hin.
      * apply in_map_iff in Hin. destruct Hin as (pred & <- & _).
        cbn [s_movie s_movieId] in *.
        destruct (find (fun m => (m_id m =? pred_movieId pred)%Z) availableMovies)
          as [m |] eqn:Hfind; [| contradiction].
        apply find_some in Hfind. destruct Hfind as [Hm Hid].
        apply Z.eqb_eq in Hid. rewrite <- Hid. apply in_map. exact Hm.
    + rewrite userBasedCollaborativeFiltering_cold in Hin. eapply Hmap; exact Hin.
  - unfold sequenceBasedRecommendation, popularityFallback in Hin.
    destruct (List.length (u_recentActions userProfile) =? 0)%nat;
      eapply Hmap; exact Hin.
  - unfold ruleBasedRecommendation, popularityFallback in Hin.
    destruct (extractRulePreferences userProfile); eapply Hmap; exact Hin.
Qed.

(** ** The profile builder *)

Lemma sessions_count (T : Z) (actions : list Action) :
  (List.length (groupActionsBySessions actions T) <= List.length actions)%nat
  /\ (actions <> [] -> groupActionsBySessions actions T <> []).
Proof.
  destruct (groupActionsBySessions_spec T actions) as (Hall & _ & Hcat).
  set (sessions := groupActionsBySessions actions T) in *.
  assert (Hlen : List.length (List.concat sessions) = List.length actions)
    by (rewrite Hcat; apply jsSort_length).
  split.
  - rewrite <- Hlen. clear Hlen Hcat.
    induction Hall as [| s rest [Hne _] _ IH]; [simpl; lia |].
    simpl. rewrite length_app. destruct s; [contradiction | simpl; lia].
  - intros Hne Hnil. rewrite Hnil in Hlen. simpl in Hlen.
    destruct actions; [contradiction | discriminate].
Qed.

(** [getUserProfile] never fails.  When a read of the tracking service
    throws it returns the profile with [ratingCount] 0, no recent action and
    no preferences; otherwise the profile counts the ratings, keeps at most
    20 recent actions, has sessionDepth and recencyScore in [0,1], and an
    engagement of 0 without actions and of at least 1 with some. *)
Theorem getUserProfile_shape
    (now : Z) (currentYear : R)
    (getUserActions : string -> nat -> option string -> option (list Action))
    (getRecentActions : string -> option (list Action))
    (userId : string) :
  let profile :=
    getUserProfile now currentYear getUserActions getRecentActions userId in
  ((getUserActions userId 1000%nat (Some "rate") = None
    \/ getRecentActions userId = None
    \/ getUserActions userId 1000%nat None = None) ->
   profile = degenerateProfile userId)
  /\ (forall ratings recent all,
         getUserActions userId 1000%nat (Some "rate") = Some ratings ->
         getRecentActions userId = Some recent ->
         getUserActions userId 1000%nat None = Some all ->
         u_ratingCount profile = List.length ratings
         /\ u_preferences profile
            = Some (calculateUserPreferences currentYear ratings)
         /\ exists engagement,
              u_engagement profile = Some engagement
              /\ (all = [] -> engagement = 0)
              /\ (all <> [] -> 1 <= engagement))
  /\ (List.length (u_recentActions profile) <= DEFAULT_SEQUENCE_WINDOW)%nat
  /\ inUnit (u_sessionDepth profile)
  /\ inUnit (u_recencyScore profile).
Proof.
  intros profile. subst profile. unfold getUserProfile.
  destruct (getUserActions userId 1000%nat (Some "rate")) as [ratings |];
    [| repeat split; try discriminate; simpl; lia].
  destruct (getRecentActions userId) as [recent |];
    [| repeat split; try discriminate; simpl; lia].
  destruct (getUserActions userId 1000%nat None) as [all |];
    [| repeat split; try discriminate; simpl; lia].
  cbn [u_ratingCount u_preferences u_engagement u_recentActions
         u_sessionDepth u_recencyScore inUnit].
  split; [intros [H | [H | H]]; discriminate |].
  split; [| split; [apply firstn_le_length | split]].
  - intros ? ? ? [= <-] [= <-] [= <-].
    split; [reflexivity |]. split; [reflexivity |].
    eexists. split; [reflexivity |].
    destruct (sessions_count DEFAULT_SESSION_TIMEOUT all) as [Hle Hne].
    set (sessions := groupActionsBySessions all DEFAULT_SESSION_TIMEOUT) in *.
    split.
    + intros ->. reflexivity.
    + intros Hall. specialize (Hne Hall).
      destruct (0 <? List.length sessions)%nat eqn:Hpos.
      * apply Nat.ltb_lt in Hpos.
        assert (Hs : 0 < INR (List.length sessions)) by (apply lt_0_INR; exact Hpos).
        apply le_INR in Hle.
        apply (Rmult_le_reg_r (INR (List.length sessions))); [exact Hs |].
        unfold Rdiv. rewrite Rmult_assoc, Rinv_l by lra. lra.
      * apply Nat.ltb_ge in Hpos. destruct sessions; [contradiction | simpl in Hpos; lia].
  - destruct (0 <? _)%nat; [| lra].
    split; [| apply Rmin_l].
    apply Rmin_glb; [lra |]. apply div_nonneg; [apply pos_INR | lra].
  - unfold calculateRecencyScore.
    destruct (List.length recent =? 0)%nat; [lra |].
    split; [| apply Rmin_l].
    apply Rmin_glb; [lra | apply Rmax_l].
Qed.

(** ** The orchestrator and the cache *)

(** Whatever the user, the options, the services and the cache,
    [generateRecommendations] leaves the cache as it found it, and returns
    the cached list on a hit and the empty list otherwise: with the empty
    catalog the cache write is never reached. *)
Theorem generateRecommendations_never_writes
    (now : Z) (currentYear : R)
    (getUserActions : string -> nat -> option string -> option (list Action))
    (getRecentActions : string -> option (list Action))
    (predict : string -> list Z -> option (list Prediction))
    (userId : string) (options : Options) (redis : Cache) :
  generateRecommendations now currentYear getUserActions getRecentActions
    predict userId options redis
  = (match redisGet redis (userId, options) with
     | Some cached => cached
     | None => []
     end, redis).
Proof.
  unfold generateRecommendations.
  destruct (redisGet redis (userId, options)); [reflexivity |].
  rewrite getAvailableMovies_empty. reflexivity.
Qed.

(** ** Runtime preference *)

Lemma weighted_fold_bounds (lo hi : R) (signals : list (R * R)) :
  Forall (fun item => lo <= fst item <= hi /\ 0 < snd item) signals ->
  forall s w,
    lo * w <= s <= hi * w -> 0 <= w ->
    let S := fold_left (fun sum item => sum + fst item * snd item) signals s in
    let W := fold_left (fun sum item => sum + snd item) signals w in
    lo * W <= S <= hi * W /\ w <= W /\ (signals <> [] -> 0 < W).
Proof.
  induction 1 as [| [v wt] rest [Hv Hw] _ IH]; intros s w Hs Hpos; simpl.
  - split; [exact Hs |]. split; [lra |]. intros H. contradiction.
  - simpl in Hv, Hw.
    destruct (IH (s + v * wt) (w + wt)) as (HS & HW & _); [nra | lra |].
    split; [exact HS |]. split; [lra |]. intros _. lra.
Qed.

(** The ideal runtime is a weighted mean: for signals of positive weight
    with values between [lo] and [hi] it lies between [lo] and [hi]; the
    range reaches 50 minutes above it and 40 below, but never below 50, and
    is not empty when the runtimes are positive. *)
Theorem calculateRuntimePreference_mean (lo hi : R) (signals : list (R * R)) :
  signals <> [] ->
  Forall (fun item => lo <= fst item <= hi /\ 0 < snd item) signals ->
  let preference := calculateRuntimePreference signals in
  lo <= rt_ideal preference <= hi
  /\ rt_max preference = rt_ideal preference + 50
  /\ rt_min preference = Rmax 50 (rt_ideal preference - 40)
  /\ 50 <= rt_min preference
  /\ (0 < lo -> rt_min preference < rt_max preference).
Proof.
  intros Hne Hall preference. subst preference.
  unfold calculateRuntimePreference.
  destruct signals as [| x xs] eqn:Hsig; [contradiction |].
  rewrite <- Hsig in *. clear Hsig x xs.
  destruct (List.length signals =? 0)%nat eqn:Hlen.
  { apply Nat.eqb_eq in Hlen. destruct signals; [contradiction | discriminate]. }
  destruct (weighted_fold_bounds lo hi signals Hall 0 0) as (HS & _ & HW);
    [lra | lra |].
  specialize (HW Hne).
  set (S := fold_left (fun sum item => sum + fst item * snd item) signals 0) in *.
  set (W := fold_left (fun sum item => sum + snd item) signals 0) in *.
  rewrite jsOr_nonzero by lra.
  cbn [rt_ideal rt_max rt_min].
  assert (Hmean : lo <= S / W <= hi).
  { split; apply (Rmult_le_reg_r W); try exact HW;
      unfold Rdiv; rewrite Rmult_assoc, Rinv_l by lra; lra. }
  split; [exact Hmean |]. split; [reflexivity |]. split; [reflexivity |].
  split; [apply Rmax_l |].
  intros Hlo. apply Rmax_lub_lt; lra.
Qed.

Lemma calculateRuntimePreference_mean_witness :
  let preference := calculateRuntimePreference [(100, 1); (140, 0.5)] in
  100 <= rt_ideal preference <= 140
  /\ rt_max preference = rt_ideal preference + 50
  /\ rt_min preference = Rmax 50 (rt_ideal preference - 40)
  /\ 50 <= rt_min preference
  /\ (0 < 100 -> rt_min preference < rt_max preference).
Proof.
  apply (calculateRuntimePreference_mean 100 140 [(100, 1); (140, 0.5)]).
  - discriminate.
  - repeat constructor; simpl; lra.
Defined.

(** ** Defaults of the preference ranges *)

Lemma normalizeRatingSignal_low (v : R) : v <= 5.5 -> normalizeRatingSignal v <= 0.
Proof.
  intros Hv. unfold normalizeRatingSignal.
  apply Rmax_lub; [lra |].
  eapply Rle_trans; [apply Rmin_r |]. lra.
Qed.

Lemma preferenceStep_no_signal (acc : PreferenceAcc) (rating : Action) :
  valueOf rating <= 5.5 ->
  runtimeSignals (preferenceStep acc rating) = runtimeSignals acc
  /\ yearSignals (preferenceStep acc rating) = yearSignals acc.
Proof.
  intros Hv. unfold preferenceStep. cbn [runtimeSignals yearSignals].
  assert (Hs : Rltb 0 (normalizeRatingSignal (valueOf rating)) = false).
  { unfold Rltb. destruct (Rlt_dec _ _) as [Hlt |]; [| reflexivity].
    pose proof (normalizeRatingSignal_low _ Hv). lra. }
  rewrite Hs, !Bool.andb_false_r. split; reflexivity.
Qed.

(** Ratings of 5.5 or less never shape the ranges: when no rating is above
    5.5 (in particular without ratings) the runtime preference is the
    default 70..190 around 120 and the year preference the default from
    1980 to the current year.  Whatever the ratings, the lower end of the
    year range is at least 1950 and its upper end at most the current year
    (nothing keeps the two ends in order), and the runtime range starts at
    50 or above. *)
Theorem calculateUserPreferences_ranges (currentYear : R) (ratings : list Action) :
  let preferences := calculateUserPreferences currentYear ratings in
  (exists runtimePreference yearPreference,
      p_runtimePreference preferences = Some runtimePreference
      /\ p_yearPreference preferences = Some yearPreference
      /\ 50 <= rt_min runtimePreference
      /\ 1950 <= y_min yearPreference
      /\ y_max yearPreference <= currentYear)
  /\ ((forall r, In r ratings -> valueOf r <= 5.5) ->
      p_runtimePreference preferences
      = Some {| rt_min := 70; rt_max := 190; rt_ideal := 120 |}
      /\ p_yearPreference preferences
         = Some {| y_min := 1980; y_max := currentYear |}).
Proof.
  intros preferences. subst preferences. unfold calculateUserPreferences.
  cbn [p_runtimePreference p_yearPreference].
  set (acc := fold_left preferenceStep ratings emptyPreferenceAcc).
  split.
  - do 2 eexists. split; [reflexivity |]. split; [reflexivity |].
    unfold calculateRuntimePreference, calculateYearPreference.
    destruct (List.length (runtimeSignals acc) =? 0)%nat;
      destruct (List.length (yearSignals acc) =? 0)%nat;
      cbn [rt_min y_min y_max];
      repeat split; try lra; try apply Rmax_l; try apply Rmin_l.
  - intros Hlow.
    assert (Hnone : runtimeSignals acc = [] /\ yearSignals acc = []).
    { unfold acc.
      assert (Hinit : runtimeSignals emptyPreferenceAcc = []
                      /\ yearSignals emptyPreferenceAcc = [])
        by (split; reflexivity).
      revert Hinit. generalize emptyPreferenceAcc.
      induction ratings as [| r rs IH]; intros a Ha; [exact Ha |].
      simpl. apply IH.
      - intros x Hx. apply Hlow. right. exact Hx.
      - destruct (preferenceStep_no_signal a r) as [H1 H2];
          [apply Hlow; left; reflexivity |].
        rewrite H1, H2. exact Ha. }
    destruct Hnone as [-> ->]. split; reflexivity.
Qed.

(** ** Coverage of the candidates *)

(** Every candidate is scored: the content scorer returns one record per
    candidate, in order, carrying the candidate, and the fusion of the four
    scorers holds a record for every candidate. *)
Theorem fusion_covers_candidates
    (now : Z)
    (getUserActions : string -> nat -> option string -> option (list Action))
    (predict : string -> list Z -> option (list Prediction))
    (userId : string) (userProfile : UserProfile) (weights : Weights)
    (availableMovies : list Movie) (includeExplanations : bool) :
  map s_movie (contentBasedRecommendation availableMovies userProfile)
  = map Some availableMovies
  /\ map s_movieId (contentBasedRecommendation availableMovies userProfile)
     = map m_id availableMovies
  /\ forall movie,
       In movie availableMovies ->
       In (m_id movie)
         (map h_movieId
            (combineScores
               (contentBasedRecommendation availableMovies userProfile)
               (collaborativeFiltering getUserActions predict userId availableMovies)
               (sequenceBasedRecommendation now availableMovies userProfile)
               (ruleBasedRecommendation availableMovies userProfile)
               weights includeExplanations)).
Proof.
  assert (Hshape : exists f source,
             contentBasedRecommendation availableMovies userProfile
             = map (fun movie =>
                      {| s_movieId := m_id movie; s_movie := Some movie;
                         s_score := f movie; s_source := source |})
                   availableMovies).
  { unfold contentBasedRecommendation, popularityFallback.
    destruct (u_preferences userProfile);
      [destruct (u_ratingCount userProfile =? 0)%nat |];
      do 2 eexists; reflexivity. }
  destruct Hshape as (f & source & Hshape).
  split; [| split].
  - rewrite Hshape, map_map. reflexivity.
  - rewrite Hshape, map_map. reflexivity.
  - intros movie Hin. unfold combineScores. rewrite map_map.
    cbn [toHybrid h_movieId]. rewrite !ingestScores_ids.
    left. left. left. right.
    exists {| s_movieId := m_id movie; s_movie := Some movie;
              s_score := f movie; s_source := source |}.
    split; [| split; [reflexivity | discriminate]].
    rewrite Hshape.
    apply (in_map (fun movie =>
                     {| s_movieId := m_id movie; s_movie := Some movie;
                        s_score := f movie; s_source := source |})).
    exact Hin.
Qed.

(** ** One session *)

(** Actions that all lie within one timeout of each other form a single
    session: the actions sorted by timestamp. *)
Theorem groupActionsBySessions_single (actions : list Action) (sessionTimeout : Z) :
  actions <> [] ->
  (forall a b, In a actions -> In b actions ->
               (a_timestamp b - a_timestamp a <= sessionTimeout)%Z) ->
  groupActionsBySessions actions sessionTimeout
  = [jsSort byTimestampAsc actions].
Proof.
  intros Hne Hclose.
  destruct (groupActionsBySessions_spec sessionTimeout actions)
    as (Hall & Hapart & Hcat).
  destruct (sessions_count sessionTimeout actions) as [_ Hsome].
  specialize (Hsome Hne).
  destruct (groupActionsBySessions actions sessionTimeout) as [| s1 [| s2 rest]].
  - contradiction.
  - simpl in Hcat. rewrite app_nil_r in Hcat. rewrite Hcat. reflexivity.
  - exfalso. destruct Hapart as [Hgap _].
    inversion Hall as [| ? ? [Hs1 _] Hrest]; subst.
    inversion Hrest as [| ? ? [Hs2 _] _]; subst.
    assert (Hin : forall a, In a (s1 ++ s2) -> In a actions).
    { intros a Ha.
      apply (Permutation_in _ (jsSort_perm byTimestampAsc actions)).
      rewrite <- Hcat. simpl. rewrite app_assoc. apply in_or_app. left. exact Ha. }
    destruct s1 as [| x xs]; [contradiction |].
    destruct s2 as [| y ys]; [contradiction |].
    specialize (Hgap x).
    assert (Hlast : In (last (x :: xs) x) (x :: xs)).
    { destruct (exists_last (l := x :: xs)) as (l' & z & Heq); [discriminate |].
      rewrite Heq, last_last. apply in_or_app. right. left. reflexivity. }
    assert (Ha : In (last (x :: xs) x) actions)
      by (apply Hin, in_or_app; left; exact Hlast).
    assert (Hb : In y actions)
      by (apply Hin, in_or_app; right; left; reflexivity).
    pose proof (Hclose _ _ Ha Hb) as Hle. simpl hd in Hgap. lia.
Qed.

Lemma groupActionsBySessions_single_witness :
  groupActionsBySessions [actionAt 1740000; actionAt 0] DEFAULT_SESSION_TIMEOUT
  = [jsSort byTimestampAsc [actionAt 1740000; actionAt 0]].
Proof.
  apply (groupActionsBySessions_single [actionAt 1740000; actionAt 0]
           DEFAULT_SESSION_TIMEOUT).
  - discriminate.
  - intros a b Ha Hb. simpl in Ha, Hb.
    destruct Ha as [<- | [<- | []]]; destruct Hb as [<- | [<- | []]];
      vm_compute; discriminate.
Defined.
